(** * Relevance ranking pipeline: section detection, scoring, ranking, refinement

    A shallow embedding of [utils/ranker.py] (class [ContentRanker]) and
    [utils/text_extractor.py] (class [EnhancedTextExtractor]).

    Modelling conventions.
    - A Python [str] is a [list ascii]; the alphabet is ASCII.  Codes above
      127 are kept as characters that are neither whitespace, word
      characters nor cased letters.
    - A Python [float] score is a rational number ([Q]); the arithmetic is
      exact, comparisons are those of [Q].
    - A Python [int] that may be negative (lengths compared with a budget,
      slice bounds) is a [Z]; list positions are [nat].
    - The section dictionaries that [rank_sections] mutates live in a store
      indexed by references, so that two list entries may denote the same
      dictionary.
    - [re] is embedded as a backtracking matcher over a small regular
      expression syntax; each pattern of the source is a term of it.
    - The TF-IDF vectoriser (scikit-learn) is a parameter: it either raises
      or yields the similarity array. *)

From Stdlib Require Import Ascii String List ZArith NArith QArith Qminmax Lia Lqa Bool.
From Stdlib Require Import Permutation Sorted Arith.
Import ListNotations.

Set Implicit Arguments.
Close Scope Q_scope.
Local Open Scope string_scope.
Local Open Scope list_scope.
Local Open Scope bool_scope.

(** ** Python strings *)

Definition str := list ascii.

(** A string literal of the source. *)
Definition lit (s : string) : str := list_ascii_of_string s.

Module Py.

Definition code (c : ascii) : N := N_of_ascii c.

Definition between (lo hi : N) (c : ascii) : bool :=
  (N.leb lo (code c)) && (N.leb (code c) hi).

(** [str.isspace] on one ASCII character: TAB..CR, FS..US and SPACE. *)
Definition isspace (c : ascii) : bool :=
  between 9 13 c || between 28 32 c.

Definition isupper (c : ascii) : bool := between 65 90 c.
Definition islower (c : ascii) : bool := between 97 122 c.
Definition isdigit (c : ascii) : bool := between 48 57 c.
Definition isalpha (c : ascii) : bool := isupper c || islower c.

(** The class [\w]. *)
Definition isword (c : ascii) : bool :=
  isalpha c || isdigit c || N.eqb (code c) 95.

Definition lower_char (c : ascii) : ascii :=
  if isupper c then ascii_of_N (code c + 32) else c.

(** [s.lower()] *)
Definition lower (s : str) : str := map lower_char s.

Definition eqc (a b : ascii) : bool := Ascii.eqb a b.

Fixpoint eqs (a b : str) : bool :=
  match a, b with
  | [], [] => true
  | x :: a', y :: b' => eqc x y && eqs a' b'
  | _, _ => false
  end.

(** [len(s)] *)
Definition len (s : str) : Z := Z.of_nat (length s).

(** [s.startswith(p)] *)
Fixpoint startswith (p s : str) : bool :=
  match p, s with
  | [], _ => true
  | x :: p', y :: s' => eqc x y && startswith p' s'
  | _ :: _, [] => false
  end.

(** [s.endswith(p)] *)
Definition endswith (p s : str) : bool := startswith (rev p) (rev s).

(** [p in s] *)
Fixpoint contains (p s : str) : bool :=
  match s with
  | [] => match p with [] => true | _ => false end
  | _ :: s' => startswith p s || contains p s'
  end.

(** [any(t in s for t in terms)] *)
Definition any_in (terms : list str) (s : str) : bool :=
  existsb (fun t => contains t s) terms.

(** [sum(1 for t in terms if t in s)] *)
Definition count_in (terms : list str) (s : str) : Z :=
  Z.of_nat (length (filter (fun t => contains t s) terms)).

(** [x in xs] for a list of strings. *)
Definition mem (x : str) (xs : list str) : bool := existsb (eqs x) xs.

Fixpoint lstrip (s : str) : str :=
  match s with
  | c :: s' => if isspace c then lstrip s' else s
  | [] => []
  end.

(** [s.strip()] *)
Definition strip (s : str) : str := rev (lstrip (rev (lstrip s))).

(** [s.split()]: maximal runs of non-whitespace characters.  [cur] is the
    run being read, reversed. *)
Fixpoint split_ws_aux (cur : str) (s : str) : list str :=
  match s with
  | [] => match cur with [] => [] | _ => [rev cur] end
  | c :: s' =>
      if isspace c
      then match cur with
           | [] => split_ws_aux [] s'
           | _ => rev cur :: split_ws_aux [] s'
           end
      else split_ws_aux (c :: cur) s'
  end.

Definition split_ws (s : str) : list str := split_ws_aux [] s.

(** [s.split(sep)] for a non-empty separator: left-to-right, separators do
    not overlap.  [skip] counts the characters of a separator that has just
    been recognised and are still to be passed over. *)
Fixpoint split_aux (sep : str) (skip : nat) (cur : str) (s : str) : list str :=
  match s with
  | [] => [rev cur]
  | c :: s' =>
      match skip with
      | S k => split_aux sep k cur s'
      | O =>
          if startswith sep s
          then rev cur :: split_aux sep (pred (length sep)) [] s'
          else split_aux sep 0 (c :: cur) s'
      end
  end.

Definition split (sep : str) (s : str) : list str := split_aux sep 0 [] s.

(** [sep.join(xs)] *)
Fixpoint join (sep : str) (xs : list str) : str :=
  match xs with
  | [] => []
  | [x] => x
  | x :: xs' => x ++ sep ++ join sep xs'
  end.

(** [xs[:k]] with Python's reading of a negative bound. *)
Definition slice_to {A} (k : Z) (xs : list A) : list A :=
  if (0 <=? k)%Z then firstn (Z.to_nat k) xs
  else firstn (Z.to_nat (Z.of_nat (length xs) + k)) xs.

(** [xs[i:j]] for non-negative bounds. *)
Definition slice {A} (i j : nat) (xs : list A) : list A :=
  firstn (j - i) (skipn i xs).

(** [s.rfind(c)] for a one-character needle: the last position of [c],
    or -1. *)
Fixpoint rfind_aux (c : ascii) (i : Z) (best : Z) (s : str) : Z :=
  match s with
  | [] => best
  | x :: s' => rfind_aux c (i + 1) (if eqc x c then i else best) s'
  end.

Definition rfind (c : ascii) (s : str) : Z := rfind_aux c 0 (-1) s.

(** [list(set(xs))]: one copy of each element.  Python leaves the order
    of the copies unspecified; the first occurrence is kept here. *)
Fixpoint dedup (xs : list str) : list str :=
  match xs with
  | [] => []
  | x :: xs' => x :: filter (fun y => negb (eqs x y)) (dedup xs')
  end.

(** Truthiness of a string or a list. *)
Definition truthy {A} (xs : list A) : bool :=
  match xs with [] => false | _ => true end.

End Py.

(** ** Regular expressions ([re])

    The fragment of Python's pattern language that the source uses:
    character classes, sequence, ordered alternation, greedy bounded and
    unbounded repetition, the anchors [^] and [$], the word boundary [\b] and
    one capturing group.  Matching is by backtracking, first success wins,
    as in [re]. *)

Module Re.

Inductive regex : Type :=
| Eps
| Chr (p : ascii -> bool)
| Seq (r1 r2 : regex)
| Alt (r1 r2 : regex)
| Rep (r : regex) (lo : nat) (hi : option nat)
| Bol
| Eol
| Wordb
| Grp (r : regex).

(** A position in the subject: the character before it (none at the start
    of the string), what is left to read, and the text of the group. *)
Record state : Type := mkState {
  prev : option ascii;
  rest : str;
  cap : option str
}.

Definition wordp (c : option ascii) : bool :=
  match c with Some x => Py.isword x | None => false end.

Definition is_nl (c : ascii) : bool := N.eqb (Py.code c) 10.

Section Matcher.
Variable A : Type.

Definition cont : Type := state -> option A.

(** Greedy repetition of [body], between [lo] and [hi] times.  One more
    round is tried first; when everything after it fails the repetition
    stops here.  A round that reads nothing is not repeated. *)
Fixpoint rep (body : state -> cont -> option A) (fuel lo : nat)
         (hi : option nat) (st : state) (k : cont) : option A :=
  match fuel with
  | O => match lo with O => k st | S _ => None end
  | S f =>
      let more :=
        match hi with
        | Some O => None
        | _ =>
            body st (fun st' =>
              if Nat.ltb (length (rest st')) (length (rest st))
              then rep body f (pred lo) (option_map pred hi) st' k
              else None)
        end in
      match more with
      | Some x => Some x
      | None => match lo with O => k st | S _ => None end
      end
  end.

Fixpoint run (r : regex) (st : state) (k : cont) : option A :=
  match r with
  | Eps => k st
  | Chr p =>
      match rest st with
      | c :: s' => if p c then k (mkState (Some c) s' (cap st)) else None
      | [] => None
      end
  | Seq a b => run a st (fun st' => run b st' k)
  | Alt a b =>
      match run a st k with
      | Some x => Some x
      | None => run b st k
      end
  | Rep a lo hi => rep (run a) (S (length (rest st))) lo hi st k
  | Bol => match prev st with None => k st | Some _ => None end
  | Eol =>
      match rest st with
      | [] => k st
      | [c] => if is_nl c then k st else None
      | _ => None
      end
  | Wordb =>
      if xorb (wordp (prev st)) (wordp (hd_error (rest st)))
      then k st else None
  | Grp a =>
      run a st (fun st' =>
        k (mkState (prev st') (rest st')
             (Some (firstn (length (rest st) - length (rest st')) (rest st)))))
  end.
End Matcher.

(** A match of [r] that starts where [s] starts, [p] being the character
    before; the state returned is the end of the match. *)
Definition match_at (r : regex) (p : option ascii) (s : str) : option state :=
  run r (mkState p s None) (fun st => Some st).

(** [re.match(r, s)] as a truth value. *)
Definition re_match (r : regex) (s : str) : bool :=
  match match_at r None s with Some _ => true | None => false end.

Fixpoint has_grp (r : regex) : bool :=
  match r with
  | Seq a b | Alt a b => has_grp a || has_grp b
  | Rep a _ _ => has_grp a
  | Grp _ => true
  | _ => false
  end.

(** What [findall] lists for one match: the group when the pattern has
    one, the whole match otherwise. *)
Definition item (r : regex) (s : str) (st : state) : str :=
  if has_grp r
  then match cap st with Some c => c | None => [] end
  else firstn (length s - length (rest st)) s.

(** [re.findall(r, s)]: matches are searched left to right and do not
    overlap.  [skip] counts the characters of the last match still to be
    passed over. *)
Fixpoint findall_aux (r : regex) (p : option ascii) (skip : nat) (s : str)
  : list str :=
  match s with
  | [] =>
      match skip with
      | S _ => []
      | O => match match_at r p [] with
             | Some st => [item r [] st]
             | None => []
             end
      end
  | c :: s' =>
      match skip with
      | S k => findall_aux r (Some c) k s'
      | O =>
          match match_at r p s with
          | Some st =>
              item r s st
                :: findall_aux r (Some c) (pred (length s - length (rest st))) s'
          | None => findall_aux r (Some c) 0 s'
          end
      end
  end.

Definition findall (r : regex) (s : str) : list str := findall_aux r None 0 s.

(** [re.sub(r, '', s)]: every match is deleted. *)
Fixpoint sub_aux (r : regex) (p : option ascii) (skip : nat) (s : str) : str :=
  match s with
  | [] => []
  | c :: s' =>
      match skip with
      | S k => sub_aux r (Some c) k s'
      | O =>
          match match_at r p s with
          | Some st =>
              match length s - length (rest st) with
              | O => c :: sub_aux r (Some c) 0 s'
              | S k => sub_aux r (Some c) k s'
              end
          | None => c :: sub_aux r (Some c) 0 s'
          end
      end
  end.

Definition sub_empty (r : regex) (s : str) : str := sub_aux r None 0 s.

(** The least number of characters a match of [r] reads. *)
Fixpoint min_len (r : regex) : nat :=
  match r with
  | Eps | Bol | Eol | Wordb => 0
  | Chr _ => 1
  | Seq a b => min_len a + min_len b
  | Alt a b => Nat.min (min_len a) (min_len b)
  | Rep a lo _ => lo * min_len a
  | Grp a => min_len a
  end.

(** What it means for a matcher to hand its continuation a state that
    lies at least [n] characters further. *)
Definition reads (A : Type) (n : nat) (body : state -> cont A -> option A) : Prop :=
  forall st k x, body st k = Some x ->
    exists st', k st' = Some x /\ length (rest st') + n <= length (rest st).

(** *** Pattern combinators *)

Definition one_of (s : string) (c : ascii) : bool := existsb (Py.eqc c) (lit s).

Definition chr (c : ascii) : regex := Chr (Py.eqc c).

(** A literal word. *)
Fixpoint word_of (s : str) : regex :=
  match s with
  | [] => Eps
  | [c] => chr c
  | c :: s' => Seq (chr c) (word_of s')
  end.

Definition word (s : string) : regex := word_of (lit s).

(** [a|b|...] *)
Fixpoint alts (rs : list regex) : regex :=
  match rs with
  | [] => Chr (fun _ => false)
  | [r] => r
  | r :: rs' => Alt r (alts rs')
  end.

(** [abc...] *)
Fixpoint seqs (rs : list regex) : regex :=
  match rs with
  | [] => Eps
  | [r] => r
  | r :: rs' => Seq r (seqs rs')
  end.

Definition words (ws : list string) : regex := alts (map word ws).

Definition star (r : regex) : regex := Rep r 0 None.
Definition plus (r : regex) : regex := Rep r 1 None.
Definition opt (r : regex) : regex := Rep r 0 (Some 1).
Definition range (r : regex) (lo hi : nat) : regex := Rep r lo (Some hi).
Definition at_least (r : regex) (lo : nat) : regex := Rep r lo None.

(** [\s], [\w], [\d] *)
Definition ws : regex := Chr Py.isspace.
Definition wd : regex := Chr Py.isword.
Definition dg : regex := Chr Py.isdigit.

End Re.

(** ** [utils/ranker.py]: class [ContentRanker] *)

Definition nl : ascii := ascii_of_N 10.

(** Section dictionaries.  [document] and [section_title] are read with
    [dict.get], so they may be absent; the two keys that [rank_sections]
    writes are absent until it has run. *)
Record section : Type := mkSection {
  document : option str;
  page_number : Z;
  text : str;
  section_title : option str;
  source : str;
  relevance_score : option Q;
  importance_rank : option Z
}.

(** References to section dictionaries and the store they point into. *)
Definition ref := nat.
Definition store := ref -> section.

Definition set_relevance_score (q : Q) (d : section) : section :=
  mkSection (document d) (page_number d) (text d) (section_title d) (source d)
            (Some q) (importance_rank d).

Definition set_importance_rank (k : Z) (d : section) : section :=
  mkSection (document d) (page_number d) (text d) (section_title d) (source d)
            (relevance_score d) (Some k).

(** [section[...] = ...] through a reference. *)
Definition update (st : store) (r : ref) (f : section -> section) : store :=
  fun r' => if Nat.eqb r' r then f (st r) else st r'.

(** [d.get(key, '')] *)
Definition get_or_empty (o : option str) : str :=
  match o with Some s => s | None => [] end.

(** The three (or two) keyword tiers. *)
Record tiers : Type := mkTiers {
  high : list str;
  medium : list str;
  low : list str
}.

Definition Qlt_b (x y : Q) : bool := negb (Qle_bool y x).

(** [sorted(xs, key=key, reverse=True)]: descending and stable, elements
    with equal keys stay in the order of [xs]. *)
Fixpoint insert_desc {A} (key : A -> Q) (x : A) (l : list A) : list A :=
  match l with
  | [] => [x]
  | y :: l' =>
      if Qlt_b (key x) (key y) then y :: insert_desc key x l'
      else x :: l
  end.

Fixpoint sorted_desc {A} (key : A -> Q) (l : list A) : list A :=
  match l with
  | [] => []
  | x :: l' => insert_desc key x (sorted_desc key l')
  end.

Module Ranker.

(** The static table of [get_enhanced_persona_keywords]. *)
Definition persona_table : list (str * tiers) :=
  [ (lit "Travel Planner",
     mkTiers
       (map lit ["itinerary"; "accommodation"; "transportation"; "attractions";
                 "budget"; "booking"; "schedule"])
       (map lit ["travel"; "trip"; "vacation"; "hotel"; "restaurant"; "activity";
                 "tour"; "destination"])
       (map lit ["guide"; "tips"; "culture"; "history"; "food"; "shopping"]));
    (lit "HR Professional",
     mkTiers
       (map lit ["onboarding"; "compliance"; "workflow"; "forms"; "signatures";
                 "employee"; "digital"])
       (map lit ["management"; "process"; "document"; "training"; "policy";
                 "procedure"])
       (map lit ["create"; "edit"; "share"; "convert"; "export"]));
    (lit "Food Contractor",
     mkTiers
       (map lit ["menu"; "catering"; "buffet"; "corporate"; "vegetarian";
                 "gluten-free"; "dinner"; "recipe"])
       (map lit ["meal"; "ingredient"; "cooking"; "preparation"; "serving";
                 "nutrition"])
       (map lit ["breakfast"; "lunch"; "snack"; "appetizer"; "dessert"]));
    (lit "PhD Researcher",
     mkTiers
       (map lit ["methodology"; "dataset"; "benchmark"; "evaluation"; "literature";
                 "review"; "analysis"])
       (map lit ["research"; "study"; "experiment"; "result"; "conclusion";
                 "hypothesis"])
       (map lit ["paper"; "journal"; "citation"; "reference"; "abstract"]));
    (lit "Investment Analyst",
     mkTiers
       (map lit ["revenue"; "profit"; "investment"; "market"; "financial";
                 "analysis"; "trend"])
       (map lit ["company"; "performance"; "strategy"; "growth"; "risk";
                 "portfolio"])
       (map lit ["report"; "quarter"; "annual"; "earnings"; "stock"]));
    (lit "Student",
     mkTiers
       (map lit ["exam"; "study"; "concept"; "mechanism"; "theory"; "practice";
                 "preparation"])
       (map lit ["chapter"; "topic"; "subject"; "learning"; "understand";
                 "knowledge"])
       (map lit ["textbook"; "course"; "class"; "assignment"; "homework"])) ].

(** [table.get(role, default)] *)
Fixpoint table_get (role : str) (tbl : list (str * tiers)) (default : tiers) : tiers :=
  match tbl with
  | [] => default
  | (k, v) :: tbl' => if Py.eqs role k then v else table_get role tbl' default
  end.

(** [\b(?:prepare|create|analyze|identify|summarize|review|plan|develop|design|build)\w*\b] *)
Definition action_re : Re.regex :=
  Re.seqs [ Re.Wordb;
            Re.words ["prepare"; "create"; "analyze"; "identify"; "summarize";
                      "review"; "plan"; "develop"; "design"; "build"];
            Re.star Re.wd;
            Re.Wordb ].

(** [\b[a-zA-Z]{4,}\b] *)
Definition domain_re : Re.regex :=
  Re.seqs [ Re.Wordb; Re.at_least (Re.Chr Py.isalpha) 4; Re.Wordb ].

Definition isquote (c : ascii) : bool := Re.one_of "'" c || N.eqb (Py.code c) 34.

(** The third pattern of [get_enhanced_job_keywords]: a quote (single or
    double), a group of one or more characters that are not quotes, a
    quote. *)
Definition quoted_re : Re.regex :=
  Re.seqs [ Re.Chr isquote;
            Re.Grp (Re.plus (Re.Chr (fun c => negb (isquote c))));
            Re.Chr isquote ].

(** [sum(w for kw in kws if kw in t)] *)
Definition sum_if (w : Z) (kws : list str) (t : str) : Z :=
  fold_right (fun kw acc => ((if Py.contains kw t then w else 0) + acc)%Z) 0%Z kws.

Definition b2z (b : bool) (v : Z) : Z := if b then v else 0%Z.

Section ContentRanker.
(** The fields of an instance: the two strings given to [__init__] and the
    vectoriser.  [vectorize] stands for the body of the [try] block of
    [rank_sections]: [None] when it raises, the flattened similarity
    array otherwise. *)
Variable persona_role : str.
Variable job_task : str.
Variable vectorize : list str -> option (list Q).

(** [self.context_text] *)
Definition context_text : str := persona_role ++ lit " " ++ job_task.

Definition get_enhanced_persona_keywords : tiers :=
  table_get persona_role persona_table (mkTiers [] [] []).

Definition get_enhanced_job_keywords : tiers :=
  let job_lower := Py.lower job_task in
  let action_words := Re.findall action_re job_lower in
  let high_priority := action_words in
  let domain_terms := Re.findall domain_re job_lower in
  let medium_priority :=
    filter (fun term => (4 <? Py.len term)%Z) domain_terms in
  let quoted_terms := Re.findall quoted_re job_task in
  let high_priority := high_priority ++ quoted_terms in
  mkTiers (Py.dedup high_priority) (Py.dedup medium_priority) [].

Definition persona_score (text_lower : str) : Z :=
  let kws := get_enhanced_persona_keywords in
  (sum_if 3 (high kws) text_lower * 3
   + sum_if 2 (medium kws) text_lower * 2
   + sum_if 1 (low kws) text_lower)%Z.

Definition job_score (text_lower : str) : Z :=
  let kws := get_enhanced_job_keywords in
  (sum_if 5 (high kws) text_lower * 5
   + sum_if 2 (medium kws) text_lower * 2)%Z.

Definition job_has (w : string) : bool := Py.contains (lit w) (Py.lower job_task).
Definition role_has (ws : list string) : bool :=
  existsb (fun term => Py.contains term (Py.lower persona_role)) (map lit ws).

Definition academic_terms : list str :=
  map lit ["methodology"; "dataset"; "benchmark"; "evaluation"; "literature";
           "study"; "research"; "analysis"; "experiment"].
Definition business_terms : list str :=
  map lit ["revenue"; "profit"; "market"; "financial"; "growth"; "strategy";
           "investment"; "performance"].
Definition travel_terms : list str :=
  map lit ["hotel"; "restaurant"; "attraction"; "tour"; "booking"; "itinerary";
           "destination"].
Definition vegetarian_terms : list str :=
  map lit ["vegetarian"; "vegan"; "plant-based"; "tofu"; "beans"; "lentils";
           "quinoa"; "vegetables"].
Definition meat_terms : list str :=
  map lit ["beef"; "chicken"; "pork"; "lamb"; "turkey"; "fish"; "salmon";
           "tuna"; "meat"; "poultry"].
Definition gluten_free_terms : list str :=
  map lit ["gluten-free"; "gluten free"; "rice"; "corn"; "quinoa"].
Definition gluten_terms : list str :=
  map lit ["wheat"; "flour"; "bread"; "pasta"; "barley"; "rye"].
Definition buffet_terms : list str :=
  map lit ["buffet"; "serving"; "large batch"; "crowd"; "party"; "catering"].

(** [context_bonus] is raised by three groups of rules, in this order:
    the document label against the meal named by the job, the terms of
    the persona's domain, the dietary and catering terms. *)
Definition meal_bonus (doc_lower : str) : Z :=
  (b2z (job_has "dinner" && Py.contains (lit "dinner") doc_lower) 5
   + b2z (job_has "breakfast" && Py.contains (lit "breakfast") doc_lower) 5
   + b2z (job_has "lunch" && Py.contains (lit "lunch") doc_lower) 5)%Z.

Definition role_bonus (text_lower : str) : Z :=
  (b2z (role_has ["researcher"; "phd"; "student"; "academic"])
       (Py.count_in academic_terms text_lower * 2)
   + b2z (role_has ["analyst"; "investment"; "business"])
         (Py.count_in business_terms text_lower * 2)
   + b2z (role_has ["travel"])
         (Py.count_in travel_terms text_lower * 2))%Z.

Definition diet_bonus (text_lower : str) : Z :=
  (b2z (job_has "vegetarian" && Py.any_in vegetarian_terms text_lower) 4
   + b2z (job_has "gluten-free" && Py.any_in gluten_free_terms text_lower) 3
   + b2z (job_has "buffet" && Py.any_in buffet_terms text_lower) 2)%Z.

(** The value of [context_bonus] when the final score is formed. *)
Definition context_bonus (text_lower doc_lower : str) : Z :=
  (meal_bonus doc_lower + role_bonus text_lower + diet_bonus text_lower)%Z.

(** The value of [penalty] when the final score is formed: every
    [penalty -= ...] of the source. *)
Definition penalty (text_lower doc_lower : str) : Z :=
  (0 - b2z (job_has "vegetarian" && Py.any_in meat_terms text_lower) 8
     - b2z (job_has "gluten-free" && Py.any_in gluten_terms text_lower) 4
     - b2z (job_has "dinner" && Py.contains (lit "breakfast") doc_lower) 3
     - b2z (job_has "corporate" && Py.contains (lit "dessert") text_lower) 1)%Z.

(** [max(len(text.split()) / 100, 1)] *)
Definition text_length (text : str) : Q :=
  Qmax (inject_Z (Z.of_nat (length (Py.split_ws text))) / 100) 1.

(** The weighted sum that is divided by [text_length]. *)
Definition weighted_sum (text document_name : str) : Q :=
  let text_lower := Py.lower text in
  let doc_lower := Py.lower document_name in
  (inject_Z (persona_score text_lower) * (3 # 10)
   + inject_Z (job_score text_lower) * (5 # 10)
   + inject_Z (context_bonus text_lower doc_lower) * (2 # 10)
   + inject_Z (penalty text_lower doc_lower))%Q.

Definition calculate_enhanced_relevance_score (text document_name : str) : Q :=
  let total_score := (weighted_sum text document_name / text_length text)%Q in
  Qmax total_score 0.

(** The title-quality test of [rank_sections]. *)
Definition title_bonus (d : section) : bool :=
  let section_title := get_or_empty (section_title d) in
  (2 <=? length (Py.split_ws section_title))%nat
  && negb (Py.startswith (lit "Content") section_title).

(** The value stored under ['relevance_score'] for the dictionary [d]
    when its similarity is [tfidf_score]. *)
Definition combined_score (tfidf_score : Q) (d : section) : Q :=
  let keyword_score :=
    calculate_enhanced_relevance_score (text d) (get_or_empty (document d)) in
  let s := (tfidf_score * (4 # 10) + keyword_score * (6 # 10))%Q in
  if title_bonus d then (s + (1 # 10))%Q else s.

(** [for i, section in enumerate(document_sections): ...] *)
Fixpoint score_loop (sims : list Q) (i : nat) (refs : list ref) (st : store)
  : store :=
  match refs with
  | [] => st
  | r :: refs' =>
      let tfidf_score := nth i sims 0%Q in
      let st' := update st r (set_relevance_score (combined_score tfidf_score (st r))) in
      score_loop sims (S i) refs' st'
  end.

(** [x['relevance_score']] as a sort key. *)
Definition score_of (st : store) (r : ref) : Q :=
  match relevance_score (st r) with Some q => q | None => 0%Q end.

(** [for rank, section in enumerate(ranked_sections, 1): ...] *)
Fixpoint rank_loop (rank : Z) (refs : list ref) (st : store) : store :=
  match refs with
  | [] => st
  | r :: refs' =>
      rank_loop (rank + 1) refs' (update st r (set_importance_rank rank))
  end.

Definition rank_sections (st : store) (document_sections : list ref)
  : store * list ref :=
  match document_sections with
  | [] => (st, [])
  | _ =>
      let section_texts := map (fun r => text (st r)) document_sections in
      let all_texts := section_texts ++ [context_text] in
      let tfidf_similarities :=
        match vectorize all_texts with
        | Some similarities => similarities
        | None => repeat 0%Q (length section_texts)
        end in
      let st1 := score_loop tfidf_similarities 0 document_sections st in
      let ranked_sections := sorted_desc (score_of st1) document_sections in
      let st2 := rank_loop 1 ranked_sections st1 in
      (st2, ranked_sections)
  end.

(** The loop of [extract_refined_subsection] that assembles the result
    from the sorted (score, paragraph) pairs; it returns [result_text]
    at the [break] or at the end of the list. *)
Fixpoint assemble (max_length : Z) (result_text : str) (ps : list (Q * str)) : str :=
  match ps with
  | [] => result_text
  | (_, paragraph) :: ps' =>
      if (Py.len result_text + Py.len paragraph <=? max_length)%Z
      then assemble max_length (result_text ++ paragraph ++ [nl; nl]) ps'
      else
        let remaining := (max_length - Py.len result_text)%Z in
        if (100 <? remaining)%Z then
          let partial := Py.slice_to remaining paragraph in
          let last_sentence := Py.rfind "." partial in
          if Qlt_b (inject_Z remaining * (7 # 10)) (inject_Z last_sentence)
          then result_text ++ Py.slice_to (last_sentence + 1) partial
          else result_text ++ partial ++ lit "..."
        else result_text
  end.

(** [[p.strip() for p in text.split(sep) if p.strip()]] *)
Definition stripped_parts (sep : str) (text : str) : list str :=
  map Py.strip (filter (fun p => Py.truthy (Py.strip p)) (Py.split sep text)).

Definition extract_refined_subsection (text : str) (max_length : Z) : str :=
  if (Py.len text <=? max_length)%Z then Py.strip text
  else
    let paragraphs := stripped_parts [nl; nl] text in
    let paragraphs :=
      if Py.truthy paragraphs then paragraphs else stripped_parts [nl] text in
    let best_paragraphs :=
      map (fun paragraph =>
             (calculate_enhanced_relevance_score paragraph [], paragraph))
          (filter (fun paragraph => (30 <? Py.len paragraph)%Z) paragraphs) in
    let best_paragraphs := sorted_desc fst best_paragraphs in
    let result_text := assemble max_length [] best_paragraphs in
    if Py.truthy (Py.strip result_text) then Py.strip result_text
    else Py.slice_to max_length text ++ lit "...".

End ContentRanker.

End Ranker.

(** ** [utils/text_extractor.py]: class [EnhancedTextExtractor] *)

Module Extractor.

(** Character classes of the patterns. *)
Definition alpha_space (extra : string) (c : ascii) : bool :=
  Py.isalpha c || Py.isspace c || Re.one_of extra c.
Definition upper_space (extra : string) (c : ascii) : bool :=
  Py.isupper c || Py.isspace c || Re.one_of extra c.

Definition Upper : Re.regex := Re.Chr Py.isupper.
Definition Lower : Re.regex := Re.Chr Py.islower.

(** The bullet glyph of the fifth pattern (and the three glyphs of the
    bullet-stripping classes) lie outside ASCII: no character of the
    alphabet matches them. *)
Definition bullet : Re.regex := Re.Chr (fun _ => false).

Definition dish_words : Re.regex :=
  Re.words ["Salad"; "Soup"; "Pasta"; "Pizza"; "Curry"; "Bowl"; "Dish"; "Recipe"].

(** [(?:Grilled|Baked|Roasted|Fresh|Steamed|Pan[- ]?fried)] *)
Definition cooked_words : Re.regex :=
  Re.alts [ Re.word "Grilled"; Re.word "Baked"; Re.word "Roasted"; Re.word "Fresh";
            Re.word "Steamed";
            Re.seqs [Re.word "Pan"; Re.opt (Re.Chr (Re.one_of "- ")); Re.word "fried"] ].

(** [self.section_patterns], in the order of the source. *)
Definition section_patterns : list Re.regex :=
  [ (* ^[A-Z][a-zA-Z\s&\'-]{3,50}(?:\s+(?:Salad|...|Recipe))?$ *)
    Re.seqs [ Re.Bol; Upper; Re.range (Re.Chr (alpha_space "&'-")) 3 50;
              Re.opt (Re.seqs [Re.plus Re.ws; dish_words]); Re.Eol ];
    (* ^\d+\.\s+[A-Z][A-Za-z\s\-&]{5,60}$ *)
    Re.seqs [ Re.Bol; Re.plus Re.dg; Re.chr "."; Re.plus Re.ws; Upper;
              Re.range (Re.Chr (alpha_space "-&")) 5 60; Re.Eol ];
    (* ^[A-Z\s\-&]{8,50}$ *)
    Re.seqs [ Re.Bol; Re.range (Re.Chr (upper_space "-&")) 8 50; Re.Eol ];
    (* ^[A-Z][A-Za-z\s\-&]{10,60}$ *)
    Re.seqs [ Re.Bol; Upper; Re.range (Re.Chr (alpha_space "-&")) 10 60; Re.Eol ];
    (* ^<bullet>\s+[A-Z][A-Za-z\s\-&]{5,50}$ *)
    Re.seqs [ Re.Bol; bullet; Re.plus Re.ws; Upper;
              Re.range (Re.Chr (alpha_space "-&")) 5 50; Re.Eol ];
    (* ^Introduction|^Overview|^Summary|^Conclusion *)
    Re.alts [ Re.Seq Re.Bol (Re.word "Introduction");
              Re.Seq Re.Bol (Re.word "Overview");
              Re.Seq Re.Bol (Re.word "Summary");
              Re.Seq Re.Bol (Re.word "Conclusion") ];
    (* ^(?:Grilled|...|Pan[- ]?fried)\s+[A-Z][a-zA-Z\s]{5,40}$ *)
    Re.seqs [ Re.Bol; cooked_words; Re.plus Re.ws; Upper;
              Re.range (Re.Chr (alpha_space "")) 5 40; Re.Eol ];
    (* ^[A-Z][a-zA-Z\s&\'-]+(?:\s+with\s+[A-Z][a-zA-Z\s&]+)?$ *)
    Re.seqs [ Re.Bol; Upper; Re.plus (Re.Chr (alpha_space "&'-"));
              Re.opt (Re.seqs [ Re.plus Re.ws; Re.word "with"; Re.plus Re.ws; Upper;
                                Re.plus (Re.Chr (alpha_space "&")) ]);
              Re.Eol ] ].

(** [^[\s<bullets>\-\*\d\.\)\(]+], the leading run that [is_section_header]
    removes. *)
Definition header_lead_re : Re.regex :=
  Re.Seq Re.Bol
    (Re.plus (Re.Chr (fun c => Py.isspace c || Py.isdigit c || Re.one_of "-*.)(" c))).

(** [^[\s<bullets>\-\*\d\.\)]+], the leading run that
    [generate_section_title] removes (no opening parenthesis). *)
Definition title_lead_re : Re.regex :=
  Re.Seq Re.Bol
    (Re.plus (Re.Chr (fun c => Py.isspace c || Py.isdigit c || Re.one_of "-*.)" c))).

(** [[^\w\s\-&\']] *)
Definition title_junk_re : Re.regex :=
  Re.Chr (fun c => negb (Py.isword c || Py.isspace c || Re.one_of "-&'" c)).

(** [^\d+\s+(cups?|tablespoons?|teaspoons?|pounds?|ounces?)] *)
Definition quantity_re : Re.regex :=
  Re.seqs [ Re.Bol; Re.plus Re.dg; Re.plus Re.ws;
            Re.Grp (Re.alts [ Re.Seq (Re.word "cup") (Re.opt (Re.chr "s"));
                              Re.Seq (Re.word "tablespoon") (Re.opt (Re.chr "s"));
                              Re.Seq (Re.word "teaspoon") (Re.opt (Re.chr "s"));
                              Re.Seq (Re.word "pound") (Re.opt (Re.chr "s"));
                              Re.Seq (Re.word "ounce") (Re.opt (Re.chr "s")) ]) ].

(** [s.startswith((p1, p2, ...))] *)
Definition startswith_any (ps : list string) (s : str) : bool :=
  existsb (fun p => Py.startswith (lit p) s) ps.

Definition stop_words : list str :=
  map lit ["the"; "and"; "or"; "but"; "with"; "for"; "in"; "on"; "at"].

(** [words[0][0].isupper()] *)
Definition first_char_upper (words : list str) : bool :=
  match words with
  | (c :: _) :: _ => Py.isupper c
  | _ => false
  end.

Definition is_section_header (line : str) : bool :=
  if negb (Py.truthy line) || (Py.len line <? 3)%Z then false
  else
    let clean_line := Py.strip (Re.sub_empty header_lead_re line) in
    if negb (Py.truthy clean_line) then false
    else if existsb (fun pattern => Re.re_match pattern clean_line) section_patterns
    then true
    else
      if (3 <=? Py.len clean_line)%Z && (Py.len clean_line <=? 80)%Z
         && (2 <=? length (Py.split_ws clean_line))%nat
         && negb (startswith_any ["ingredients"; "instructions"; "directions";
                                  "method"; "serves"; "prep time"]
                                 (Py.lower clean_line))
         && negb (Re.re_match quantity_re (Py.lower clean_line))
      then
        let words := Py.split_ws clean_line in
        (2 <=? length words)%nat
        && first_char_upper words
        && negb (Py.endswith (lit ".") clean_line)
        && negb (existsb (fun word => Py.mem (Py.lower word) stop_words)
                         (Py.slice_to 2 words))
      else false.

(** The dictionaries built by [detect_sections]. *)
Record detected : Type := mkDetected {
  title : str;
  content : str;
  line_number : Z
}.

(** [for i, line in enumerate(lines): ...], from position [i] on; [rest]
    is [lines[i:]]. *)
Fixpoint detect_loop (lines : list str) (i : nat) (rest : list str) : list detected :=
  match rest with
  | [] => []
  | line :: rest' =>
      let line := Py.strip line in
      if is_section_header line
      then
        let content_lines := Py.slice i (i + 10) lines in
        let content := Py.join [nl] content_lines in
        mkDetected line content (Z.of_nat i + 1) :: detect_loop lines (S i) rest'
      else detect_loop lines (S i) rest'
  end.

Definition detect_sections (text : str) : list detected :=
  let lines := Py.split [nl] text in
  detect_loop lines 0 lines.

(** The page dictionaries built by [extract_text_with_sections]. *)
Record page : Type := mkPage {
  p_page_number : Z;
  p_text : str;
  p_sections : list detected;
  p_word_count : Z
}.

(** A PDF document as PyMuPDF presents it: the text of each page, in page
    order ([doc.load_page(page_num).get_text()]). *)
Definition pdf := list str.

Fixpoint extract_loop (page_num : nat) (doc : pdf) : list page :=
  match doc with
  | [] => []
  | text :: doc' =>
      if Py.truthy (Py.strip text)
      then mkPage (Z.of_nat page_num + 1) text (detect_sections text)
                  (Z.of_nat (length (Py.split_ws text)))
             :: extract_loop (S page_num) doc'
      else extract_loop (S page_num) doc'
  end.

Definition extract_text_with_sections (doc : pdf) : list page :=
  extract_loop 0 doc.

(** The three food patterns of [generate_section_title]. *)
Definition cap_word : Re.regex := Re.Seq Upper (Re.plus Lower).
Definition more_cap_words : Re.regex :=
  Re.star (Re.Seq (Re.plus Re.ws) cap_word).

Definition food_patterns : list Re.regex :=
  [ (* \b[A-Z][a-z]+(?:\s+[A-Z][a-z]+)*(?:\s+(?:Salad|...|Recipe))\b *)
    Re.seqs [ Re.Wordb; cap_word; more_cap_words;
              Re.Seq (Re.plus Re.ws) dish_words; Re.Wordb ];
    (* \b(?:Grilled|...|Pan[- ]?fried)\s+[A-Z][a-z]+(?:\s+[A-Z][a-z]+)*\b *)
    Re.seqs [ Re.Wordb; cooked_words; Re.plus Re.ws; cap_word; more_cap_words;
              Re.Wordb ];
    (* \b[A-Z][a-z]+\s+(?:with|and)\s+[A-Z][a-z]+(?:\s+[A-Z][a-z]+)*\b *)
    Re.seqs [ Re.Wordb; cap_word; Re.plus Re.ws; Re.words ["with"; "and"];
              Re.plus Re.ws; cap_word; more_cap_words; Re.Wordb ] ].

(** [\b[A-Z][a-z]+(?:\s+[A-Z][a-z]+){1,3}\b] *)
Definition cap_pattern : Re.regex :=
  Re.seqs [ Re.Wordb; cap_word; Re.range (Re.Seq (Re.plus Re.ws) cap_word) 1 3;
            Re.Wordb ].

(** The first loop of [generate_section_title]: the first of the lines
    that yields a title. *)
Fixpoint title_from_lines (lines : list str) : option str :=
  match lines with
  | [] => None
  | line :: lines' =>
      let line := Py.strip line in
      let found :=
        if Py.truthy line && (3 <=? Py.len line)%Z && (Py.len line <=? 80)%Z
        then
          let clean_title := Re.sub_empty title_lead_re line in
          let clean_title := Py.strip (Re.sub_empty title_junk_re clean_title) in
          if (2 <=? length (Py.split_ws clean_title))%nat
             && (Py.len clean_title <=? 60)%Z
             && negb (startswith_any ["ingredients"; "instructions"; "directions"]
                                     (Py.lower clean_title))
          then Some clean_title else None
        else None in
      match found with
      | Some t => Some t
      | None => title_from_lines lines'
      end
  end.

(** The second loop: the first pattern with a match gives the title. *)
Fixpoint title_from_patterns (patterns : list Re.regex) (text : str) : option str :=
  match patterns with
  | [] => None
  | pattern :: patterns' =>
      match Re.findall pattern text with
      | m :: _ => Some (Py.slice_to 60 m)
      | [] => title_from_patterns patterns' text
      end
  end.

(** The third loop: the first acceptable capitalised phrase. *)
Fixpoint title_from_caps (matches : list str) : option str :=
  match matches with
  | [] => None
  | m :: matches' =>
      if (2 <=? length (Py.split_ws m))%nat
         && (Py.len m <=? 50)%Z
         && negb (Py.mem (Py.lower m)
                         (map lit ["The United"; "South Of"; "North America"]))
      then Some m
      else title_from_caps matches'
  end.

Definition generate_section_title (text : str) : str :=
  let lines := Py.split [nl] (Py.strip text) in
  match title_from_lines (Py.slice_to 5 lines) with
  | Some t => t
  | None =>
      match title_from_patterns food_patterns text with
      | Some t => t
      | None =>
          match title_from_caps (Re.findall cap_pattern text) with
          | Some t => t
          | None =>
              let words :=
                Py.slice_to 6 (filter (fun w => (2 <? Py.len w)%Z) (Py.split_ws text)) in
              if Py.truthy words then
                let title := Py.join (lit " ") words in
                Py.slice_to 50 title
                  ++ (if (50 <? Py.len title)%Z then lit "..." else [])
              else lit "Content Section"
          end
      end
  end.

(** The sections that one page contributes in
    [get_page_sections_for_ranking]. *)
Definition sections_of_page (p : page) : list section :=
  if Py.truthy (p_sections p)
  then map (fun s => mkSection None (p_page_number p) (content s) (Some (title s))
                               (lit "detected_section") None None)
           (p_sections p)
  else [ mkSection None (p_page_number p) (p_text p)
                   (Some (generate_section_title (p_text p)))
                   (lit "page_content") None None ].

(** [limited_pages] *)
Definition limited_pages (doc : pdf) (max_pages_per_doc : Z) : list page :=
  Py.slice_to max_pages_per_doc (extract_text_with_sections doc).

Definition get_page_sections_for_ranking (doc : pdf) (max_pages_per_doc : Z)
  : list section :=
  flat_map sections_of_page (limited_pages doc max_pages_per_doc).

End Extractor.

(** ** Vocabulary of the statements *)

Module Stmt.
Import Py Ranker.

Definition nonempty (s : str) : bool := truthy s.

Definition tiers_nonempty (t : tiers) : bool :=
  forallb nonempty (high t) && forallb nonempty (medium t) && forallb nonempty (low t).

(** The job task of the dietary property. *)
Definition veg_job : str := lit "vegetarian dinner menu".

(** No entry of the list occurs twice. *)
Fixpoint distinct (xs : list str) : bool :=
  match xs with
  | [] => true
  | x :: xs' => negb (mem x xs') && distinct xs'
  end.

Definition tiers_distinct (t : tiers) : bool :=
  distinct (high t) && distinct (medium t) && distinct (low t).

(** Every keyword that a call of the scorer looks for in the text. *)
Definition all_keywords (persona_role job_task : str) : list str :=
  let pk := get_enhanced_persona_keywords persona_role in
  let jk := get_enhanced_job_keywords job_task in
  high pk ++ medium pk ++ low pk ++ high jk ++ medium jk.

(** Every keyword that occurs in [t'] occurs in [t]. *)
Definition no_new_keyword (persona_role job_task t t' : str) : bool :=
  forallb (fun kw => implb (contains kw (lower t')) (contains kw (lower t)))
          (all_keywords persona_role job_task).

(** [ge_key key a b]: by its key, [a] may stand before [b] in a
    descending order. *)
Definition ge_key {A} (key : A -> Q) (a b : A) : Prop := (key b <= key a)%Q.

(** The elements whose key is [q]. *)
Definition has_key {A} (key : A -> Q) (q : Q) (x : A) : bool := Qeq_bool (key x) q.

(** The body of a detected section as the specification words it: the
    header line, which is line [i] of the page, followed by the ten lines
    after it, joined by newlines. *)
Definition header_plus_next_ten (lines : list str) (i : nat) : str :=
  join [nl] (nth i lines [] :: firstn 10 (skipn (S i) lines)).

(** No line of the page is classified as a header. *)
Definition no_header_line (page_text : str) : bool :=
  forallb (fun line => negb (Extractor.is_section_header (strip line)))
          (split [nl] page_text).

(** The sections of an output list that lie on page [n]. *)
Definition on_page (n : Z) (sections : list section) : list section :=
  filter (fun s => (page_number s =? n)%Z) sections.

(** The section that the fallback branch builds for a page. *)
Definition fallback_section (p : Extractor.page) : section :=
  mkSection None (Extractor.p_page_number p) (Extractor.p_text p)
            (Some (Extractor.generate_section_title (Extractor.p_text p)))
            (lit "page_content") None None.

(** A pattern without a group whose matches are never empty. *)
Definition plain_nonempty (r : Re.regex) : bool :=
  negb (Re.has_grp r) && (1 <=? Re.min_len r)%nat.

(** Two dictionaries agree on every key that [rank_sections] does not
    write. *)
Definition same_fixed (d d' : section) : Prop :=
  document d = document d' /\ page_number d = page_number d'
  /\ text d = text d' /\ section_title d = section_title d'
  /\ source d = source d'.

End Stmt.

(** ** Sample data *)

Module Sample.

Definition role : str := lit "Food Contractor".
Definition job : str := lit "Prepare a vegetarian dinner menu".

(** Two detected sections and one page-fallback section. *)
Definition eggs : section :=
  mkSection (Some (lit "Breakfast Ideas.pdf")) 1
            (lit "Scrambled Eggs" ++ [nl] ++ lit "Quick and easy breakfast.")
            (Some (lit "Scrambled Eggs")) (lit "detected_section") None None.

Definition salmon : section :=
  mkSection (Some (lit "Dinner Party Menu.pdf")) 1
            (lit "Grilled Salmon with Vegetables" ++ [nl]
               ++ lit "A vegetarian-friendly dinner option.")
            (Some (lit "Grilled Salmon with Vegetables")) (lit "detected_section")
            None None.

Definition notes : section :=
  mkSection (Some (lit "Dinner Party Menu.pdf")) 2
            (lit "serve warm.")
            (Some (lit "Content Section")) (lit "page_content") None None.

Definition sections : store :=
  fun r => match r with 0 => eggs | 1 => salmon | _ => notes end.

(** A vectoriser that raises, and one that succeeds. *)
Definition raising : list str -> option (list Q) := fun _ => None.
Definition similar : list str -> option (list Q) :=
  fun _ => Some [1 # 10; 3 # 10; 0]%Q.

(** A text of three paragraphs, 165 characters long. *)
Definition long_text : str :=
  lit "Tofu and vegetables make a filling vegetarian dinner for a crowd."
    ++ [nl; nl] ++ lit "Short note."
    ++ [nl; nl]
    ++ lit "Serve the buffet with rice and beans. Keep the menu simple and the portions generous.".

(** A document of three pages: one with a header line, one that is blank,
    one without any header line. *)
Definition header_page : str :=
  lit "Chicken Salad Bowl" ++ [nl] ++ lit "mix well and serve cold.".
Definition plain_page : str :=
  lit "mix the sauce well." ++ [nl] ++ lit "serve it warm.".
Definition menu_pdf : Extractor.pdf := [header_page; lit "   "; plain_page].

(** A page whose last line is its only header. *)
Definition header_last : str :=
  lit "mix well and serve cold." ++ [nl] ++ lit "Chicken Salad Bowl".

(** A page of twelve lines whose first line is a header. *)
Definition twelve_lines : str :=
  Py.join [nl] (map lit ["Chicken Salad Bowl"; "one"; "two"; "three"; "four"; "five";
                         "six"; "seven"; "eight"; "nine"; "ten"; "eleven"]).

End Sample.

(** ** [utils/text_extractor.py]: the legacy function *)

Module Legacy.
Import Extractor.

(** [extract_text_from_pdf]: the pages of [extract_text_with_sections]
    reduced to their number and text. *)
Definition extract_text_from_pdf (doc : pdf) : list (Z * str) :=
  map (fun p => (p_page_number p, p_text p)) (extract_text_with_sections doc).

End Legacy.

(** ** [process_pdfs_enhanced.py] *)

Module Process.
Import Py.

(** An entry of [config["documents"]]. *)
Record doc_config : Type := mkDoc {
  filename : str;
  title : str
}.

(** The configuration of a collection, as far as the processing reads it. *)
Record config : Type := mkConfig {
  persona_role : str;
  job_task : str;
  documents : list doc_config
}.

(** What is found under the path of a PDF file: nothing
    ([os.path.exists] is false), a file on which the extraction raises, or
    a document with the text of its pages.  The files of a collection are
    given by their file names. *)
Inductive file : Type :=
| Missing
| Unreadable
| Pdf (pages : Extractor.pdf).

Definition files := str -> file.

(** [section['document'] = pdf_filename] *)
Definition set_document (pdf_filename : str) (d : section) : section :=
  mkSection (Some pdf_filename) (page_number d) (text d) (section_title d) (source d)
            (relevance_score d) (importance_rank d).

Definition process_single_document_enhanced (doc : doc_config) (fs : files)
  : list section :=
  let pdf_filename := filename doc in
  match fs pdf_filename with
  | Missing => []
  | Unreadable => []
  | Pdf pages =>
      let sections := Extractor.get_page_sections_for_ranking pages 5 in
      map (set_document pdf_filename) sections
  end.

(** The entries of the two output lists and the metadata; simple mode
    writes no [total_sections_analyzed]. *)
Record extracted_section : Type := mkExtracted {
  e_document : str;
  e_section_title : str;
  e_importance_rank : Z;
  e_page_number : Z
}.

Record subsection : Type := mkSubsection {
  s_document : str;
  s_refined_text : str;
  s_page_number : Z
}.

Record metadata : Type := mkMetadata {
  input_documents : list str;
  persona : str;
  job_to_be_done : str;
  processing_timestamp : str;
  total_sections_analyzed : option Z
}.

Record output : Type := mkOutput {
  o_metadata : metadata;
  extracted_sections : list extracted_section;
  subsection_analysis : list subsection
}.

(** A list comprehension or loop whose body may raise [KeyError]: the
    results, or [None] at the first element on which it raises. *)
Fixpoint collect {A B} (f : A -> option B) (l : list A) : option (list B) :=
  match l with
  | [] => Some []
  | x :: l' =>
      match f x with
      | None => None
      | Some y =>
          match collect f l' with
          | None => None
          | Some ys => Some (y :: ys)
          end
      end
  end.

Section Ranker.
(** The ranker instance handed to [create_enhanced_output], the time of the
    call as [datetime.now().isoformat()] gives it. *)
Variable ranker_role : str.
Variable ranker_task : str.
Variable vectorize : list str -> option (list Q).
Variable now : str.

(** [section['document']] raises when the key is absent, and so does
    [section['importance_rank']]; the other keys are read with [get] or are
    always there. *)
Definition extracted_entry (st : store) (r : ref) : option extracted_section :=
  match document (st r), importance_rank (st r) with
  | Some d, Some k =>
      Some (mkExtracted d
              (match section_title (st r) with
               | Some t => t
               | None => lit "Content Section"
               end)
              k (page_number (st r)))
  | _, _ => None
  end.

Definition subsection_entry (st : store) (r : ref) : option subsection :=
  let refined_text :=
    Ranker.extract_refined_subsection ranker_role ranker_task (text (st r)) 1000 in
  match document (st r) with
  | Some d => Some (mkSubsection d refined_text (page_number (st r)))
  | None => None
  end.

Definition create_enhanced_output (cfg : config) (st : store) (all_sections : list ref)
  : store * option output :=
  let (st', ranked_sections) :=
    Ranker.rank_sections ranker_role ranker_task vectorize st all_sections in
  (st',
   match collect (fun r => document (st' r)) ranked_sections with
   | None => None
   | Some docs =>
       let metadata :=
         mkMetadata (dedup docs) (persona_role cfg) (job_task cfg) now
                    (Some (Z.of_nat (length ranked_sections))) in
       match collect (extracted_entry st') ranked_sections with
       | None => None
       | Some extracted =>
           match collect (subsection_entry st') ranked_sections with
           | None => None
           | Some analysis => Some (mkOutput metadata extracted analysis)
           end
       end
   end).

End Ranker.

(** The list [all_sections] as a store: the dictionaries are new objects,
    one reference for each, in list order. *)
Definition no_section : section := mkSection None 0 [] None [] None None.

Definition allocate (sections : list section) : store * list ref :=
  (fun r => nth r sections no_section, seq 0 (length sections)).

(** What [process_collection_documents_enhanced] does with the output
    file: it returns without writing when no section was extracted, writes
    the output, or lets an exception escape. *)
Inductive outcome : Type :=
| NoSections
| Written (o : output)
| Raised.

Definition all_sections (cfg : config) (fs : files) : list section :=
  flat_map (fun doc => process_single_document_enhanced doc fs) (documents cfg).

Definition process_collection_documents_enhanced
           (cfg : config) (fs : files)
           (vectorize : list str -> option (list Q)) (now : str) : outcome :=
  let sections := all_sections cfg fs in
  match sections with
  | [] => NoSections
  | _ =>
      let (st, refs) := allocate sections in
      match snd (create_enhanced_output (persona_role cfg) (job_task cfg)
                   vectorize now cfg st refs) with
      | Some o => Written o
      | None => Raised
      end
  end.

(** *** Simple mode *)

Section Simple.
(** [utils.parser.extract_text_from_pdf], which this repository imports
    but does not hold: the numbered page texts of a document, or [None]
    when it raises. *)
Variable parse : Extractor.pdf -> option (list (Z * str)).

(** The entries that one document adds to the two output lists. *)
Definition simple_entries (doc : doc_config) (fs : files)
  : list extracted_section * list subsection :=
  let pdf_filename := filename doc in
  let section_title := title doc in
  match fs pdf_filename with
  | Missing => ([], [])
  | Unreadable => ([], [])
  | Pdf d =>
      match parse d with
      | None => ([], [])
      | Some all_pages =>
          let pages := slice_to 3 all_pages in
          (map (fun ip => mkExtracted pdf_filename section_title
                                      (Z.of_nat (fst ip) + 1) (fst (snd ip)))
               (combine (seq 0 (length pages)) pages),
           map (fun ip => mkSubsection pdf_filename (slice_to 300 (snd (snd ip)))
                                       (fst (snd ip)))
               (combine (seq 0 (length pages)) pages))
      end
  end.

Definition process_collection_documents_simple (cfg : config) (fs : files) (now : str)
  : output :=
  let entries := map (fun doc => simple_entries doc fs) (documents cfg) in
  mkOutput (mkMetadata (map filename (documents cfg)) (persona_role cfg) (job_task cfg)
                       now None)
           (flat_map fst entries) (flat_map snd entries).

End Simple.

End Process.

(** ** [utils/ranker.py]: [ContentRanker.extract_section_title]

    The method reads neither the persona nor the job; its three fallback
    patterns are compiled with [re.IGNORECASE], under which a letter
    range matches the letters of both cases and a literal matches in
    either case. *)

Module Title.
Import Py.

(** [^[\s<bullets>\-\*\d\.\)\(]+] *)
Definition lead_re : Re.regex :=
  Re.Seq Re.Bol
    (Re.plus (Re.Chr (fun c => isspace c || isdigit c || Re.one_of "-*.)(" c))).

(** [[^\w\s\-&]] *)
Definition junk_re : Re.regex :=
  Re.Chr (fun c => negb (isword c || isspace c || Re.one_of "-&" c)).

(** [[A-Z]] and [[a-z]] under [re.IGNORECASE]. *)
Definition Letter : Re.regex := Re.Chr isalpha.

(** A literal character and a literal word under [re.IGNORECASE]. *)
Definition chr_ci (c : ascii) : Re.regex :=
  Re.Chr (fun x => eqc (lower_char x) (lower_char c)).

Fixpoint word_ci_of (s : str) : Re.regex :=
  match s with
  | [] => Re.Eps
  | [c] => chr_ci c
  | c :: s' => Re.Seq (chr_ci c) (word_ci_of s')
  end.

Definition word_ci (s : string) : Re.regex := word_ci_of (lit s).

(** [[A-Z][a-z]+] under [re.IGNORECASE] *)
Definition letters2 : Re.regex := Re.Seq Letter (Re.plus Letter).

(** [\w+(?:\s+\w+)*] *)
Definition word_run : Re.regex :=
  Re.Seq (Re.plus Re.wd) (Re.star (Re.Seq (Re.plus Re.ws) (Re.plus Re.wd))).

Definition food_patterns : list Re.regex :=
  [ (* \b[A-Z][a-z]+ [A-Z][a-z]+(?:\s+[A-Z][a-z]+)?\b *)
    Re.seqs [ Re.Wordb; letters2; Re.chr " "; letters2;
              Re.opt (Re.Seq (Re.plus Re.ws) letters2); Re.Wordb ];
    (* \b\w+(?:\s+\w+)*(?:\s+(?:Salad|Soup|Pasta|Pizza|Curry|Stir[- ]?fry|Bowl))\b *)
    Re.seqs [ Re.Wordb; word_run;
              Re.Seq (Re.plus Re.ws)
                (Re.alts [ word_ci "Salad"; word_ci "Soup"; word_ci "Pasta";
                           word_ci "Pizza"; word_ci "Curry";
                           Re.seqs [ word_ci "Stir"; Re.opt (Re.Chr (Re.one_of "- "));
                                     word_ci "fry" ];
                           word_ci "Bowl" ]);
              Re.Wordb ];
    (* \b(?:Grilled|Baked|Roasted|Steamed|Fresh)\s+\w+(?:\s+\w+)*\b *)
    Re.seqs [ Re.Wordb;
              Re.alts [ word_ci "Grilled"; word_ci "Baked"; word_ci "Roasted";
                        word_ci "Steamed"; word_ci "Fresh" ];
              Re.plus Re.ws; word_run; Re.Wordb ] ].

(** [s.startswith((p1, p2, ...))] *)
Definition startswith_any (ps : list string) (s : str) : bool :=
  existsb (fun p => startswith (lit p) s) ps.

(** [re.split(r'[...]', s)] for a class of single characters. *)
Fixpoint split_class_aux (p : ascii -> bool) (cur : str) (s : str) : list str :=
  match s with
  | [] => [rev cur]
  | c :: s' =>
      if p c then rev cur :: split_class_aux p [] s'
      else split_class_aux p (c :: cur) s'
  end.

Definition split_class (p : ascii -> bool) (s : str) : list str :=
  split_class_aux p [] s.

Section MaxLength.
Variable max_length : Z.

(** The first loop: the first of the lines that yields a title. *)
Fixpoint title_from_lines (lines : list str) : option str :=
  match lines with
  | [] => None
  | line :: lines' =>
      let line := strip line in
      let found :=
        if truthy line && (len line <? max_length)%Z
        then
          let clean_line := Re.sub_empty lead_re line in
          let clean_line := strip (Re.sub_empty junk_re clean_line) in
          if (2 <=? length (split_ws clean_line))%nat
             && (len clean_line <=? max_length)%Z
             && negb (startswith_any ["ingredients"; "instructions"; "directions";
                                      "method"]
                                     (lower clean_line))
          then Some (strip clean_line) else None
        else None in
      match found with
      | Some t => Some t
      | None => title_from_lines lines'
      end
  end.

(** The second loop: the first pattern with a match gives the title. *)
Fixpoint title_from_patterns (patterns : list Re.regex) (text : str) : option str :=
  match patterns with
  | [] => None
  | pattern :: patterns' =>
      match Re.findall pattern text with
      | m :: _ => Some (slice_to max_length m)
      | [] => title_from_patterns patterns' text
      end
  end.

(** The third loop: the first sentence of three words or more. *)
Fixpoint title_from_sentences (sentences : list str) : option str :=
  match sentences with
  | [] => None
  | sentence :: sentences' =>
      let sentence := strip sentence in
      if (3 <=? length (split_ws sentence))%nat && (len sentence <=? max_length)%Z
      then Some sentence
      else title_from_sentences sentences'
  end.

End MaxLength.

Definition extract_section_title (text : str) (max_length : Z) : str :=
  let lines := split [nl] (strip text) in
  match title_from_lines max_length (slice_to 8 lines) with
  | Some t => t
  | None =>
      match title_from_patterns max_length food_patterns text with
      | Some t => t
      | None =>
          let sentences := split_class (Re.one_of ".!?") text in
          match title_from_sentences max_length sentences with
          | Some t => t
          | None =>
              match lines with
              | line :: _ => strip (slice_to max_length line)
              | [] => lit "Content Section"
              end
          end
      end
  end.

End Title.

(** ** Further vocabulary *)

Module Vocab.
Import Py Ranker.

(** The role is none of the keys of the persona table. *)
Definition unknown_role (persona_role : str) : bool :=
  forallb (fun kv => negb (eqs persona_role (fst kv))) persona_table.

(** The string holds an upper-case letter. *)
Definition has_upper (s : str) : bool := existsb isupper s.

(** The similarity array that [rank_sections] works with: the vectoriser's
    when it succeeds, zeros when it raises. *)
Definition similarities (vectorize : list str -> option (list Q))
           (persona_role job_task : str) (st : store) (refs : list ref) : list Q :=
  match vectorize (map (fun r => text (st r)) refs
                     ++ [context_text persona_role job_task]) with
  | Some v => v
  | None => repeat 0%Q (length (map (fun r => text (st r)) refs))
  end.

(** Every entry of the array is at least 0. *)
Definition nonneg (sims : list Q) : bool := forallb (Qle_bool 0) sims.

(** The string is made of whitespace only. *)
Definition blank (s : str) : bool := forallb isspace s.

(** The last character of a string, if it has one. *)
Definition last_char (s : str) : option ascii := hd_error (rev s).

(** The pages of a document with their 1-based numbers. *)
Definition numbered (first : nat) (doc : Extractor.pdf) : list (Z * str) :=
  combine (map (fun n => Z.of_nat n + 1)%Z (seq first (length doc))) doc.

(** The numbered pages that hold more than whitespace. *)
Definition nonblank_pages (first : nat) (doc : Extractor.pdf) : list (Z * str) :=
  filter (fun nt => negb (blank (snd nt))) (numbered first doc).

(** The section is one that [get_page_sections_for_ranking] may build: no
    document, score or rank yet, a non-empty text, a non-empty title, and
    one of the two source tags. *)
Definition well_formed_section (s : section) : Prop :=
  document s = None /\ relevance_score s = None /\ importance_rank s = None
  /\ text s <> []
  /\ (exists t, section_title s = Some t /\ t <> [])
  /\ (source s = lit "detected_section" \/ source s = lit "page_content").

(** The distinct page numbers of a list of sections. *)
Definition pages_of (sections : list section) : list Z :=
  nodup Z.eq_dec (map page_number sections).

(** The document adds no section: its file is missing or unreadable, or
    all its pages are blank. *)
Definition document_is_empty (fs : Process.files) (doc : Process.doc_config) : bool :=
  match fs (Process.filename doc) with
  | Process.Pdf pages => forallb blank pages
  | _ => true
  end.

(** What identifies a section in the output: document, title and page. *)
Definition section_key (s : section) : str * str * Z :=
  (get_or_empty (document s),
   match section_title s with Some t => t | None => lit "Content Section" end,
   page_number s).

Definition extracted_key (e : Process.extracted_section) : str * str * Z :=
  (Process.e_document e, Process.e_section_title e, Process.e_page_number e).

(** The entries that the two loops of [create_enhanced_output] build when
    no key is absent. *)
Definition entry_of (st : store) (r : ref) : Process.extracted_section :=
  Process.mkExtracted (fst (fst (section_key (st r)))) (snd (fst (section_key (st r))))
    (match importance_rank (st r) with Some k => k | None => 0%Z end)
    (page_number (st r)).

Definition analysis_of (role task : str) (st : store) (r : ref) : Process.subsection :=
  Process.mkSubsection (get_or_empty (document (st r)))
    (Ranker.extract_refined_subsection role task (text (st r)) 1000)
    (page_number (st r)).

(** The ranks 1, 2, ..., n. *)
Definition ranks (n : nat) : list Z := map Z.of_nat (seq 1 n).

(** The characters of the leading run that [is_section_header] removes,
    and the line it goes on with. *)
Definition lead_char (c : ascii) : bool :=
  isspace c || isdigit c || Re.one_of "-*.)(" c.

Fixpoint drop_while (p : ascii -> bool) (s : str) : str :=
  match s with
  | c :: s' => if p c then drop_while p s' else s
  | [] => []
  end.

(** [^[...]+] for the class [p]. *)
Definition anchored_run (p : ascii -> bool) : Re.regex :=
  Re.Seq Re.Bol (Re.plus (Re.Chr p)).

Definition clean_line (line : str) : str :=
  strip (Re.sub_empty Extractor.header_lead_re line).

(** The pattern of numbered sections, second in [section_patterns]. *)
Definition numbered_pattern : Re.regex := nth 1 Extractor.section_patterns Re.Eps.

End Vocab.

(** ** A sample collection *)

Module Collection.
Import Process.

(** Two configured documents, of which only the first has a file. *)
Definition cfg : config :=
  mkConfig Sample.role Sample.job
           [mkDoc (lit "menu.pdf") (lit "Menu"); mkDoc (lit "gone.pdf") (lit "Gone")].

Definition fs : files :=
  fun name => if Py.eqs name (lit "menu.pdf") then Pdf Sample.menu_pdf else Missing.

(** A vectoriser that gives every section the similarity 0.1. *)
Definition vectorize : list str -> option (list Q) :=
  fun texts => Some (repeat (1 # 10)%Q (length texts - 1)).

Definition now : str := lit "2025-07-28T10:00:00".

(** The output written for the sample collection. *)
Definition written : output :=
  match process_collection_documents_enhanced cfg fs vectorize now with
  | Written o => o
  | _ => mkOutput (mkMetadata [] [] [] [] None) [] []
  end.

End Collection.

(** * Properties *)

(** ** The matcher reads at least [min_len] characters *)

Module ReFacts.
Import Re.

Section Consumes.
Variable A : Type.

Lemma rep_reads n (body : state -> cont A -> option A) :
  reads n body ->
  forall fuel lo hi, reads (lo * n) (fun st k => rep body fuel lo hi st k).
Proof.
  intros Hbody fuel. induction fuel as [|f IH]; intros lo hi st k x H; simpl in H.
  - destruct lo; [|discriminate]. exists st. split; [assumption|simpl; lia].
  - assert (Hstop :
      match lo with O => k st | S _ => None end = Some x ->
      exists st', k st' = Some x /\ length (rest st') + lo * n <= length (rest st)).
    { destruct lo; [|discriminate]. intros Hk. exists st. split; [assumption|simpl; lia]. }
    assert (Hmore : forall k',
      k' = (fun st' => if Nat.ltb (length (rest st')) (length (rest st))
                       then rep body f (pred lo) (option_map pred hi) st' k
                       else None) ->
      body st k' = Some x ->
      exists st', k st' = Some x /\ length (rest st') + lo * n <= length (rest st)).
    { intros k' -> Hb. apply Hbody in Hb. destruct Hb as (st1 & Hk1 & Hlen1).
      destruct (Nat.ltb (length (rest st1)) (length (rest st))); [|discriminate].
      apply IH in Hk1. destruct Hk1 as (st2 & Hk2 & Hlen2).
      exists st2. split; [assumption|].
      destruct lo; simpl in *; lia. }
    destruct hi as [[|h]|].
    + apply Hstop. exact H.
    + match type of H with
      | match ?e with _ => _ end = _ => destruct e as [y|] eqn:E
      end.
      * inversion H; subst y. eapply Hmore; [reflexivity|exact E].
      * apply Hstop. exact H.
    + match type of H with
      | match ?e with _ => _ end = _ => destruct e as [y|] eqn:E
      end.
      * inversion H; subst y. eapply Hmore; [reflexivity|exact E].
      * apply Hstop. exact H.
Qed.

Lemma run_reads (r : regex) : reads (min_len r) (run (A:=A) r).
Proof.
  induction r as [|p|a IHa b IHb|a IHa b IHb|a IHa lo hi| | | |a IHa];
    intros st k x H; cbn [run] in H.
  - exists st. split; [assumption|simpl; lia].
  - destruct (rest st) as [|c s'] eqn:E; [discriminate|].
    destruct (p c); [|discriminate].
    eexists. split; [exact H|]. simpl. lia.
  - apply IHa in H. destruct H as (st1 & H1 & L1).
    apply IHb in H1. destruct H1 as (st2 & H2 & L2).
    exists st2. split; [assumption|simpl; lia].
  - destruct (run a st k) as [y|] eqn:E.
    + inversion H; subst y. apply IHa in E. destruct E as (st1 & H1 & L1).
      exists st1. split; [assumption|simpl; lia].
    + apply IHb in H. destruct H as (st1 & H1 & L1).
      exists st1. split; [assumption|simpl; lia].
  - exact (rep_reads IHa _ _ _ _ _ H).
  - destruct (prev st); [discriminate|]. exists st. split; [assumption|simpl; lia].
  - exists st. simpl. split; [|lia].
    destruct (rest st) as [|c [|c' s']]; try discriminate; [assumption|].
    destruct (is_nl c); [assumption|discriminate].
  - destruct (xorb _ _); [|discriminate]. exists st. split; [assumption|simpl; lia].
  - apply IHa in H. destruct H as (st1 & H1 & L1).
    eexists. split; [exact H1|]. simpl. exact L1.
Qed.
End Consumes.

Lemma match_at_reads r p s st :
  match_at r p s = Some st -> length (rest st) + min_len r <= length s.
Proof.
  unfold match_at. intros H. apply run_reads in H.
  destruct H as (st' & H' & L). inversion H'; subst st'. exact L.
Qed.

(** Every string listed by [findall] is the item of a match. *)
Lemma findall_aux_item r p skip s m :
  In m (findall_aux r p skip s) ->
  exists p' s' st, match_at r p' s' = Some st /\ m = item r s' st.
Proof.
  revert p skip. induction s as [|c s' IH]; intros p skip Hin; simpl in Hin.
  - destruct skip; [|contradiction].
    destruct (match_at r p []) as [st|] eqn:E; [|contradiction].
    destruct Hin as [<-|[]]. eauto.
  - destruct skip as [|k].
    + destruct (match_at r p (c :: s')) as [st|] eqn:E.
      * destruct Hin as [<-|Hin]; [eauto|eapply IH; exact Hin].
      * eapply IH; exact Hin.
    + eapply IH; exact Hin.
Qed.

(** Every string listed by [findall] for a pattern without a group is at
    least [min_len] long. *)
Lemma findall_min r s m :
  has_grp r = false -> In m (findall r s) -> min_len r <= length m.
Proof.
  intros Hg Hin. apply findall_aux_item in Hin.
  destruct Hin as (p' & s' & st & E & ->).
  unfold item. rewrite Hg. apply match_at_reads in E.
  rewrite length_firstn. lia.
Qed.

End ReFacts.

(** ** Facts about the string operations *)

Module PyFacts.
Import Py.

Lemma contains_empty_text kw : kw <> [] -> contains kw [] = false.
Proof. destruct kw; [congruence|reflexivity]. Qed.

Lemma length_lstrip s : length (lstrip s) <= length s.
Proof.
  induction s as [|c s IH]; simpl; [lia|].
  destruct (isspace c); simpl; lia.
Qed.

Lemma length_strip s : length (strip s) <= length s.
Proof.
  unfold strip. rewrite length_rev.
  etransitivity; [apply length_lstrip|]. rewrite length_rev. apply length_lstrip.
Qed.

Lemma len_strip s : (len (strip s) <= len s)%Z.
Proof. unfold len. pose proof (length_strip s). lia. Qed.

Lemma len_app a b : len (a ++ b) = (len a + len b)%Z.
Proof. unfold len. rewrite length_app. lia. Qed.


Lemma len_slice_to k s : (0 <= k)%Z -> (len (slice_to k s) <= k)%Z.
Proof.
  intros Hk. unfold slice_to, len.
  destruct (Z.leb_spec 0 k); [|lia].
  rewrite length_firstn. lia.
Qed.

Lemma len_slice_to_le k (s : str) : (len (slice_to k s) <= len s)%Z.
Proof.
  unfold slice_to, len. destruct (0 <=? k)%Z; rewrite length_firstn; lia.
Qed.

Lemma slice_to_nonempty {A} k (xs : list A) :
  (0 < k)%Z -> xs <> [] -> slice_to k xs <> [].
Proof.
  intros Hk Hx. unfold slice_to. destruct (Z.leb_spec 0 k); [|lia].
  destruct xs as [|x xs]; [congruence|].
  destruct (Z.to_nat k) eqn:E; [lia|]. simpl. discriminate.
Qed.

Lemma In_dedup x xs : In x (dedup xs) -> In x xs.
Proof.
  induction xs as [|y xs IH]; simpl; [tauto|].
  intros [->|H]; [now left|].
  apply filter_In in H. right. apply IH. tauto.
Qed.

Lemma split_ws_words s : 1 <= length (split_ws s) -> s <> [].
Proof. destruct s; simpl; [lia|discriminate]. Qed.

Lemma eqs_eq a b : eqs a b = true <-> a = b.
Proof.
  revert b. induction a as [|x a IH]; destruct b as [|y b]; simpl;
    try (split; [discriminate|congruence]); [tauto|].
  unfold eqc. rewrite andb_true_iff, Ascii.eqb_eq, IH.
  split; [intros [-> ->]; reflexivity|intros H; inversion H; tauto].
Qed.

Lemma join_nonempty sep x xs : x <> [] -> join sep (x :: xs) <> [].
Proof.
  intros Hx. simpl. destruct xs; [assumption|].
  destruct x; [congruence|discriminate].
Qed.

End PyFacts.

(** ** The keyword tables *)

Module KeywordFacts.
Import Py Re Ranker Stmt.

Lemma nonempty_ok s : nonempty s = true <-> s <> [].
Proof. destruct s; simpl; split; congruence. Qed.

(** [sum(w for kw in kws if kw in t)] is [w] times the number of entries
    of [kws] that occur in [t]. *)
Lemma sum_if_count w kws t : sum_if w kws t = (w * count_in kws t)%Z.
Proof.
  unfold sum_if, count_in. induction kws as [|kw kws IH]; simpl; [lia|].
  rewrite IH. destruct (contains kw t); simpl length; lia.
Qed.

Lemma count_in_empty_text kws :
  forallb nonempty kws = true -> count_in kws [] = 0%Z.
Proof.
  unfold count_in. induction kws as [|kw kws IH]; cbn [forallb filter]; [reflexivity|].
  rewrite andb_true_iff. intros [Hk Hr].
  apply nonempty_ok in Hk. rewrite (PyFacts.contains_empty_text Hk). auto.
Qed.



Lemma table_get_cases role tbl d :
  table_get role tbl d = d \/ In (table_get role tbl d) (map snd tbl).
Proof.
  induction tbl as [|[k v] tbl IH]; simpl; [now left|].
  destruct (eqs role k); [right; now left|].
  destruct IH; [now left|right; now right].
Qed.

(** A property of all seven possible persona tables holds of the one
    selected by a role. *)
Lemma persona_keywords_ind (P : tiers -> bool) :
  forallb P (mkTiers [] [] [] :: map snd persona_table) = true ->
  forall role, P (get_enhanced_persona_keywords role) = true.
Proof.
  intros H role. rewrite forallb_forall in H. apply H.
  unfold get_enhanced_persona_keywords.
  destruct (table_get_cases role persona_table (mkTiers [] [] [])) as [->|Hin];
    [now left|now right].
Qed.

Lemma persona_keywords_nonempty role :
  tiers_nonempty (get_enhanced_persona_keywords role) = true.
Proof. apply persona_keywords_ind. vm_compute. reflexivity. Qed.

(** A match of the quoted-term pattern always sets the group, to a
    non-empty string. *)
Lemma quoted_match_cap p s st :
  match_at quoted_re p s = Some st -> exists c, cap st = Some c /\ c <> [].
Proof.
  unfold match_at, quoted_re, seqs. cbn [run rest cap prev].
  destruct s as [|c0 s0]; [discriminate|].
  destruct (isquote c0); [|discriminate].
  intros H. apply ReFacts.run_reads in H.
  destruct H as (st1 & H1 & L1). cbn [rest cap prev min_len plus] in *.
  destruct (rest st1) as [|c1 s1] eqn:E1; [discriminate|].
  destruct (isquote c1); [|discriminate].
  inversion H1; subst st. cbn [cap]. eexists. split; [reflexivity|].
  intros Hnil. apply (f_equal (@length ascii)) in Hnil.
  rewrite length_firstn in Hnil. simpl in *. lia.
Qed.

Lemma quoted_terms_nonempty s m : In m (findall quoted_re s) -> m <> [].
Proof.
  intros Hin. apply ReFacts.findall_aux_item in Hin.
  destruct Hin as (p' & s' & st & E & ->).
  apply quoted_match_cap in E. destruct E as (c & Hc & Hne).
  unfold item. replace (has_grp quoted_re) with true by reflexivity.
  rewrite Hc. exact Hne.
Qed.

Lemma action_words_nonempty s m : In m (findall action_re s) -> m <> [].
Proof.
  intros Hin. apply ReFacts.findall_min in Hin; [|reflexivity].
  assert (E : min_len action_re = 4) by reflexivity. rewrite E in Hin.
  destruct m; simpl in *; [lia|discriminate].
Qed.

Lemma job_keywords_nonempty job :
  tiers_nonempty (get_enhanced_job_keywords job) = true.
Proof.
  unfold tiers_nonempty, get_enhanced_job_keywords. cbn [high medium low].
  rewrite !andb_true_iff. split; [split|reflexivity].
  - apply forallb_forall. intros kw Hin. apply PyFacts.In_dedup in Hin.
    apply nonempty_ok. apply in_app_or in Hin. destruct Hin as [Hin|Hin].
    + eapply action_words_nonempty; exact Hin.
    + eapply quoted_terms_nonempty; exact Hin.
  - apply forallb_forall. intros kw Hin. apply PyFacts.In_dedup in Hin.
    apply filter_In in Hin. destruct Hin as [_ Hlen].
    apply nonempty_ok. intros ->. discriminate.
Qed.

Lemma persona_score_empty_text role : persona_score role [] = 0%Z.
Proof.
  pose proof (persona_keywords_nonempty role) as H. unfold tiers_nonempty in H.
  rewrite !andb_true_iff in H. destruct H as [[Hh Hm] Hl].
  unfold persona_score. rewrite !sum_if_count.
  rewrite (count_in_empty_text _ Hh), (count_in_empty_text _ Hm),
          (count_in_empty_text _ Hl). reflexivity.
Qed.

Lemma job_score_empty_text job : job_score job [] = 0%Z.
Proof.
  pose proof (job_keywords_nonempty job) as H. unfold tiers_nonempty in H.
  rewrite !andb_true_iff in H. destruct H as [[Hh Hm] Hl].
  unfold job_score. rewrite !sum_if_count.
  rewrite (count_in_empty_text _ Hh), (count_in_empty_text _ Hm). reflexivity.
Qed.

Lemma count_in_mono kws t t' :
  forallb (fun kw => implb (contains kw t') (contains kw t)) kws = true ->
  (count_in kws t' <= count_in kws t)%Z.
Proof.
  unfold count_in. induction kws as [|kw kws IH]; cbn [forallb filter]; [lia|].
  rewrite andb_true_iff. intros [Hk Hr]. specialize (IH Hr).
  destruct (contains kw t'), (contains kw t); cbn [length] in *;
    try discriminate; lia.
Qed.

Lemma mem_filter_self x l : mem x (filter (fun y => negb (eqs x y)) l) = false.
Proof.
  induction l as [|y l IH]; [reflexivity|]. cbn [filter].
  destruct (eqs x y) eqn:E; cbn [negb]; [exact IH|].
  unfold mem in *. cbn [existsb]. rewrite E, IH. reflexivity.
Qed.

Lemma mem_filter f x l : mem x (filter f l) = true -> mem x l = true.
Proof.
  unfold mem. rewrite !existsb_exists. intros (y & Hin & Hy).
  apply filter_In in Hin. exists y. tauto.
Qed.

Lemma distinct_filter f l : distinct l = true -> distinct (filter f l) = true.
Proof.
  induction l as [|x l IH]; [reflexivity|]. cbn [distinct filter].
  rewrite andb_true_iff, negb_true_iff. intros [Hx Hl].
  destruct (f x); [|auto]. cbn [distinct].
  rewrite andb_true_iff, negb_true_iff. split; [|auto].
  destruct (mem x (filter f l)) eqn:E; [|reflexivity].
  apply mem_filter in E. congruence.
Qed.

Lemma distinct_dedup l : distinct (dedup l) = true.
Proof.
  induction l as [|x l IH]; [reflexivity|]. cbn [dedup distinct].
  rewrite mem_filter_self. cbn [negb andb]. apply distinct_filter. exact IH.
Qed.

Lemma distinct_NoDup l : distinct l = true -> NoDup l.
Proof.
  induction l as [|x l IH]; [constructor|]. cbn [distinct].
  rewrite andb_true_iff, negb_true_iff. intros [Hx Hl].
  constructor; [|auto]. intros Hin.
  assert (mem x l = true); [|congruence].
  unfold mem. apply existsb_exists. exists x. split; [assumption|].
  apply PyFacts.eqs_eq. reflexivity.
Qed.

Lemma persona_keywords_distinct role :
  tiers_distinct (get_enhanced_persona_keywords role) = true.
Proof. apply persona_keywords_ind. vm_compute. reflexivity. Qed.

Lemma job_keywords_distinct job :
  tiers_distinct (get_enhanced_job_keywords job) = true.
Proof.
  unfold tiers_distinct, get_enhanced_job_keywords. cbn [high medium low].
  rewrite !distinct_dedup. reflexivity.
Qed.

Lemma forallb_app_true {A} (f : A -> bool) l1 l2 :
  forallb f (l1 ++ l2) = true -> forallb f l1 = true /\ forallb f l2 = true.
Proof. rewrite forallb_app, andb_true_iff. tauto. Qed.

End KeywordFacts.

(** ** The relevance score *)

Section Score.
Import Py Ranker KeywordFacts.
Variable persona_role : str.
Variable job_task : str.



(** With an empty text only the rules that read the document label can
    fire. *)
Lemma context_bonus_empty_text doc_lower :
  context_bonus persona_role job_task [] doc_lower = meal_bonus job_task doc_lower.
Proof.
  unfold context_bonus, role_bonus, diet_bonus.
  replace (count_in academic_terms []) with 0%Z by reflexivity.
  replace (count_in business_terms []) with 0%Z by reflexivity.
  replace (count_in travel_terms []) with 0%Z by reflexivity.
  replace (any_in vegetarian_terms []) with false by reflexivity.
  replace (any_in gluten_free_terms []) with false by reflexivity.
  replace (any_in buffet_terms []) with false by reflexivity.
  rewrite !andb_false_r.
  destruct (role_has persona_role _), (role_has persona_role _),
           (role_has persona_role _); cbn [b2z]; lia.
Qed.

Lemma penalty_empty_text doc_lower :
  penalty job_task [] doc_lower
  = (- b2z (job_has job_task "dinner" && contains (lit "breakfast") doc_lower) 3)%Z.
Proof.
  unfold penalty.
  replace (any_in meat_terms []) with false by reflexivity.
  replace (any_in gluten_terms []) with false by reflexivity.
  replace (contains (lit "dessert") []) with false by reflexivity.
  rewrite !andb_false_r. cbn [b2z]. lia.
Qed.

(** C10, amended.  With an empty text the score is decided by the document
    label alone and can be positive: when the job task and the label both
    name "dinner" (case-insensitively, as the code compares them) and the
    label does not name "breakfast", the score is 1 unless the job task and
    the label also both name "lunch", in which case it is 2. *)
Theorem score_of_empty_text_with_dinner_label (label : str) :
  contains (lit "dinner") (lower job_task) = true ->
  contains (lit "dinner") (lower label) = true ->
  contains (lit "breakfast") (lower label) = false ->
  (calculate_enhanced_relevance_score persona_role job_task [] label
     == if contains (lit "lunch") (lower job_task) && contains (lit "lunch") (lower label)
        then 2 else 1)%Q
  /\ (0 < calculate_enhanced_relevance_score persona_role job_task [] label)%Q.
Proof.
  intros Hjob Hlabel Hbreak.
  assert (E : (calculate_enhanced_relevance_score persona_role job_task [] label
     == if contains (lit "lunch") (lower job_task) && contains (lit "lunch") (lower label)
        then 2 else 1)%Q).
  { unfold calculate_enhanced_relevance_score, weighted_sum.
    cbn [lower map].
    rewrite persona_score_empty_text, job_score_empty_text,
            context_bonus_empty_text, penalty_empty_text.
    unfold meal_bonus, job_has. rewrite Hjob, Hlabel, Hbreak.
    rewrite !andb_false_r. cbn [andb b2z].
    destruct (contains (lit "lunch") (lower job_task) && contains (lit "lunch") (lower label));
      vm_compute; reflexivity. }
  split; [exact E|]. rewrite E.
  destruct (_ && _); reflexivity.
Qed.

(** C9. Within one call every keyword of a tier is looked for once and
    adds its fixed weight when it occurs in the lowercased text, however
    often it occurs: the tiers hold no keyword twice, the persona score is
    9, 4 and 1 times the number of high, medium and low keywords present,
    the job score 25 and 4 times the number of high and medium keywords
    present; hence a text [t'] in which no keyword is present that is not
    present in [t] (such as [t] with a present keyword repeated) scores no
    more than [t], on both scores and on their weighted sum. *)
Theorem keyword_counted_once (t t' : str) :
  Stmt.no_new_keyword persona_role job_task t t' = true ->
  let pk := get_enhanced_persona_keywords persona_role in
  let jk := get_enhanced_job_keywords job_task in
  (persona_score persona_role (lower t') <= persona_score persona_role (lower t))%Z
  /\ (job_score job_task (lower t') <= job_score job_task (lower t))%Z
  /\ ((3 # 10) * inject_Z (persona_score persona_role (lower t'))
      + (5 # 10) * inject_Z (job_score job_task (lower t'))
      <= (3 # 10) * inject_Z (persona_score persona_role (lower t))
         + (5 # 10) * inject_Z (job_score job_task (lower t)))%Q
  /\ persona_score persona_role (lower t)
     = (9 * count_in (high pk) (lower t) + 4 * count_in (medium pk) (lower t)
        + count_in (low pk) (lower t))%Z
  /\ job_score job_task (lower t)
     = (25 * count_in (high jk) (lower t) + 4 * count_in (medium jk) (lower t))%Z
  /\ NoDup (high pk) /\ NoDup (medium pk) /\ NoDup (low pk)
  /\ NoDup (high jk) /\ NoDup (medium jk).
Proof.
  intros H pk jk.
  unfold Stmt.no_new_keyword, Stmt.all_keywords in H.
  fold pk jk in H.
  apply forallb_app_true in H. destruct H as [Hph H].
  apply forallb_app_true in H. destruct H as [Hpm H].
  apply forallb_app_true in H. destruct H as [Hpl H].
  apply forallb_app_true in H. destruct H as [Hjh Hjm].
  apply count_in_mono in Hph, Hpm, Hpl, Hjh, Hjm.
  assert (Ep : forall tl, persona_score persona_role tl
     = (9 * count_in (high pk) tl + 4 * count_in (medium pk) tl
        + count_in (low pk) tl)%Z).
  { intros tl. unfold persona_score. rewrite !sum_if_count. fold pk. lia. }
  assert (Ej : forall tl, job_score job_task tl
     = (25 * count_in (high jk) tl + 4 * count_in (medium jk) tl)%Z).
  { intros tl. unfold job_score. rewrite !sum_if_count. fold jk. lia. }
  assert (Lp : (persona_score persona_role (lower t')
                <= persona_score persona_role (lower t))%Z)
    by (rewrite !Ep; lia).
  assert (Lj : (job_score job_task (lower t') <= job_score job_task (lower t))%Z)
    by (rewrite !Ej; lia).
  pose proof (persona_keywords_distinct persona_role) as Dp.
  pose proof (job_keywords_distinct job_task) as Dj.
  unfold Stmt.tiers_distinct in Dp, Dj. fold pk in Dp. fold jk in Dj.
  rewrite !andb_true_iff in Dp, Dj.
  destruct Dp as [[Dph Dpm] Dpl]. destruct Dj as [[Djh Djm] _].
  assert (LQ : ((3 # 10) * inject_Z (persona_score persona_role (lower t'))
      + (5 # 10) * inject_Z (job_score job_task (lower t'))
      <= (3 # 10) * inject_Z (persona_score persona_role (lower t))
         + (5 # 10) * inject_Z (job_score job_task (lower t)))%Q).
  { apply Qplus_le_compat; (apply Qmult_le_l; [reflexivity|]);
      rewrite <- Zle_Qle; assumption. }
  split; [exact Lp|]. split; [exact Lj|]. split; [exact LQ|].
  split; [apply Ep|]. split; [apply Ej|].
  repeat split; apply distinct_NoDup; assumption.
Qed.

End Score.

(** The score of an empty text and of a text of punctuation only, under a
    job that penalises the label. *)
Example score_of_empty_text_is_zero :
  (Ranker.calculate_enhanced_relevance_score
     (lit "Food Contractor") (lit "Prepare a vegetarian dinner menu") []
     (lit "Breakfast Ideas.pdf") == 0)%Q.
Proof. vm_compute. reflexivity. Qed.

Example score_of_punctuation_is_zero :
  (Ranker.calculate_enhanced_relevance_score
     (lit "Food Contractor") (lit "Prepare a vegetarian dinner menu")
     (lit "?!... --- ;;;") (lit "Breakfast Ideas.pdf") == 0)%Q.
Proof. vm_compute. reflexivity. Qed.

(** C10 as first stated fails: job task and label both contain "dinner"
    (as written and lowercased alike), the label does not contain
    "breakfast", the text is empty, and the score is 2, not 1, because both
    also contain "lunch". *)
Lemma score_of_empty_text_not_always_one :
  let persona_role := lit "Food Contractor" in
  let job_task := lit "plan a lunch and dinner buffet" in
  let label := lit "lunch and dinner ideas.pdf" in
  Py.contains (lit "dinner") job_task = true
  /\ Py.contains (lit "dinner") label = true
  /\ Py.contains (lit "breakfast") label = false
  /\ Py.lower job_task = job_task
  /\ Py.lower label = label
  /\ ~ (Ranker.calculate_enhanced_relevance_score persona_role job_task [] label == 1)%Q
  /\ (Ranker.calculate_enhanced_relevance_score persona_role job_task [] label == 2)%Q.
Proof. vm_compute. repeat split; try reflexivity. intros H; discriminate H. Qed.

(** The amended statement applies to a label that names "dinner" only. *)
Lemma score_of_empty_text_with_dinner_label_witness :
  Py.contains (lit "dinner") (Py.lower (lit "Prepare a vegetarian dinner menu")) = true
  /\ Py.contains (lit "dinner") (Py.lower (lit "Dinner Ideas - Mains")) = true
  /\ Py.contains (lit "breakfast") (Py.lower (lit "Dinner Ideas - Mains")) = false
  /\ (Ranker.calculate_enhanced_relevance_score
        (lit "Food Contractor") (lit "Prepare a vegetarian dinner menu") []
        (lit "Dinner Ideas - Mains") == 1)%Q.
Proof.
  split; [reflexivity|]. split; [reflexivity|]. split; [reflexivity|].
  exact (proj1 (score_of_empty_text_with_dinner_label
                  (lit "Food Contractor") (lit "Prepare a vegetarian dinner menu")
                  (lit "Dinner Ideas - Mains") eq_refl eq_refl eq_refl)).
Defined.

(** Repeating "menu" and "dinner" in a text that already has them brings no
    new keyword. *)
Lemma keyword_counted_once_witness :
  let role := lit "Food Contractor" in
  let job := lit "Prepare a vegetarian dinner menu" in
  Stmt.no_new_keyword role job (lit "Dinner menu")
                      (lit "Dinner menu, menu, menu and dinner again") = true
  /\ (Ranker.persona_score role (Py.lower (lit "Dinner menu, menu, menu and dinner again"))
      <= Ranker.persona_score role (Py.lower (lit "Dinner menu")))%Z.
Proof.
  split; [reflexivity|].
  exact (proj1 (keyword_counted_once (lit "Food Contractor")
                  (lit "Prepare a vegetarian dinner menu") (lit "Dinner menu")
                  (lit "Dinner menu, menu, menu and dinner again") eq_refl)).
Defined.

(** ** The dietary rules under the job task "vegetarian dinner menu" *)

Section Vegetarian.
Import Py Ranker Stmt.
Variable persona_role : str.

Lemma any_in_intro terms term s :
  In term terms -> contains term s = true -> any_in terms s = true.
Proof.
  intros Hin Hc. unfold any_in. apply existsb_exists. exists term. tauto.
Qed.


End Vegetarian.



(** ** The descending stable sort *)

Section SortedDesc.
Variable A : Type.
Variable key : A -> Q.

Local Abbreviation ge_key := (Stmt.ge_key key).
Local Abbreviation has_key := (Stmt.has_key key).

Lemma Qlt_b_true x y : Qlt_b x y = true <-> (x < y)%Q.
Proof.
  unfold Qlt_b. rewrite negb_true_iff. split.
  - intros H. apply Qnot_le_lt. intros Hle. apply Qle_bool_iff in Hle. congruence.
  - intros H. destruct (Qle_bool y x) eqn:E; [|reflexivity].
    apply Qle_bool_iff in E. apply Qlt_not_le in H. contradiction.
Qed.

Lemma Qlt_b_false x y : Qlt_b x y = false <-> (y <= x)%Q.
Proof.
  unfold Qlt_b. rewrite negb_false_iff. apply Qle_bool_iff.
Qed.

Lemma insert_desc_perm x l : Permutation (insert_desc key x l) (x :: l).
Proof.
  induction l as [|y l IH]; simpl; [reflexivity|].
  destruct (Qlt_b (key x) (key y)); [|reflexivity].
  rewrite IH. apply perm_swap.
Qed.

Lemma sorted_desc_perm l : Permutation (sorted_desc key l) l.
Proof.
  induction l as [|x l IH]; simpl; [reflexivity|].
  rewrite insert_desc_perm. constructor. exact IH.
Qed.

Lemma insert_desc_Forall (P : A -> Prop) x l :
  P x -> Forall P l -> Forall P (insert_desc key x l).
Proof.
  intros Hx Hl. eapply Permutation_Forall;
    [symmetry; apply insert_desc_perm|]. constructor; assumption.
Qed.

Lemma insert_desc_sorted x l :
  StronglySorted ge_key l -> StronglySorted ge_key (insert_desc key x l).
Proof.
  induction l as [|y l IH]; intros Hs; simpl.
  - constructor; constructor.
  - inversion Hs as [|? ? Hl Hy]; subst.
    destruct (Qlt_b (key x) (key y)) eqn:E.
    + apply Qlt_b_true in E. constructor; [apply IH; assumption|].
      apply insert_desc_Forall; [|assumption].
      unfold ge_key. apply Qlt_le_weak. exact E.
    + apply Qlt_b_false in E. constructor; [assumption|].
      constructor; [exact E|].
      eapply Forall_impl; [|exact Hy].
      intros z Hz. unfold ge_key in *. eapply Qle_trans; eassumption.
Qed.

Lemma sorted_desc_sorted l : StronglySorted ge_key (sorted_desc key l).
Proof.
  induction l as [|x l IH]; simpl; [constructor|].
  apply insert_desc_sorted. exact IH.
Qed.

(** Stability: the elements whose key equals [q] come out in the order in
    which they went in. *)
Lemma insert_desc_filter q x l :
  filter (has_key q) (insert_desc key x l)
  = if has_key q x then x :: filter (has_key q) l else filter (has_key q) l.
Proof.
  induction l as [|y l IH]; simpl.
  - destruct (has_key q x); reflexivity.
  - destruct (Qlt_b (key x) (key y)) eqn:E; simpl.
    + rewrite IH. destruct (has_key q x) eqn:Hx; [|reflexivity].
      destruct (has_key q y) eqn:Hy; [|reflexivity].
      exfalso. unfold has_key in *.
      apply Qeq_bool_iff in Hx, Hy. apply Qlt_b_true in E.
      rewrite Hx, Hy in E. exact (Qlt_irrefl _ E).
    + destruct (has_key q x); reflexivity.
Qed.

Lemma sorted_desc_stable q l :
  filter (has_key q) (sorted_desc key l) = filter (has_key q) l.
Proof.
  induction l as [|x l IH]; simpl; [reflexivity|].
  rewrite insert_desc_filter, IH. reflexivity.
Qed.

End SortedDesc.

(** ** [rank_sections] *)

Section Rank.
Import Py Ranker Stmt.
Variable persona_role : str.
Variable job_task : str.
Variable vectorize : list str -> option (list Q).

Local Abbreviation combined := (combined_score persona_role job_task).
Local Abbreviation scoring := (score_loop persona_role job_task).

Lemma update_same st r f : update st r f r = f (st r).
Proof. unfold update. rewrite Nat.eqb_refl. reflexivity. Qed.

Lemma update_other st r f r' : r' <> r -> update st r f r' = st r'.
Proof.
  intros H. unfold update. destruct (Nat.eqb_spec r' r); [contradiction|reflexivity].
Qed.

Lemma same_fixed_refl d : same_fixed d d.
Proof. unfold same_fixed. tauto. Qed.

Lemma same_fixed_trans a b c : same_fixed a b -> same_fixed b c -> same_fixed a c.
Proof. unfold same_fixed. intuition congruence. Qed.

Lemma same_fixed_update st r f r' :
  (forall d, same_fixed d (f d)) -> same_fixed (st r') (update st r f r').
Proof.
  intros Hf. unfold update. destruct (Nat.eqb_spec r' r) as [->|_];
    [apply Hf|apply same_fixed_refl].
Qed.

Lemma same_fixed_set_score q d : same_fixed d (set_relevance_score q d).
Proof. unfold same_fixed. simpl. tauto. Qed.

Lemma same_fixed_set_rank k d : same_fixed d (set_importance_rank k d).
Proof. unfold same_fixed. simpl. tauto. Qed.

(** The combined score reads only keys that are never written. *)
Lemma combined_score_fixed q d d' : same_fixed d d' -> combined q d = combined q d'.
Proof.
  intros (Hd & _ & Ht & Hs & _).
  unfold combined_score, title_bonus. rewrite Hd, Ht, Hs. reflexivity.
Qed.

(** *** The scoring loop *)

Lemma score_loop_fixed sims refs : forall i st r,
  same_fixed (st r) (scoring sims i refs st r).
Proof.
  induction refs as [|a refs IH]; intros i st r; simpl; [apply same_fixed_refl|].
  eapply same_fixed_trans; [|apply IH].
  apply same_fixed_update. intros d. apply same_fixed_set_score.
Qed.


Lemma score_loop_outside sims refs : forall i st r,
  ~ In r refs -> scoring sims i refs st r = st r.
Proof.
  induction refs as [|a refs IH]; intros i st r Hnin; simpl; [reflexivity|].
  rewrite IH; [|intros H; apply Hnin; now right].
  apply update_other. intros ->. apply Hnin. now left.
Qed.

(** Each dictionary of the list ends up with a score. *)
Lemma score_loop_scored sims refs : forall i st r,
  In r refs -> exists q, relevance_score (scoring sims i refs st r) = Some q.
Proof.
  induction refs as [|a refs IH]; intros i st r Hin; simpl; [contradiction|].
  destruct (in_dec Nat.eq_dec r refs) as [Hr|Hr]; [apply IH; exact Hr|].
  destruct Hin as [->|Hin]; [|contradiction].
  rewrite score_loop_outside by exact Hr. rewrite update_same.
  eexists. reflexivity.
Qed.

(** With the similarity array [sims], the dictionary at position [k] of a
    list without repetition gets the combined score for [sims[i + k]]. *)
Lemma score_loop_value sims refs : forall i st k r,
  NoDup refs -> nth_error refs k = Some r ->
  relevance_score (scoring sims i refs st r)
  = Some (combined (nth (i + k) sims 0%Q) (st r)).
Proof.
  induction refs as [|a refs IH]; intros i st k r Hnd Hk; [destruct k; discriminate|].
  inversion Hnd as [|? ? Ha Hnd']; subst. destruct k as [|k]; simpl in Hk |- *.
  - inversion Hk; subst a. rewrite score_loop_outside by exact Ha.
    rewrite update_same, Nat.add_0_r. reflexivity.
  - rewrite (IH (S i) _ k r Hnd' Hk). rewrite Nat.add_succ_r. simpl.
    rewrite update_other; [reflexivity|].
    intros ->. apply Ha. eapply nth_error_In. exact Hk.
Qed.

(** When every similarity is 0 the score no longer depends on the
    position, so repetitions in the list do no harm. *)
Lemma score_loop_zero sims refs :
  (forall j, nth j sims 0%Q = 0%Q) ->
  forall i st r, In r refs ->
    relevance_score (scoring sims i refs st r) = Some (combined 0%Q (st r)).
Proof.
  intros Hz. induction refs as [|a refs IH]; intros i st r Hin; simpl; [contradiction|].
  destruct (in_dec Nat.eq_dec r refs) as [Hr|Hr].
  - rewrite (IH _ _ _ Hr). f_equal. symmetry. apply combined_score_fixed.
    apply same_fixed_update. intros d. apply same_fixed_set_score.
  - destruct Hin as [->|Hin]; [|contradiction].
    rewrite score_loop_outside by exact Hr. rewrite update_same, Hz. reflexivity.
Qed.

(** *** The ranking loop *)

Lemma rank_loop_fixed refs : forall k st r,
  same_fixed (st r) (rank_loop k refs st r).
Proof.
  induction refs as [|a refs IH]; intros k st r; simpl; [apply same_fixed_refl|].
  eapply same_fixed_trans; [|apply IH].
  apply same_fixed_update. intros d. apply same_fixed_set_rank.
Qed.

Lemma rank_loop_score refs : forall k st r,
  relevance_score (rank_loop k refs st r) = relevance_score (st r).
Proof.
  induction refs as [|a refs IH]; intros k st r; simpl; [reflexivity|].
  rewrite IH. unfold update. destruct (Nat.eqb r a) eqn:E; [|reflexivity].
  apply Nat.eqb_eq in E. subst. reflexivity.
Qed.

Lemma rank_loop_outside refs : forall k st r,
  ~ In r refs -> rank_loop k refs st r = st r.
Proof.
  induction refs as [|a refs IH]; intros k st r Hnin; simpl; [reflexivity|].
  rewrite IH; [|intros H; apply Hnin; now right].
  apply update_other. intros ->. apply Hnin. now left.
Qed.

(** Over a list without repetition the ranks read off in list order are
    [k], [k + 1], ... *)
Lemma rank_loop_ranks refs : forall k st,
  NoDup refs ->
  map (fun r => importance_rank (rank_loop k refs st r)) refs
  = map (fun j => Some (k + Z.of_nat j)%Z) (seq 0 (length refs)).
Proof.
  induction refs as [|a refs IH]; intros k st Hnd; [reflexivity|].
  inversion Hnd as [|? ? Ha Hnd']; subst.
  cbn [rank_loop map length seq]. f_equal.
  - rewrite rank_loop_outside by exact Ha. rewrite update_same. simpl.
    f_equal. lia.
  - rewrite (IH (k + 1)%Z _ Hnd'). rewrite <- seq_shift, map_map.
    apply map_ext. intros j. f_equal. lia.
Qed.

(** *** The whole function *)

Local Abbreviation ranking := (rank_sections persona_role job_task vectorize).

Lemma StronglySorted_weaken {A} (R R' : A -> A -> Prop) l :
  (forall a b, R a b -> R' a b) -> StronglySorted R l -> StronglySorted R' l.
Proof.
  intros HR. induction 1 as [|a l Hl IH Ha]; constructor; [exact IH|].
  eapply Forall_impl; [apply HR|exact Ha].
Qed.

(** The store and the list that [rank_sections] leaves, in terms of its
    two loops and the sort. *)
Lemma rank_sections_unfold st refs :
  refs <> [] ->
  exists sims,
    let st1 := scoring sims 0 refs st in
    let out := sorted_desc (score_of st1) refs in
    rank_sections persona_role job_task vectorize st refs
    = (rank_loop 1 out st1, out)
    /\ (vectorize (map (fun r => text (st r)) refs
                     ++ [context_text persona_role job_task]) = None ->
        sims = repeat 0%Q (length refs)).
Proof.
  intros Hne. destruct refs as [|a refs]; [congruence|].
  unfold rank_sections. cbv beta iota zeta.
  destruct (vectorize _) as [v|] eqn:Ev.
  - exists v. split; [reflexivity|]. intros H. congruence.
  - exists (repeat 0%Q (length (map (fun r => text (st r)) (a :: refs)))).
    split; [reflexivity|]. intros _. rewrite length_map. reflexivity.
Qed.


(** C7. If the vectorisation raises, every similarity is 0 and
    [rank_sections] still returns all the sections: the relevance score of
    each is 0.6 times its keyword score, plus 0.1 when its title has at
    least two words and does not start with "Content". *)
Theorem rank_sections_keyword_only (st : store) (refs : list ref) :
  vectorize (map (fun r => text (st r)) refs
               ++ [context_text persona_role job_task]) = None ->
  let st' := fst (ranking st refs) in
  let out := snd (ranking st refs) in
  Permutation out refs
  /\ forall r, In r refs ->
       exists q, relevance_score (st' r) = Some q
         /\ (q == (6 # 10) * calculate_enhanced_relevance_score
                               persona_role job_task
                               (text (st r)) (get_or_empty (document (st r)))
                  + (if title_bonus (st r) then 1 # 10 else 0))%Q.
Proof.
  intros Hraise. destruct refs as [|a refs'] eqn:Erefs.
  - cbn. split; [constructor|intros r []].
  - rewrite <- Erefs in *.
    assert (Hne : refs <> []) by (rewrite Erefs; discriminate).
    clear Erefs.
    destruct (rank_sections_unfold st Hne) as (sims & Hrun & Hsims).
    cbv zeta in Hrun. rewrite Hrun. cbn [fst snd].
    split; [apply sorted_desc_perm|].
    intros r Hin. rewrite rank_loop_score.
    rewrite (Hsims Hraise).
    rewrite score_loop_zero; [|intros j; apply nth_repeat|exact Hin].
    eexists. split; [reflexivity|].
    unfold combined_score. destruct (title_bonus (st r)); ring.
Qed.

(** C8. [rank_sections] writes through the references it is given: the
    list it returns is a permutation of the input list (nothing added,
    nothing dropped), every dictionary keeps its document, page number,
    text, title and source, and dictionaries outside the list are left
    as they were. *)
Theorem rank_sections_frame (st : store) (refs : list ref) :
  let st' := fst (ranking st refs) in
  let out := snd (ranking st refs) in
  Permutation out refs
  /\ (forall r, same_fixed (st r) (st' r))
  /\ (forall r, ~ In r refs -> st' r = st r).
Proof.
  destruct refs as [|a refs'] eqn:Erefs.
  - cbn. split; [constructor|]. split; [intros r; apply same_fixed_refl|reflexivity].
  - rewrite <- Erefs in *.
    assert (Hne : refs <> []) by (rewrite Erefs; discriminate).
    clear Erefs.
    destruct (rank_sections_unfold st Hne) as (sims & Hrun & _).
    cbv zeta in Hrun. rewrite Hrun. cbn [fst snd].
    pose proof (sorted_desc_perm (score_of (scoring sims 0 refs st)) refs) as Hperm.
    split; [exact Hperm|]. split.
    + intros r. eapply same_fixed_trans; [apply score_loop_fixed|apply rank_loop_fixed].
    + intros r Hnin. rewrite rank_loop_outside.
      * apply score_loop_outside. exact Hnin.
      * intros Hin. apply Hnin. eapply Permutation_in; [exact Hperm|exact Hin].
Qed.

End Rank.


Example rank_sections_sample_order :
  snd (Ranker.rank_sections Sample.role Sample.job Sample.similar Sample.sections [0; 1; 2])
  = [1; 2; 0].
Proof. vm_compute. reflexivity. Qed.

(** The ranks are dense only over distinct dictionaries: a dictionary that
    the list holds twice is ranked twice and keeps the later rank. *)
Remark rank_sections_shared_dictionary :
  map (fun r => importance_rank
                  (fst (Ranker.rank_sections Sample.role Sample.job Sample.similar
                          Sample.sections [0; 0]) r))
      (snd (Ranker.rank_sections Sample.role Sample.job Sample.similar
              Sample.sections [0; 0]))
  = [Some 2%Z; Some 2%Z].
Proof. vm_compute. reflexivity. Qed.

(** With a vectoriser that raises the sample sections are still scored. *)
Lemma rank_sections_keyword_only_witness :
  Sample.raising (map (fun r => text (Sample.sections r)) [0; 1; 2]
                    ++ [Ranker.context_text Sample.role Sample.job]) = None
  /\ Permutation
       (snd (Ranker.rank_sections Sample.role Sample.job Sample.raising
               Sample.sections [0; 1; 2]))
       [0; 1; 2].
Proof.
  split; [reflexivity|].
  exact (proj1 (rank_sections_keyword_only Sample.role Sample.job Sample.raising
                  Sample.sections [0; 1; 2] eq_refl)).
Defined.

(** ** [extract_refined_subsection] *)

Section Refine.
Import Py Ranker PyFacts.
Variable persona_role : str.
Variable job_task : str.

(** The assembly loop adds at most the budget, the two newlines after the
    last whole paragraph, or the three dots after a cut paragraph. *)
Lemma assemble_bound (max_length : Z) (ps : list (Q * str)) :
  forall result_text,
    (len result_text <= max_length + 2)%Z ->
    (len (assemble max_length result_text ps) <= max_length + 3)%Z.
Proof.
  induction ps as [|[q paragraph] ps IH]; intros result_text Hres; cbn [assemble].
  - lia.
  - destruct (Z.leb_spec (len result_text + len paragraph) max_length) as [Hfit|Hover].
    + apply IH. rewrite !len_app. change (len [nl; nl]) with 2%Z. lia.
    + cbv zeta. destruct (Z.ltb_spec 100 (max_length - len result_text)) as [Hroom|Hnoroom].
      * pose proof (@len_slice_to (max_length - len result_text) paragraph) as Hpart.
        destruct (Qlt_b _ _).
        -- rewrite len_app.
           pose proof (len_slice_to_le
                         (rfind "." (slice_to (max_length - len result_text) paragraph) + 1)
                         (slice_to (max_length - len result_text) paragraph)).
           lia.
        -- rewrite !len_app. change (len (lit "...")) with 3%Z. lia.
      * lia.
Qed.

(** C3. For every text and every budget [max_length >= 1] the refined
    text is at most three characters (the dots) longer than the budget. *)
Theorem extract_refined_subsection_length (text : str) (max_length : Z) :
  (1 <= max_length)%Z ->
  (len (extract_refined_subsection persona_role job_task text max_length)
   <= max_length + 3)%Z.
Proof.
  intros HL. unfold extract_refined_subsection.
  destruct (Z.leb_spec (len text) max_length) as [Hshort|Hlong].
  - pose proof (len_strip text). lia.
  - cbv zeta.
    match goal with
    | |- context [assemble max_length [] ?ps] =>
        pose proof (@assemble_bound max_length ps []) as Hasm;
        set (result_text := assemble max_length [] ps) in *
    end.
    assert (Hres : (len result_text <= max_length + 3)%Z)
      by (apply Hasm; unfold len; simpl; lia).
    destruct (truthy (strip result_text)).
    + pose proof (len_strip result_text). lia.
    + rewrite len_app. change (len (lit "...")) with 3%Z.
      pose proof (@len_slice_to max_length text). lia.
Qed.

End Refine.

Lemma extract_refined_subsection_length_witness :
  (1 <= 100)%Z
  /\ (Py.len (Ranker.extract_refined_subsection Sample.role Sample.job
                Sample.long_text 100) <= 100 + 3)%Z.
Proof.
  assert (H : (1 <= 100)%Z) by (intros C; discriminate C).
  split; [exact H|].
  exact (extract_refined_subsection_length Sample.role Sample.job Sample.long_text H).
Defined.

(** The bound needs a budget that is not negative: [text[:max_length]] with
    a negative bound keeps all but the last characters. *)
Remark extract_refined_subsection_negative_budget :
  Py.len (Ranker.extract_refined_subsection Sample.role Sample.job
            (lit "abcdefghij") (-5)) = 8%Z.
Proof. vm_compute. reflexivity. Qed.

(** The three dots are reached: a single long paragraph cut at the budget. *)
Example extract_refined_subsection_bound_reached :
  Py.len (Ranker.extract_refined_subsection Sample.role Sample.job
            (repeat "a"%char 200) 150) = 153%Z.
Proof. vm_compute. reflexivity. Qed.

(** ** Section detection *)

Section Detect.
Import Py Extractor Stmt PyFacts.

Lemma slice_window {A} i (l : list A) : slice i (i + 10) l = firstn 10 (skipn i l).
Proof. unfold slice. f_equal. lia. Qed.

Lemma skipn_nth_error {A} (l : list A) : forall i x,
  nth_error l i = Some x -> skipn i l = x :: skipn (S i) l.
Proof.
  induction l as [|y l IH]; intros [|i] x H; simpl in H; try discriminate.
  - inversion H. reflexivity.
  - apply IH in H. exact H.
Qed.

Lemma detect_loop_none lines rest : forall i,
  forallb (fun line => negb (is_section_header (strip line))) rest = true ->
  detect_loop lines i rest = [].
Proof.
  induction rest as [|line rest IH]; intros i H; [reflexivity|].
  cbn [forallb] in H. apply andb_true_iff in H. destruct H as [Hl Hr].
  cbn [detect_loop]. cbv zeta. apply negb_true_iff in Hl. rewrite Hl.
  apply IH. exact Hr.
Qed.

Lemma detect_loop_header lines rest : forall i j line,
  nth_error rest j = Some line ->
  is_section_header (strip line) = true ->
  In (mkDetected (strip line) (join [nl] (firstn 10 (skipn (i + j) lines)))
                 (Z.of_nat (i + j) + 1))
     (detect_loop lines i rest).
Proof.
  induction rest as [|l0 rest IH]; intros i j line Hj Hh; [destruct j; discriminate|].
  cbn [detect_loop]. cbv zeta. destruct j as [|j]; simpl in Hj.
  - inversion Hj; subst l0. rewrite Hh. left.
    rewrite Nat.add_0_r, slice_window. reflexivity.
  - specialize (IH (S i) j line Hj Hh).
    replace (S i + j) with (i + S j) in IH by lia.
    destruct (is_section_header (strip l0)); [right|]; exact IH.
Qed.

Lemma detect_sections_none text :
  no_header_line text = true -> detect_sections text = [].
Proof. unfold no_header_line, detect_sections. apply detect_loop_none. Qed.

(** *** Pages *)

Lemma extract_loop_page doc : forall n p,
  In p (extract_loop n doc) ->
  p_sections p = detect_sections (p_text p) /\ (Z.of_nat n < p_page_number p)%Z.
Proof.
  induction doc as [|text doc IH]; intros n p Hin; cbn [extract_loop] in Hin;
    [contradiction|].
  assert (Hrest : In p (extract_loop (S n) doc) ->
                  p_sections p = detect_sections (p_text p)
                  /\ (Z.of_nat n < p_page_number p)%Z).
  { intros H. apply IH in H. destruct H as [H1 H2]. split; [exact H1|lia]. }
  destruct (truthy (strip text)); [|auto].
  destruct Hin as [<-|Hin]; [|auto]. cbn. split; [reflexivity|lia].
Qed.

Lemma extract_loop_numbers doc : forall n,
  NoDup (map p_page_number (extract_loop n doc)).
Proof.
  induction doc as [|text doc IH]; intros n; cbn [extract_loop]; [constructor|].
  destruct (truthy (strip text)); [|apply IH].
  cbn [map p_page_number]. constructor; [|apply IH].
  intros Hin. apply in_map_iff in Hin. destruct Hin as (p & Hp & Hin).
  apply extract_loop_page in Hin. destruct Hin as [_ Hlt]. lia.
Qed.

Lemma slice_to_prefix {A} k (l : list A) : exists n, slice_to k l = firstn n l.
Proof. unfold slice_to. destruct (0 <=? k)%Z; eexists; reflexivity. Qed.

Lemma In_firstn {A} n (l : list A) x : In x (firstn n l) -> In x l.
Proof.
  intros H. rewrite <- (firstn_skipn n l). apply in_or_app. now left.
Qed.

Lemma NoDup_firstn {A} n (l : list A) : NoDup l -> NoDup (firstn n l).
Proof.
  intros H. rewrite <- (firstn_skipn n l) in H. eapply NoDup_app_remove_r. exact H.
Qed.

Lemma In_slice_to {A} k (l : list A) x : In x (slice_to k l) -> In x l.
Proof.
  destruct (slice_to_prefix k l) as (n & ->). apply In_firstn.
Qed.

Lemma limited_pages_numbers doc max_pages :
  NoDup (map p_page_number (limited_pages doc max_pages)).
Proof.
  unfold limited_pages, extract_text_with_sections.
  destruct (slice_to_prefix max_pages (extract_loop 0 doc)) as (n & ->).
  rewrite <- firstn_map. apply NoDup_firstn. apply extract_loop_numbers.
Qed.

Lemma limited_pages_page doc max_pages p :
  In p (limited_pages doc max_pages) -> p_sections p = detect_sections (p_text p).
Proof.
  intros H. apply In_slice_to in H. apply extract_loop_page in H. tauto.
Qed.

Lemma sections_of_page_number p s :
  In s (sections_of_page p) -> page_number s = p_page_number p.
Proof.
  unfold sections_of_page. destruct (truthy (p_sections p)).
  - intros H. apply in_map_iff in H. destruct H as (d & <- & _). reflexivity.
  - intros [<-|[]]. reflexivity.
Qed.

Lemma filter_all {A} (f : A -> bool) l :
  (forall x, In x l -> f x = true) -> filter f l = l.
Proof.
  induction l as [|x l IH]; intros H; [reflexivity|]. cbn [filter].
  rewrite (H x) by now left. f_equal. apply IH. intros y Hy. apply H. now right.
Qed.

Lemma filter_none {A} (f : A -> bool) l :
  (forall x, In x l -> f x = false) -> filter f l = [].
Proof.
  induction l as [|x l IH]; intros H; [reflexivity|]. cbn [filter].
  rewrite (H x) by now left. apply IH. intros y Hy. apply H. now right.
Qed.

(** The sections of the output that lie on the page of [p] are those
    that [p] contributed. *)
Lemma on_page_flat_map pages : forall p,
  NoDup (map p_page_number pages) -> In p pages ->
  on_page (p_page_number p) (flat_map sections_of_page pages) = sections_of_page p.
Proof.
  unfold on_page.
  induction pages as [|a pages IH]; intros p Hnd Hin; [contradiction|].
  cbn [map] in Hnd. inversion Hnd as [|? ? Ha Hnd']; subst.
  cbn [flat_map]. rewrite filter_app.
  destruct (in_dec Z.eq_dec (p_page_number p) (map p_page_number pages)) as [Hp|Hp].
  - assert (Hne : p_page_number a <> p_page_number p) by congruence.
    rewrite (@filter_none _ _ (sections_of_page a)).
    + destruct Hin as [->|Hin]; [congruence|]. cbn [app]. apply IH; assumption.
    + intros s Hs. apply sections_of_page_number in Hs. rewrite Hs.
      apply Z.eqb_neq. exact Hne.
  - destruct Hin as [->|Hin]; [|exfalso; apply Hp; apply in_map; exact Hin].
    rewrite filter_all.
    + rewrite filter_none; [apply app_nil_r|].
      intros s Hs. apply in_flat_map in Hs. destruct Hs as (p' & Hp' & Hs).
      apply sections_of_page_number in Hs. rewrite Hs. apply Z.eqb_neq.
      intros E. apply Hp. rewrite <- E. apply in_map. exact Hp'.
    + intros s Hs. apply sections_of_page_number in Hs. rewrite Hs. apply Z.eqb_refl.
Qed.

(** *** Generated titles *)

Lemma two_words_nonempty s : (2 <=? length (split_ws s))%nat = true -> s <> [].
Proof.
  intros H. apply Nat.leb_le in H. apply split_ws_words. lia.
Qed.

Lemma title_from_lines_nonempty lines t :
  title_from_lines lines = Some t -> t <> [].
Proof.
  induction lines as [|line lines IH]; [discriminate|].
  cbn [title_from_lines]. cbv zeta.
  destruct (truthy (strip line) && _ && _); [|exact IH].
  match goal with
  | |- context [if ?c then Some ?x else None] => destruct c eqn:E
  end; [|exact IH].
  intros H. inversion H; subst t.
  rewrite !andb_true_iff in E. destruct E as [[E _] _].
  apply two_words_nonempty. exact E.
Qed.

Lemma title_from_patterns_nonempty patterns text t :
  forallb plain_nonempty patterns = true ->
  title_from_patterns patterns text = Some t -> t <> [].
Proof.
  induction patterns as [|r patterns IH]; [discriminate|].
  cbn [forallb title_from_patterns]. rewrite andb_true_iff. intros [Hr Hrest].
  destruct (Re.findall r text) as [|m ms] eqn:E; [apply IH; exact Hrest|].
  intros H. inversion H; subst t.
  unfold plain_nonempty in Hr. rewrite andb_true_iff, negb_true_iff in Hr.
  destruct Hr as [Hg Hmin]. apply Nat.leb_le in Hmin.
  assert (Hm : Re.min_len r <= length m).
  { apply ReFacts.findall_min with (s := text); [exact Hg|]. rewrite E. now left. }
  apply slice_to_nonempty; [lia|]. destruct m; simpl in Hm; [lia|discriminate].
Qed.

Lemma title_from_caps_nonempty matches t :
  title_from_caps matches = Some t -> t <> [].
Proof.
  induction matches as [|m matches IH]; [discriminate|].
  cbn [title_from_caps].
  destruct ((2 <=? length (split_ws m))%nat) eqn:E; cbn [andb]; [|exact IH].
  destruct ((len m <=? 50)%Z && _); [|exact IH].
  intros H. inversion H; subst t. apply two_words_nonempty. exact E.
Qed.

(** [generate_section_title] never returns the empty string. *)
Lemma generate_section_title_nonempty text : generate_section_title text <> [].
Proof.
  unfold generate_section_title.
  destruct (title_from_lines _) as [t|] eqn:E1;
    [eapply title_from_lines_nonempty; exact E1|].
  destruct (title_from_patterns _ _) as [t|] eqn:E2;
    [eapply title_from_patterns_nonempty; [|exact E2]; reflexivity|].
  destruct (title_from_caps _) as [t|] eqn:E3;
    [eapply title_from_caps_nonempty; exact E3|].
  cbv zeta.
  destruct (slice_to 6 (filter (fun w => (2 <? len w)%Z) (split_ws text)))
    as [|w ws] eqn:E4; cbn [truthy]; [discriminate|].
  assert (Hw : w <> []).
  { assert (Hin : In w (slice_to 6 (filter (fun w => (2 <? len w)%Z) (split_ws text))))
      by (rewrite E4; now left).
    apply In_slice_to in Hin. apply filter_In in Hin. destruct Hin as [_ Hlen].
    intros ->. discriminate. }
  pose proof (@join_nonempty (lit " ") w ws Hw) as Hj.
  pose proof (@slice_to_nonempty _ 50 _ eq_refl Hj) as Hs.
  intros H. apply app_eq_nil in H. tauto.
Qed.

(** *** The two branches of [get_page_sections_for_ranking] *)


(** C6, amended.  For every page text and every line of it classified as
    a header, a section is detected whose title is the stripped line and
    whose body is the window of at most ten page lines that starts with
    the header line itself, the header line as it stands on the page and
    the (at most) nine lines after it, joined by newlines; in
    [get_page_sections_for_ranking] this body is the text of the
    candidate section. *)
Theorem header_section_body (page_text : str) (i : nat) (line : str) :
  nth_error (split [nl] page_text) i = Some line ->
  is_section_header (strip line) = true ->
  let lines := split [nl] page_text in
  let body := join [nl] (line :: firstn 9 (skipn (S i) lines)) in
  In (mkDetected (strip line) body (Z.of_nat i + 1)) (detect_sections page_text)
  /\ line :: firstn 9 (skipn (S i) lines) = slice i (i + 10) lines
  /\ forall p, p_sections p = detect_sections page_text ->
       In (mkSection None (p_page_number p) body (Some (strip line))
                     (lit "detected_section") None None)
          (sections_of_page p).
Proof.
  intros Hi Hh lines body.
  assert (Hwin : line :: firstn 9 (skipn (S i) lines) = firstn 10 (skipn i lines)).
  { unfold lines. rewrite (skipn_nth_error _ _ Hi). reflexivity. }
  assert (Hin : In (mkDetected (strip line) body (Z.of_nat i + 1))
                   (detect_sections page_text)).
  { unfold body. rewrite Hwin.
    exact (@detect_loop_header lines lines 0 i line Hi Hh). }
  split; [exact Hin|]. split; [rewrite slice_window; exact Hwin|].
  intros p Hp. unfold sections_of_page. rewrite Hp.
  destruct (detect_sections page_text) as [|d ds] eqn:E; [contradiction|].
  cbn [truthy].
  change (mkSection None (p_page_number p) body (Some (strip line))
                    (lit "detected_section") None None)
    with ((fun s => mkSection None (p_page_number p) (content s) (Some (title s))
                              (lit "detected_section") None None)
            (mkDetected (strip line) body (Z.of_nat i + 1))).
  apply in_map. exact Hin.
Qed.

End Detect.


(** C6 as first stated fails.  On a page of twelve lines whose first line
    is a header the body holds ten lines, the header and the nine lines
    after it; the header followed by the ten lines after it would hold
    eleven.  And the window is not of a fixed size: for a header on the last
    line of a page the body is that line alone. *)
Lemma header_body_is_not_header_plus_ten :
  let lines := Py.split [nl] Sample.twelve_lines in
  Extractor.is_section_header (Py.strip (nth 0 lines [])) = true
  /\ map Extractor.content (Extractor.detect_sections Sample.twelve_lines)
     = [Py.join [nl] (firstn 10 lines)]
  /\ map Extractor.content (Extractor.detect_sections Sample.twelve_lines)
     <> [Stmt.header_plus_next_ten lines 0]
  /\ map Extractor.content (Extractor.detect_sections Sample.header_last)
     = [lit "Chicken Salad Bowl"].
Proof.
  vm_compute. split; [reflexivity|]. split; [reflexivity|].
  split; [intros H; discriminate H|reflexivity].
Qed.

Lemma header_section_body_witness :
  let lines := Py.split [nl] Sample.twelve_lines in
  nth_error lines 0 = Some (lit "Chicken Salad Bowl")
  /\ Extractor.is_section_header (Py.strip (lit "Chicken Salad Bowl")) = true
  /\ In (Extractor.mkDetected (lit "Chicken Salad Bowl")
           (Py.join [nl] (lit "Chicken Salad Bowl" :: firstn 9 (skipn 1 lines))) 1)
        (Extractor.detect_sections Sample.twelve_lines).
Proof.
  split; [reflexivity|]. split; [reflexivity|].
  exact (proj1 (header_section_body Sample.twelve_lines 0
                  (line := lit "Chicken Salad Bowl") eq_refl eq_refl)).
Defined.

(** The blank second page of the sample document is not among the pages
    read, and contributes nothing; with a cap of one page neither does the
    third. *)
Example blank_page_gives_no_section :
  Stmt.on_page 2 (Extractor.get_page_sections_for_ranking Sample.menu_pdf 5) = []
  /\ Stmt.on_page 3 (Extractor.get_page_sections_for_ranking Sample.menu_pdf 1) = [].
Proof. vm_compute. split; reflexivity. Qed.

(** * Further properties of the code *)

(** ** Characters and case *)

Module CaseFacts.
Import Py.

Lemma lower_char_idem c : lower_char (lower_char c) = lower_char c.
Proof. destruct c as [[] [] [] [] [] [] [] []]; reflexivity. Qed.

Lemma isspace_lower_char c : isspace (lower_char c) = isspace c.
Proof. destruct c as [[] [] [] [] [] [] [] []]; reflexivity. Qed.

Lemma isupper_lower_char c : isupper (lower_char c) = false.
Proof. destruct c as [[] [] [] [] [] [] [] []]; reflexivity. Qed.

Lemma lower_idem s : lower (lower s) = lower s.
Proof.
  unfold lower. rewrite map_map. apply map_ext. apply lower_char_idem.
Qed.

Lemma split_ws_aux_lower s : forall cur,
  split_ws_aux (lower cur) (lower s) = map lower (split_ws_aux cur s).
Proof.
  induction s as [|c s IH]; intros cur; cbn [lower map split_ws_aux].
  - destruct cur; [reflexivity|]. cbn [map]. unfold lower. rewrite map_rev. reflexivity.
  - rewrite isspace_lower_char. destruct (isspace c).
    + destruct cur as [|x cur]; cbn [map].
      * apply (IH []).
      * rewrite <- (IH []). f_equal. unfold lower. rewrite map_rev. reflexivity.
    + apply (IH (c :: cur)).
Qed.

(** Lowercasing does not change the number of words. *)
Lemma split_ws_lower_length s : length (split_ws (lower s)) = length (split_ws s).
Proof.
  unfold split_ws. change (@nil ascii) with (lower []) at 1.
  rewrite (split_ws_aux_lower s []). apply length_map.
Qed.

Lemma startswith_prefix p : forall s, startswith p s = true -> exists r, s = p ++ r.
Proof.
  induction p as [|x p IH]; intros s H; [exists s; reflexivity|].
  destruct s as [|y s]; [discriminate|]. cbn [startswith] in H.
  apply andb_true_iff in H. destruct H as [Hxy Hs].
  apply Ascii.eqb_eq in Hxy. subst y.
  destruct (IH _ Hs) as (r & ->). exists r. reflexivity.
Qed.

Lemma prefix_startswith p r : startswith p (p ++ r) = true.
Proof.
  induction p as [|x p IH]; [reflexivity|]. cbn [app startswith].
  unfold eqc. rewrite Ascii.eqb_refl. exact IH.
Qed.

(** [p in s] holds exactly when [s] is [a ++ p ++ b]. *)
Lemma contains_spec p s : contains p s = true <-> exists a b, s = a ++ p ++ b.
Proof.
  split.
  - induction s as [|c s IH]; cbn [contains].
    + destruct p; [|discriminate]. intros _. exists [], []. reflexivity.
    + intros H. apply orb_true_iff in H. destruct H as [H|H].
      * apply startswith_prefix in H. destruct H as (r & ->). exists [], r. reflexivity.
      * destruct (IH H) as (a & b & ->). exists (c :: a), b. reflexivity.
  - intros (a & b & ->). induction a as [|c a IH]; cbn [app].
    + destruct (p ++ b) as [|c s] eqn:E.
      * destruct p; [reflexivity|discriminate].
      * cbn [contains]. rewrite <- E, prefix_startswith. reflexivity.
    + cbn [contains]. rewrite IH. apply orb_true_r.
Qed.

Lemma contains_chars p s c : contains p s = true -> In c p -> In c s.
Proof.
  intros H Hc. apply contains_spec in H. destruct H as (a & b & ->).
  apply in_or_app. right. apply in_or_app. now left.
Qed.

End CaseFacts.

(** ** More on the relevance score *)

Section ScoreMore.
Import Py Ranker Vocab CaseFacts.
Variable persona_role : str.
Variable job_task : str.

(** X1. The score reads its text and its document label only through
    their lowercased forms and the number of words: two texts that are
    equal up to letter case, against two labels equal up to letter case,
    get the same score. *)
Theorem score_ignores_case (text1 text2 doc1 doc2 : str) :
  lower text1 = lower text2 ->
  lower doc1 = lower doc2 ->
  calculate_enhanced_relevance_score persona_role job_task text1 doc1
  = calculate_enhanced_relevance_score persona_role job_task text2 doc2.
Proof.
  intros Ht Hd. unfold calculate_enhanced_relevance_score, weighted_sum, text_length.
  rewrite Ht, Hd.
  rewrite <- (split_ws_lower_length text1), <- (split_ws_lower_length text2), Ht.
  reflexivity.
Qed.

(** X2. Dividing by the length factor never raises a score: the score is at
    most the weighted sum clamped at 0. *)
Theorem normalisation_never_raises (text document_name : str) :
  (calculate_enhanced_relevance_score persona_role job_task text document_name
   <= Qmax (weighted_sum persona_role job_task text document_name) 0)%Q.
Proof.
  unfold calculate_enhanced_relevance_score.
  set (w := weighted_sum persona_role job_task text document_name).
  assert (Hl : (1 <= text_length text)%Q) by (unfold text_length; apply Q.le_max_r).
  assert (Hpos : (0 < text_length text)%Q)
    by (eapply Qlt_le_trans; [|exact Hl]; reflexivity).
  apply Q.max_lub; [|apply Q.le_max_r].
  destruct (Qlt_le_dec 0 w) as [Hw|Hw].
  - eapply Qle_trans; [|apply Q.le_max_l].
    apply Qle_shift_div_r; [exact Hpos|].
    rewrite <- (Qmult_1_r w) at 1.
    rewrite (Qmult_comm w 1), (Qmult_comm w (text_length text)).
    apply Qmult_le_compat_r; [exact Hl|apply Qlt_le_weak; exact Hw].
  - eapply Qle_trans; [|apply Q.le_max_r].
    apply Qle_shift_div_r; [exact Hpos|]. rewrite Qmult_0_l. exact Hw.
Qed.

End ScoreMore.

Lemma score_ignores_case_witness :
  Py.lower (lit "TOFU Curry") = Py.lower (lit "tofu curry")
  /\ Py.lower (lit "Dinner.PDF") = Py.lower (lit "dinner.pdf")
  /\ Ranker.calculate_enhanced_relevance_score Sample.role Sample.job
       (lit "TOFU Curry") (lit "Dinner.PDF")
     = Ranker.calculate_enhanced_relevance_score Sample.role Sample.job
         (lit "tofu curry") (lit "dinner.pdf").
Proof.
  split; [reflexivity|]. split; [reflexivity|].
  exact (score_ignores_case Sample.role Sample.job
           (lit "TOFU Curry") (lit "tofu curry") (lit "Dinner.PDF") (lit "dinner.pdf")
           eq_refl eq_refl).
Defined.

(** ** More on the keyword tables *)

Section KeywordsMore.
Import Py Ranker Vocab CaseFacts.

Lemma table_get_unknown role tbl d :
  forallb (fun kv => negb (eqs role (fst kv))) tbl = true ->
  table_get role tbl d = d.
Proof.
  induction tbl as [|[k v] tbl IH]; cbn [forallb table_get fst]; [reflexivity|].
  rewrite andb_true_iff, negb_true_iff. intros [-> H]. apply IH. exact H.
Qed.

(** X3. The persona table is looked up with the exact role string: for a
    role that is none of its six keys (a known role in another letter case
    included) the three tiers are empty, the persona score of every text is
    0, and the weighted sum is left with the job, bonus and penalty parts. *)
Theorem unknown_role_scores_no_persona_keyword
        (persona_role job_task text document_name : str) :
  unknown_role persona_role = true ->
  get_enhanced_persona_keywords persona_role = mkTiers [] [] []
  /\ persona_score persona_role (lower text) = 0%Z
  /\ (weighted_sum persona_role job_task text document_name
      == inject_Z (job_score job_task (lower text)) * (5 # 10)
         + inject_Z (context_bonus persona_role job_task (lower text) (lower document_name))
           * (2 # 10)
         + inject_Z (penalty job_task (lower text) (lower document_name)))%Q.
Proof.
  intros H.
  assert (E : get_enhanced_persona_keywords persona_role = mkTiers [] [] [])
    by (apply table_get_unknown; exact H).
  assert (P : persona_score persona_role (lower text) = 0%Z)
    by (unfold persona_score; rewrite E; reflexivity).
  split; [exact E|]. split; [exact P|].
  unfold weighted_sum. rewrite P. ring.
Qed.

Lemma upper_never_in_lower kw text :
  has_upper kw = true -> contains kw (lower text) = false.
Proof.
  intros Hup. unfold has_upper in Hup. apply existsb_exists in Hup.
  destruct Hup as (c & Hc & Hupper).
  destruct (contains kw (lower text)) eqn:E; [|reflexivity].
  pose proof (contains_chars _ _ c E Hc) as Hin.
  unfold lower in Hin. apply in_map_iff in Hin. destruct Hin as (c0 & <- & _).
  rewrite isupper_lower_char in Hupper. discriminate.
Qed.

Lemma count_in_without_upper kws text :
  count_in kws (lower text)
  = count_in (filter (fun kw => negb (has_upper kw)) kws) (lower text).
Proof.
  unfold count_in. f_equal. f_equal.
  induction kws as [|kw kws IH]; [reflexivity|]. cbn [filter].
  destruct (has_upper kw) eqn:E; cbn [negb].
  - rewrite (upper_never_in_lower _ text E). exact IH.
  - cbn [filter]. destruct (contains kw (lower text)); [f_equal|]; exact IH.
Qed.

(** X4. Job keywords are matched against the lowercased text, but quoted
    terms are taken from the job description as written: a high-priority
    keyword that holds an upper-case letter occurs in no lowercased text, so
    the job score of every text is the one computed without such keywords. *)
Theorem capitalised_job_keyword_never_matches (job_task text : str) :
  let jk := get_enhanced_job_keywords job_task in
  job_score job_task (lower text)
  = (25 * count_in (filter (fun kw => negb (has_upper kw)) (high jk)) (lower text)
     + 4 * count_in (medium jk) (lower text))%Z.
Proof.
  intros jk. unfold job_score. rewrite !KeywordFacts.sum_if_count. fold jk.
  rewrite <- count_in_without_upper. lia.
Qed.

End KeywordsMore.

Lemma unknown_role_scores_no_persona_keyword_witness :
  Vocab.unknown_role (lit "food contractor") = true
  /\ Ranker.persona_score (lit "food contractor")
       (Py.lower (lit "Dinner menu for the buffet")) = 0%Z.
Proof.
  split; [reflexivity|].
  exact (proj1 (proj2 (unknown_role_scores_no_persona_keyword
                         (lit "food contractor") Sample.job
                         (lit "Dinner menu for the buffet") [] eq_refl))).
Defined.

(** The same text under the role as the table spells it. *)
Example known_role_scores_persona_keywords :
  Ranker.persona_score (lit "Food Contractor")
    (Py.lower (lit "Dinner menu for the buffet")) = 27%Z.
Proof. reflexivity. Qed.

(** A quoted term with capitals is a keyword and is never found, not even
    in a text that spells it the same way. *)
Example capitalised_quoted_term_is_lost :
  let job := lit "Find 'Tofu Curry' tonight" in
  high (Ranker.get_enhanced_job_keywords job) = [lit "Tofu Curry"]
  /\ Ranker.job_score job (Py.lower (lit "Tofu Curry with rice")) = 4%Z
  /\ Ranker.job_score (Py.lower job) (Py.lower (lit "Tofu Curry with rice")) = 29%Z.
Proof. vm_compute. repeat split. Qed.

(** ** More on [rank_sections] *)

Section RankMore.
Import Py Ranker Stmt Vocab.
Variable persona_role : str.
Variable job_task : str.
Variable vectorize : list str -> option (list Q).

Local Abbreviation combined := (combined_score persona_role job_task).
Local Abbreviation scoring := (score_loop persona_role job_task).
Local Abbreviation ranking := (rank_sections persona_role job_task vectorize).

Lemma rank_sections_run st refs :
  refs <> [] ->
  let sims := similarities vectorize persona_role job_task st refs in
  let st1 := scoring sims 0 refs st in
  let out := sorted_desc (score_of st1) refs in
  ranking st refs = (rank_loop 1 out st1, out).
Proof.
  intros Hne. destruct refs as [|a refs]; [congruence|]. reflexivity.
Qed.

(** Whatever the position of a dictionary in the list, its score is the
    combined score for some entry of the array (or for 0 past its end). *)
Lemma score_loop_some_entry sims refs : forall i st r,
  In r refs ->
  exists j, relevance_score (scoring sims i refs st r)
            = Some (combined (nth j sims 0%Q) (st r)).
Proof.
  induction refs as [|a refs IH]; intros i st r Hin; cbn [score_loop]; [contradiction|].
  destruct (in_dec Nat.eq_dec r refs) as [Hr|Hr].
  - destruct (IH (S i) (update st a (set_relevance_score
                                       (combined (nth i sims 0%Q) (st a)))) r Hr)
      as (j & Hj).
    exists j. cbv zeta. rewrite Hj. f_equal. symmetry. apply combined_score_fixed.
    apply same_fixed_update. intros d. apply same_fixed_set_score.
  - destruct Hin as [->|Hin]; [|contradiction].
    exists i. cbv zeta. rewrite score_loop_outside by exact Hr.
    rewrite update_same. reflexivity.
Qed.

Lemma nonneg_nth sims j : nonneg sims = true -> (0 <= nth j sims 0)%Q.
Proof.
  unfold nonneg. rewrite forallb_forall. intros H.
  destruct (nth_in_or_default j sims 0%Q) as [Hin| ->]; [|apply Qle_refl].
  apply Qle_bool_iff. apply H. exact Hin.
Qed.

Lemma combined_score_nonneg q d : (0 <= q)%Q -> (0 <= combined q d)%Q.
Proof.
  intros Hq. unfold combined_score.
  set (kw := calculate_enhanced_relevance_score persona_role job_task
               (text d) (get_or_empty (document d))).
  assert (Hkw : (0 <= kw)%Q) by apply Q.le_max_r.
  assert (H : (0 <= q * (4 # 10) + kw * (6 # 10))%Q).
  { apply (Qplus_le_compat 0 _ 0); apply Qmult_le_0_compat;
      try assumption; discriminate. }
  destruct (title_bonus d); [|exact H].
  apply (Qplus_le_compat 0 _ 0); [exact H|discriminate].
Qed.

(** X5. When the similarities that the vectoriser returns are not negative
    (or it raises), every section of the list gets a relevance score that
    is not negative, whether or not the list repeats a dictionary. *)
Theorem relevance_score_nonneg (st : store) (refs : list ref) (r : ref) :
  nonneg (similarities vectorize persona_role job_task st refs) = true ->
  In r refs ->
  exists q, relevance_score (fst (ranking st refs) r) = Some q /\ (0 <= q)%Q.
Proof.
  intros Hsims Hin.
  assert (Hne : refs <> []) by (intros ->; contradiction).
  rewrite (rank_sections_run st Hne). cbn [fst].
  rewrite rank_loop_score.
  destruct (score_loop_some_entry
              (similarities vectorize persona_role job_task st refs) refs 0 st r Hin)
    as (j & Hj).
  rewrite Hj. eexists. split; [reflexivity|].
  apply combined_score_nonneg. apply nonneg_nth. exact Hsims.
Qed.

(** *** Ranking a ranked list again *)

Lemma score_loop_ext sims refs : forall i st st',
  (forall r, st r = st' r) ->
  forall r, scoring sims i refs st r = scoring sims i refs st' r.
Proof.
  induction refs as [|a refs IH]; intros i st st' H r; cbn [score_loop]; [apply H|].
  cbv zeta. apply IH. intros r'. unfold update. rewrite !H. reflexivity.
Qed.

Lemma rank_loop_ext refs : forall k st st',
  (forall r, st r = st' r) ->
  forall r, rank_loop k refs st r = rank_loop k refs st' r.
Proof.
  induction refs as [|a refs IH]; intros k st st' H r; cbn [rank_loop]; [apply H|].
  apply IH. intros r'. unfold update. rewrite !H. reflexivity.
Qed.

Lemma insert_desc_ext {A} (key key' : A -> Q) x l :
  (forall y, key y = key' y) -> insert_desc key x l = insert_desc key' x l.
Proof.
  intros H. induction l as [|y l IH]; [reflexivity|]. cbn [insert_desc].
  rewrite IH, !H. reflexivity.
Qed.

Lemma sorted_desc_ext {A} (key key' : A -> Q) l :
  (forall y, key y = key' y) -> sorted_desc key l = sorted_desc key' l.
Proof.
  intros H. induction l as [|x l IH]; [reflexivity|]. cbn [sorted_desc].
  rewrite IH. apply insert_desc_ext. exact H.
Qed.

(** Sorting a list that is already in descending order leaves it alone. *)
Lemma sorted_desc_id {A} (key : A -> Q) l :
  StronglySorted (ge_key key) l -> sorted_desc key l = l.
Proof.
  induction 1 as [|x l Hl IH Hx]; [reflexivity|]. cbn [sorted_desc]. rewrite IH.
  destruct l as [|y l]; [reflexivity|]. cbn [insert_desc].
  inversion Hx as [|? ? Hy _]; subst.
  apply (Qlt_b_false (key x) (key y)) in Hy. rewrite Hy. reflexivity.
Qed.

Lemma set_relevance_score_same q d :
  relevance_score d = Some q -> set_relevance_score q d = d.
Proof. destruct d. cbn. intros ->. reflexivity. Qed.

Lemma set_importance_rank_same k d :
  importance_rank d = Some k -> set_importance_rank k d = d.
Proof. destruct d. cbn. intros ->. reflexivity. Qed.

Lemma update_noop st r f : f (st r) = st r -> forall r', update st r f r' = st r'.
Proof.
  intros H r'. unfold update. destruct (Nat.eqb_spec r' r) as [->|_]; [exact H|reflexivity].
Qed.

(** Scoring again with similarities 0 writes the scores that are there. *)
Lemma score_loop_again sims refs :
  (forall j, nth j sims 0%Q = 0%Q) ->
  forall i st,
    (forall r, In r refs -> relevance_score (st r) = Some (combined 0%Q (st r))) ->
    forall r, scoring sims i refs st r = st r.
Proof.
  intros Hz. induction refs as [|a refs IH]; intros i st H r; cbn [score_loop];
    [reflexivity|]. cbv zeta.
  assert (Hnoop : forall r', update st a (set_relevance_score
                               (combined (nth i sims 0%Q) (st a))) r' = st r').
  { apply update_noop. apply set_relevance_score_same.
    rewrite Hz. apply H. now left. }
  rewrite (score_loop_ext sims refs (S i) _ st Hnoop).
  apply IH. intros r' Hr'. apply H. now right.
Qed.

Lemma rank_loop_rank_at refs : forall k st j r,
  NoDup refs -> nth_error refs j = Some r ->
  importance_rank (rank_loop k refs st r) = Some (k + Z.of_nat j)%Z.
Proof.
  induction refs as [|a refs IH]; intros k st j r Hnd Hj; [destruct j; discriminate|].
  inversion Hnd as [|? ? Ha Hnd']; subst. cbn [rank_loop].
  destruct j as [|j]; cbn [nth_error] in Hj.
  - inversion Hj; subst a. rewrite rank_loop_outside by exact Ha.
    rewrite update_same. cbn. f_equal. lia.
  - rewrite (IH (k + 1)%Z _ j r Hnd' Hj). f_equal. lia.
Qed.

(** Ranking again writes the ranks that are there. *)
Lemma rank_loop_again refs : forall k st,
  (forall j r, nth_error refs j = Some r ->
               importance_rank (st r) = Some (k + Z.of_nat j)%Z) ->
  forall r, rank_loop k refs st r = st r.
Proof.
  induction refs as [|a refs IH]; intros k st H r; cbn [rank_loop]; [reflexivity|].
  assert (Hnoop : forall r', update st a (set_importance_rank k) r' = st r').
  { apply update_noop. apply set_importance_rank_same.
    rewrite (H 0 a eq_refl). f_equal. lia. }
  rewrite (rank_loop_ext refs (k + 1) _ st Hnoop).
  apply IH. intros j r' Hj. rewrite (H (S j) r' Hj). f_equal. lia.
Qed.

(** X6. With a vectoriser that raises on every corpus, ranking is
    idempotent: given distinct dictionaries, ranking the returned list
    again returns the same list and leaves every dictionary as the first
    ranking left it. *)
Theorem rank_sections_twice (st : store) (refs : list ref) :
  (forall texts, vectorize texts = None) ->
  NoDup refs ->
  let st' := fst (ranking st refs) in
  let out := snd (ranking st refs) in
  snd (ranking st' out) = out
  /\ forall r, fst (ranking st' out) r = st' r.
Proof.
  intros Hraise Hnd. destruct refs as [|a refs'] eqn:Erefs.
  - cbn. split; reflexivity.
  - rewrite <- Erefs in *.
    assert (Hne : refs <> []) by (rewrite Erefs; discriminate).
    clear Erefs a refs'.
    rewrite (rank_sections_run st Hne). cbn [fst snd].
    set (sims := similarities vectorize persona_role job_task st refs).
    set (st1 := scoring sims 0 refs st).
    set (out := sorted_desc (score_of st1) refs).
    set (st2 := rank_loop 1 out st1).
    assert (Hperm : Permutation out refs) by apply sorted_desc_perm.
    assert (Hnd' : NoDup out)
      by (eapply Permutation_NoDup; [symmetry; exact Hperm|exact Hnd]).
    assert (Hne' : out <> []).
    { intros E. rewrite E in Hperm. apply Permutation_nil in Hperm. congruence. }
    assert (Hz : forall st0 l j,
               nth j (similarities vectorize persona_role job_task st0 l) 0%Q = 0%Q).
    { intros st0 l j. unfold similarities. rewrite Hraise. apply nth_repeat. }
    rewrite (rank_sections_run st2 Hne'). cbn [fst snd].
    set (sims' := similarities vectorize persona_role job_task st2 out).
    assert (Hscore : forall r, In r out ->
               relevance_score (st2 r) = Some (combined 0%Q (st2 r))).
    { intros r Hin. unfold st2. rewrite rank_loop_score. unfold st1.
      rewrite (score_loop_zero persona_role job_task sims refs (Hz st refs) 0 st r)
        by (eapply Permutation_in; [exact Hperm|exact Hin]).
      f_equal. apply combined_score_fixed.
      eapply same_fixed_trans; [apply score_loop_fixed|apply rank_loop_fixed]. }
    assert (Hst1' : forall r, scoring sims' 0 out st2 r = st2 r)
      by (apply score_loop_again; [apply Hz|exact Hscore]).
    assert (Hkey : forall r, score_of (scoring sims' 0 out st2) r = score_of st1 r).
    { intros r. unfold score_of. rewrite Hst1'. unfold st2.
      rewrite rank_loop_score. reflexivity. }
    assert (Hout : sorted_desc (score_of (scoring sims' 0 out st2)) out = out).
    { rewrite (sorted_desc_ext _ (score_of st1) out Hkey).
      apply sorted_desc_id. apply sorted_desc_sorted. }
    rewrite Hout. split; [reflexivity|].
    intros r.
    rewrite (rank_loop_ext out 1 _ st2 Hst1').
    apply rank_loop_again. intros j r' Hj. unfold st2.
    apply rank_loop_rank_at; assumption.
Qed.

End RankMore.

Lemma relevance_score_nonneg_witness :
  Vocab.nonneg (Vocab.similarities Sample.similar Sample.role Sample.job
                  Sample.sections [0; 1; 2]) = true
  /\ In 1 [0; 1; 2]
  /\ exists q, relevance_score
                 (fst (Ranker.rank_sections Sample.role Sample.job Sample.similar
                         Sample.sections [0; 1; 2]) 1) = Some q
               /\ (0 <= q)%Q.
Proof.
  assert (Hin : In 1 [0; 1; 2]) by (right; left; reflexivity).
  split; [reflexivity|]. split; [exact Hin|].
  exact (relevance_score_nonneg Sample.role Sample.job Sample.similar
           Sample.sections [0; 1; 2] 1 eq_refl Hin).
Defined.

Lemma rank_sections_twice_witness :
  (forall texts, Sample.raising texts = None)
  /\ NoDup [0; 1; 2]
  /\ snd (Ranker.rank_sections Sample.role Sample.job Sample.raising
            (fst (Ranker.rank_sections Sample.role Sample.job Sample.raising
                    Sample.sections [0; 1; 2]))
            (snd (Ranker.rank_sections Sample.role Sample.job Sample.raising
                    Sample.sections [0; 1; 2])))
     = snd (Ranker.rank_sections Sample.role Sample.job Sample.raising
              Sample.sections [0; 1; 2]).
Proof.
  assert (H : NoDup [0; 1; 2]).
  { repeat (constructor; [cbn; intuition discriminate|]). constructor. }
  split; [intros texts; reflexivity|]. split; [exact H|].
  exact (proj1 (rank_sections_twice Sample.role Sample.job Sample.raising
                  Sample.sections (fun texts => eq_refl) H)).
Defined.

(** ** Whitespace *)

Module SpaceFacts.
Import Py Vocab.

Lemma lstrip_hd s c r : lstrip s = c :: r -> isspace c = false.
Proof.
  induction s as [|x s IH]; cbn [lstrip]; [discriminate|].
  destruct (isspace x) eqn:E; [exact IH|]. intros H. inversion H; subst. exact E.
Qed.

Lemma lstrip_nil s : lstrip s = [] <-> blank s = true.
Proof.
  unfold blank. induction s as [|x s IH]; cbn [lstrip forallb]; [tauto|].
  destruct (isspace x); cbn [andb]; [exact IH|]. split; discriminate.
Qed.

Lemma blank_rev s : blank (rev s) = blank s.
Proof.
  unfold blank. induction s as [|x s IH]; [reflexivity|]. cbn [rev forallb].
  rewrite forallb_app, IH. cbn [forallb]. rewrite andb_true_r. apply andb_comm.
Qed.

(** [s.strip()] is empty exactly for a string of whitespace. *)
Lemma strip_nil s : strip s = [] <-> blank s = true.
Proof.
  unfold strip. split.
  - intros H. apply (f_equal (@rev ascii)) in H. rewrite rev_involutive in H.
    cbn [rev] in H. apply lstrip_nil in H. rewrite blank_rev in H.
    destruct (lstrip s) as [|c r] eqn:E; [apply lstrip_nil; exact E|].
    apply lstrip_hd in E. cbn in H. rewrite E in H. discriminate.
  - intros H. apply lstrip_nil in H. rewrite H. reflexivity.
Qed.

(** A stripped string does not end in whitespace. *)
Lemma strip_last s c : last_char (strip s) = Some c -> isspace c = false.
Proof.
  unfold last_char, strip. rewrite rev_involutive.
  destruct (lstrip (rev (lstrip s))) as [|x r] eqn:E; [discriminate|].
  cbn. intros H. inversion H; subst. eapply lstrip_hd. exact E.
Qed.

Lemma last_char_app s c : last_char (s ++ [c]) = Some c.
Proof. unfold last_char. rewrite rev_app_distr. reflexivity. Qed.

Lemma blank_In s : blank s = true <-> forall c, In c s -> isspace c = true.
Proof. unfold blank. apply forallb_forall. Qed.

(** *** Splitting a blank string *)

Section Split.
Variable x : ascii.
Variable sep' : str.
Local Abbreviation sep := (x :: sep').

Lemma startswith_firstn p : forall s,
  startswith p s = true -> firstn (length p) s = p.
Proof.
  intros s H. apply CaseFacts.startswith_prefix in H. destruct H as (r & ->).
  rewrite firstn_app, Nat.sub_diag, firstn_all. cbn. apply app_nil_r.
Qed.

(** The part being read comes out as the beginning of the first part. *)
Lemma split_aux_first s : forall skip cur,
  exists t rest, split_aux sep skip cur s = (rev cur ++ t) :: rest.
Proof.
  induction s as [|c s IH]; intros skip cur.
  - exists [], []. cbn. rewrite app_nil_r. reflexivity.
  - cbn [split_aux]. destruct skip as [|k]; [|apply IH].
    destruct (startswith sep (c :: s)).
    + exists [], (split_aux sep (pred (length sep)) [] s). rewrite app_nil_r. reflexivity.
    + destruct (IH 0 (c :: cur)) as (t & rest & E). rewrite E.
      exists (c :: t), rest. cbn [rev]. rewrite <- app_assoc. reflexivity.
Qed.

(** If every part is blank, so is the string that was split. *)
Lemma split_aux_blank_parts s : forall skip cur,
  blank sep = true ->
  blank (firstn skip s) = true ->
  (forall p, In p (split_aux sep skip cur s) -> blank p = true) ->
  blank s = true.
Proof.
  induction s as [|c s IH]; intros skip cur Hsep Hskip Hparts; [reflexivity|].
  cbn [split_aux] in Hparts. destruct skip as [|k].
  - destruct (startswith sep (c :: s)) eqn:E.
    + pose proof (startswith_firstn _ _ E) as Hf. cbn [length firstn] in Hf.
      inversion Hf as [[Hc Hs]]. unfold blank in Hsep |- *. cbn [forallb] in Hsep |- *.
      apply andb_true_iff in Hsep. destruct Hsep as [Hx Hsep'].
      rewrite Hx. cbn [andb].
      apply (IH (length sep') []).
      * unfold blank. cbn [forallb]. rewrite Hx. exact Hsep'.
      * unfold blank. rewrite Hs. exact Hsep'.
      * intros p Hp. apply Hparts. right. exact Hp.
    + destruct (split_aux_first s 0 (c :: cur)) as (t & rest & Efirst).
      assert (Hc : isspace c = true).
      { assert (Hb : blank (rev (c :: cur) ++ t) = true)
          by (apply Hparts; rewrite Efirst; now left).
        apply (proj1 (blank_In _) Hb). apply in_or_app. left.
        apply in_rev. rewrite rev_involutive. now left. }
      unfold blank. cbn [forallb]. rewrite Hc. cbn [andb].
      apply (IH 0 (c :: cur)); [exact Hsep|reflexivity|exact Hparts].
  - cbn [firstn] in Hskip. unfold blank in Hskip |- *. cbn [forallb] in Hskip |- *.
    apply andb_true_iff in Hskip. destruct Hskip as [Hc Hk]. rewrite Hc. cbn [andb].
    apply (IH k cur); assumption.
Qed.

End Split.

(** The parts of a blank string are blank, whatever the separator. *)
Lemma split_aux_of_blank sep s : forall skip cur,
  blank s = true -> blank cur = true ->
  forall p, In p (split_aux sep skip cur s) -> blank p = true.
Proof.
  induction s as [|c s IH]; intros skip cur Hs Hcur p Hp; cbn [split_aux] in Hp.
  - destruct Hp as [<-|[]]. rewrite blank_rev. exact Hcur.
  - unfold blank in Hs. cbn [forallb] in Hs. apply andb_true_iff in Hs.
    destruct Hs as [Hc Hs]. destruct skip as [|k].
    + destruct (startswith sep (c :: s)).
      * destruct Hp as [<-|Hp]; [rewrite blank_rev; exact Hcur|].
        exact (IH _ [] Hs eq_refl p Hp).
      * refine (IH _ (c :: cur) Hs _ p Hp). unfold blank. cbn [forallb].
        rewrite Hc. exact Hcur.
    + exact (IH _ cur Hs Hcur p Hp).
Qed.

End SpaceFacts.

(** ** More on [extract_refined_subsection] *)

Section RefineMore.
Import Py Ranker Vocab SpaceFacts.
Variable persona_role : str.
Variable job_task : str.

Lemma stripped_parts_nil sep text :
  stripped_parts sep text = [] <->
  forall p, In p (split sep text) -> blank p = true.
Proof.
  unfold stripped_parts. split.
  - intros H p Hp. apply map_eq_nil in H.
    destruct (truthy (strip p)) eqn:E.
    + assert (Hin : In p (filter (fun p => truthy (strip p)) (split sep text)))
        by (apply filter_In; split; assumption).
      rewrite H in Hin. contradiction.
    + apply strip_nil. destruct (strip p); [reflexivity|discriminate].
  - intros H. rewrite filter_none; [reflexivity|].
    intros p Hp. apply H in Hp. apply strip_nil in Hp. rewrite Hp. reflexivity.
Qed.

(** X7. The second way of splitting, at single newlines, never finds a
    paragraph: it is tried only when splitting at blank lines leaves no
    non-blank part, which happens exactly when the whole text is
    whitespace.  So the paragraphs are always the non-blank parts between
    blank lines, and a text without a blank line is one paragraph. *)
Theorem single_newline_split_finds_nothing (text : str) :
  let paragraphs := stripped_parts [nl; nl] text in
  (if truthy paragraphs then paragraphs else stripped_parts [nl] text) = paragraphs
  /\ (paragraphs = [] <-> blank text = true)
  /\ (blank text = true <-> stripped_parts [nl] text = []).
Proof.
  cbv zeta.
  assert (Hparts : forall sep, blank text = true -> stripped_parts sep text = []).
  { intros sep Hb. apply stripped_parts_nil. intros p Hp.
    exact (split_aux_of_blank sep text 0 [] Hb eq_refl p Hp). }
  assert (H2 : stripped_parts [nl; nl] text = [] -> blank text = true).
  { intros E. rewrite stripped_parts_nil in E.
    apply (split_aux_blank_parts nl [nl] text 0 []); [reflexivity|reflexivity|exact E]. }
  assert (H1 : stripped_parts [nl] text = [] -> blank text = true).
  { intros E. rewrite stripped_parts_nil in E.
    apply (split_aux_blank_parts nl [] text 0 []); [reflexivity|reflexivity|exact E]. }
  split; [|split; split; auto].
  destruct (stripped_parts [nl; nl] text) as [|p ps] eqn:E; [|reflexivity].
  cbn [truthy]. apply Hparts. apply H2. reflexivity.
Qed.

(** X8. The refined text is empty only for a text of whitespace that fits
    the budget; a text longer than the budget always gives a non-empty
    result. *)
Theorem extract_refined_subsection_empty (text : str) (max_length : Z) :
  extract_refined_subsection persona_role job_task text max_length = []
  <-> (len text <= max_length)%Z /\ blank text = true.
Proof.
  unfold extract_refined_subsection.
  destruct (Z.leb_spec (len text) max_length) as [Hfit|Hlong].
  - rewrite strip_nil. tauto.
  - cbv zeta. split; [|intros [H _]; lia].
    match goal with
    | |- (if truthy ?r then _ else _) = [] -> _ => destruct r as [|c r'] eqn:E
    end; cbn [truthy].
    + intros H. apply app_eq_nil in H. destruct H as [_ H]. discriminate.
    + discriminate.
Qed.

(** X9. The refined text never ends in a whitespace character. *)
Theorem extract_refined_subsection_no_trailing_space
        (text : str) (max_length : Z) (c : ascii) :
  last_char (extract_refined_subsection persona_role job_task text max_length) = Some c ->
  isspace c = false.
Proof.
  unfold extract_refined_subsection.
  destruct (len text <=? max_length)%Z; [apply strip_last|]. cbv zeta.
  match goal with
  | |- last_char (if truthy (strip ?r) then _ else _) = _ -> _ =>
      destruct (strip r) as [|x r'] eqn:E
  end; cbn [truthy].
  - change (lit "...") with ([ "."%char; "."%char ] ++ [ "."%char ]).
    rewrite app_assoc, last_char_app. intros H. inversion H. reflexivity.
  - rewrite <- E. apply strip_last.
Qed.

End RefineMore.


(** A long text of single-newline lines is one paragraph, cut at the
    budget, where splitting at newlines would have chosen among its lines. *)
Example lines_without_blank_line_are_one_paragraph :
  Ranker.stripped_parts [nl; nl]
    (lit "first line of the recipe" ++ [nl] ++ lit "second line of the recipe")
  = [lit "first line of the recipe" ++ [nl] ++ lit "second line of the recipe"].
Proof. reflexivity. Qed.

Lemma extract_refined_subsection_no_trailing_space_witness :
  Vocab.last_char (Ranker.extract_refined_subsection Sample.role Sample.job
                     (lit "  serve warm.  ") 1000) = Some "."%char
  /\ Py.isspace "."%char = false.
Proof.
  split; [reflexivity|].
  exact (extract_refined_subsection_no_trailing_space Sample.role Sample.job
           (lit "  serve warm.  ") 1000 (c := "."%char) eq_refl).
Defined.

(** ** More on section detection *)

Section DetectMore.
Import Py Extractor Stmt Vocab PyFacts SpaceFacts.

(** What the detection loop lists, and only that. *)
Lemma detect_loop_spec lines rest : forall i d,
  In d (detect_loop lines i rest) <->
  exists j line,
    nth_error rest j = Some line
    /\ is_section_header (strip line) = true
    /\ d = mkDetected (strip line) (join [nl] (slice (i + j) (i + j + 10) lines))
                      (Z.of_nat (i + j) + 1).
Proof.
  induction rest as [|l0 rest IH]; intros i d; cbn [detect_loop].
  - split; [contradiction|]. intros (j & line & Hj & _). destruct j; discriminate.
  - cbv zeta.
    assert (Hshift : In d (detect_loop lines (S i) rest) <->
              exists j line, nth_error rest j = Some line
                /\ is_section_header (strip line) = true
                /\ d = mkDetected (strip line)
                         (join [nl] (slice (i + S j) (i + S j + 10) lines))
                         (Z.of_nat (i + S j) + 1)).
    { rewrite IH. split; intros (j & line & Hj & Hh & Hd); exists j, line;
        (split; [exact Hj|split; [exact Hh|]]); subst d;
        replace (S i + j) with (i + S j) by lia; reflexivity. }
    destruct (is_section_header (strip l0)) eqn:E0.
    + cbn [In]. rewrite Hshift. split.
      * intros [<-|(j & line & Hj & Hh & Hd)].
        -- exists 0, l0. rewrite Nat.add_0_r. auto.
        -- exists (S j), line. auto.
      * intros (j & line & Hj & Hh & Hd). destruct j as [|j].
        -- left. cbn in Hj. inversion Hj; subst line. rewrite Nat.add_0_r in Hd. auto.
        -- right. exists j, line. auto.
    + rewrite Hshift. split.
      * intros (j & line & Hj & Hh & Hd). exists (S j), line. auto.
      * intros (j & line & Hj & Hh & Hd). destruct j as [|j].
        -- cbn in Hj. inversion Hj; subst line. congruence.
        -- exists j, line. auto.
Qed.

Lemma detect_loop_titles lines rest : forall i,
  map title (detect_loop lines i rest) = filter is_section_header (map strip rest).
Proof.
  induction rest as [|l0 rest IH]; intros i; [reflexivity|].
  cbn [detect_loop map filter]. cbv zeta.
  destruct (is_section_header (strip l0)); cbn [map title]; rewrite IH; reflexivity.
Qed.

Lemma detect_loop_numbers lines rest : forall i,
  Forall (fun d => (Z.of_nat i < line_number d)%Z) (detect_loop lines i rest)
  /\ StronglySorted Z.lt (map line_number (detect_loop lines i rest)).
Proof.
  induction rest as [|l0 rest IH]; intros i; cbn [detect_loop].
  - split; constructor.
  - cbv zeta. destruct (IH (S i)) as [Hlb Hs].
    assert (Hlb' : Forall (fun d => (Z.of_nat i < line_number d)%Z)
                          (detect_loop lines (S i) rest)).
    { eapply Forall_impl; [|exact Hlb]. cbn beta. intros d Hd. lia. }
    destruct (is_section_header (strip l0)); [|split; assumption].
    split.
    + constructor; [cbn; lia|exact Hlb'].
    + cbn [map line_number]. constructor; [exact Hs|].
      apply Forall_map. eapply Forall_impl; [|exact Hlb]. cbn beta. intros d Hd. lia.
Qed.

(** X10. [detect_sections] lists the header lines of the page and nothing
    else, in page order: the titles are the stripped lines that
    [is_section_header] accepts, one section for each, every section has
    the 1-based number of its line and the window of lines that starts
    there, and the line numbers increase strictly. *)
Theorem detect_sections_exact (page_text : str) :
  let lines := split [nl] page_text in
  map title (detect_sections page_text) = filter is_section_header (map strip lines)
  /\ (forall d, In d (detect_sections page_text) <->
        exists i line,
          nth_error lines i = Some line
          /\ is_section_header (strip line) = true
          /\ d = mkDetected (strip line) (join [nl] (slice i (i + 10) lines))
                            (Z.of_nat i + 1))
  /\ StronglySorted Z.lt (map line_number (detect_sections page_text)).
Proof.
  cbv zeta. unfold detect_sections. split; [apply detect_loop_titles|]. split.
  - intros d. apply (detect_loop_spec (split [nl] page_text) (split [nl] page_text) 0 d).
  - apply detect_loop_numbers.
Qed.

(** *** Pages *)

Lemma blank_truthy text : truthy (strip text) = negb (blank text).
Proof.
  destruct (blank text) eqn:E.
  - apply strip_nil in E. rewrite E. reflexivity.
  - destruct (strip text) eqn:Es; [|reflexivity].
    apply strip_nil in Es. congruence.
Qed.

Lemma numbered_cons first text doc :
  numbered first (text :: doc) = (Z.of_nat first + 1, text)%Z :: numbered (S first) doc.
Proof. reflexivity. Qed.

Lemma extract_loop_pages doc : forall n,
  map (fun p => (p_page_number p, p_text p)) (extract_loop n doc) = nonblank_pages n doc.
Proof.
  induction doc as [|text doc IH]; intros n; [reflexivity|].
  cbn [extract_loop]. unfold nonblank_pages. rewrite numbered_cons. cbn [filter snd].
  rewrite blank_truthy. destruct (blank text); cbn [negb map p_page_number p_text].
  - apply IH.
  - f_equal. apply IH.
Qed.

Lemma extract_loop_wellformed doc : forall n p,
  In p (extract_loop n doc) ->
  p_sections p = detect_sections (p_text p)
  /\ p_word_count p = Z.of_nat (length (split_ws (p_text p)))
  /\ blank (p_text p) = false.
Proof.
  induction doc as [|text doc IH]; intros n p Hin; cbn [extract_loop] in Hin;
    [contradiction|].
  rewrite blank_truthy in Hin. destruct (blank text) eqn:E; cbn [negb] in Hin.
  - eapply IH. exact Hin.
  - destruct Hin as [<-|Hin]; [cbn; auto|eapply IH; exact Hin].
Qed.

Lemma numbered_nth doc : forall first n text,
  In (n, text) (numbered first doc) <->
  exists k, nth_error doc k = Some text /\ n = (Z.of_nat (first + k) + 1)%Z.
Proof.
  induction doc as [|t doc IH]; intros first n text.
  - cbn. split; [contradiction|]. intros (k & Hk & _). destruct k; discriminate.
  - rewrite numbered_cons. cbn [In]. rewrite IH. split.
    + intros [H|(k & Hk & Hn)].
      * inversion H; subst. exists 0. rewrite Nat.add_0_r. auto.
      * exists (S k). split; [exact Hk|]. rewrite Hn. f_equal. f_equal. lia.
    + intros (k & Hk & Hn). destruct k as [|k].
      * left. cbn in Hk. inversion Hk; subst. rewrite Nat.add_0_r. reflexivity.
      * right. exists k. split; [exact Hk|]. rewrite Hn. f_equal. f_equal. lia.
Qed.

Lemma nonblank_pages_sorted doc : forall first,
  Forall (fun nt => (Z.of_nat first < fst nt)%Z) (nonblank_pages first doc)
  /\ StronglySorted Z.lt (map fst (nonblank_pages first doc)).
Proof.
  induction doc as [|t doc IH]; intros first.
  - split; constructor.
  - unfold nonblank_pages. rewrite numbered_cons. cbn [filter snd].
    destruct (IH (S first)) as [Hlb Hs]. fold (nonblank_pages (S first) doc).
    assert (Hlb' : Forall (fun nt => (Z.of_nat first < fst nt)%Z)
                          (nonblank_pages (S first) doc)).
    { eapply Forall_impl; [|exact Hlb]. cbn beta. intros d Hd. lia. }
    destruct (blank t); cbn [negb]; [split; assumption|].
    split.
    + constructor; [cbn; lia|exact Hlb'].
    + cbn [map fst]. constructor; [exact Hs|].
      apply Forall_map. eapply Forall_impl; [|exact Hlb]. cbn beta. intros d Hd. lia.
Qed.

(** X11. The extraction keeps exactly the pages that hold more than
    whitespace, in document order and under their 1-based position in the
    document (a blank page is dropped, the numbers of the pages after it
    do not shift); each page kept carries the sections detected in its
    text and its number of words. *)
Theorem extract_text_exact (doc : pdf) :
  Legacy.extract_text_from_pdf doc = nonblank_pages 0 doc
  /\ (forall n text, In (n, text) (Legacy.extract_text_from_pdf doc) <->
        exists k, nth_error doc k = Some text /\ n = (Z.of_nat k + 1)%Z
                  /\ blank text = false)
  /\ StronglySorted Z.lt (map fst (Legacy.extract_text_from_pdf doc))
  /\ (forall p, In p (extract_text_with_sections doc) ->
        p_sections p = detect_sections (p_text p)
        /\ p_word_count p = Z.of_nat (length (split_ws (p_text p)))).
Proof.
  assert (E : Legacy.extract_text_from_pdf doc = nonblank_pages 0 doc)
    by apply extract_loop_pages.
  split; [exact E|]. split; [|split].
  - intros n text. rewrite E. unfold nonblank_pages. rewrite filter_In, numbered_nth.
    cbn [snd]. rewrite negb_true_iff. split.
    + intros [(k & Hk & Hn) Hb]. exists k. auto.
    + intros (k & Hk & Hn & Hb). split; [exists k; auto|exact Hb].
  - rewrite E. apply nonblank_pages_sorted.
  - intros p Hp. apply extract_loop_wellformed in Hp. tauto.
Qed.

(** *** The sections handed to the ranker *)

Lemma header_length line : is_section_header line = true -> (3 <= len line)%Z.
Proof.
  unfold is_section_header.
  destruct (Z.ltb_spec (len line) 3) as [Hlt|Hge]; [|intros _; exact Hge].
  rewrite orb_true_r. discriminate.
Qed.

Lemma len_nonempty s : (1 <= len s)%Z -> s <> [].
Proof. intros H ->. cbn in H. lia. Qed.

Lemma strip_nonempty s : strip s <> [] -> s <> [].
Proof. intros H ->. apply H. reflexivity. Qed.

Lemma sections_of_page_wellformed p :
  p_sections p = detect_sections (p_text p) ->
  blank (p_text p) = false ->
  forall s, In s (sections_of_page p) -> well_formed_section s.
Proof.
  intros Hsec Hblank s Hs. unfold sections_of_page in Hs.
  destruct (truthy (p_sections p)).
  - apply in_map_iff in Hs. destruct Hs as (d & <- & Hd).
    rewrite Hsec in Hd. unfold detect_sections in Hd.
    apply detect_loop_spec in Hd. cbn [Nat.add] in Hd.
    destruct Hd as (i & line & Hi & Hh & ->).
    assert (Ht : strip line <> [])
      by (apply len_nonempty; apply header_length in Hh; lia).
    unfold well_formed_section.
    cbn [document relevance_score importance_rank text section_title source
         content title].
    repeat split; auto.
    + rewrite slice_window, (skipn_nth_error _ _ Hi). cbn [firstn].
      apply join_nonempty. apply strip_nonempty. exact Ht.
    + exists (strip line). auto.
  - destruct Hs as [<-|[]]. unfold well_formed_section. cbn. repeat split; auto.
    + intros E. rewrite E in Hblank. discriminate.
    + exists (generate_section_title (p_text p)). split; [reflexivity|].
      apply generate_section_title_nonempty.
Qed.

Lemma limited_pages_In doc max_pages p :
  In p (limited_pages doc max_pages) -> In p (extract_loop 0 doc).
Proof. apply In_slice_to. Qed.

Lemma get_page_sections_sound
        (doc : pdf) (max_pages_per_doc : Z) (s : section) :
  In s (get_page_sections_for_ranking doc max_pages_per_doc) ->
  well_formed_section s
  /\ exists k page_text,
       nth_error doc k = Some page_text
       /\ page_number s = (Z.of_nat k + 1)%Z
       /\ blank page_text = false.
Proof.
  unfold get_page_sections_for_ranking. intros Hs. apply in_flat_map in Hs.
  destruct Hs as (p & Hp & Hs). apply limited_pages_In in Hp.
  pose proof (extract_loop_wellformed _ _ _ Hp) as (Hsec & _ & Hb).
  split; [eapply sections_of_page_wellformed; eassumption|].
  assert (Hin : In (p_page_number p, p_text p) (nonblank_pages 0 doc)).
  { rewrite <- extract_loop_pages.
    apply (in_map (fun p => (p_page_number p, p_text p))). exact Hp. }
  unfold nonblank_pages in Hin. apply filter_In in Hin. destruct Hin as [Hin _].
  apply numbered_nth in Hin. destruct Hin as (k & Hk & Hn).
  exists k, (p_text p). rewrite (sections_of_page_number _ _ Hs). auto.
Qed.

(** X12. Every section that [get_page_sections_for_ranking] returns has a
    non-empty text and a non-empty title, one of the two source tags, and
    neither a document, a score nor a rank yet; its page number is the
    1-based position of a non-blank page of the document. *)
Theorem sections_for_ranking_well_formed
        (doc : pdf) (max_pages_per_doc : Z) (s : section) :
  In s (get_page_sections_for_ranking doc max_pages_per_doc) ->
  well_formed_section s
  /\ exists k page_text,
       nth_error doc k = Some page_text
       /\ page_number s = (Z.of_nat k + 1)%Z
       /\ blank page_text = false.
Proof. apply get_page_sections_sound. Qed.

(** X13. The page cap bounds the work: with a cap that is not negative the
    sections returned lie on at most that many different pages, and with
    cap 0 nothing is returned. *)
Theorem page_cap_bounds_pages (doc : pdf) (max_pages_per_doc : Z) :
  (0 <= max_pages_per_doc)%Z ->
  (Z.of_nat (length (pages_of (get_page_sections_for_ranking doc max_pages_per_doc)))
   <= max_pages_per_doc)%Z
  /\ (max_pages_per_doc = 0%Z -> get_page_sections_for_ranking doc max_pages_per_doc = []).
Proof.
  intros Hmax. split.
  - assert (Hlen : length (limited_pages doc max_pages_per_doc)
                   <= Z.to_nat max_pages_per_doc).
    { unfold limited_pages, slice_to. destruct (Z.leb_spec 0 max_pages_per_doc); [|lia].
      rewrite length_firstn. lia. }
    assert (Hincl : incl (pages_of (get_page_sections_for_ranking doc max_pages_per_doc))
                         (map p_page_number (limited_pages doc max_pages_per_doc))).
    { intros n Hn. unfold pages_of in Hn. apply nodup_In in Hn.
      apply in_map_iff in Hn. destruct Hn as (s & <- & Hs).
      unfold get_page_sections_for_ranking in Hs. apply in_flat_map in Hs.
      destruct Hs as (p & Hp & Hs). rewrite (sections_of_page_number _ _ Hs).
      apply in_map. exact Hp. }
    apply NoDup_incl_length in Hincl; [|apply NoDup_nodup].
    rewrite length_map in Hincl. lia.
  - intros ->. reflexivity.
Qed.

Lemma sections_of_page_nonempty p : sections_of_page p <> [].
Proof.
  unfold sections_of_page. destruct (p_sections p); cbn; discriminate.
Qed.

Lemma extract_loop_nil doc : forall n,
  extract_loop n doc = [] <-> forallb blank doc = true.
Proof.
  induction doc as [|text doc IH]; intros n; cbn [extract_loop forallb]; [tauto|].
  rewrite blank_truthy. destruct (blank text); cbn [negb andb].
  - apply IH.
  - split; discriminate.
Qed.

Lemma get_page_sections_nil (doc : pdf) (max_pages_per_doc : Z) :
  (1 <= max_pages_per_doc)%Z ->
  (get_page_sections_for_ranking doc max_pages_per_doc = []
   <-> forallb blank doc = true).
Proof.
  intros Hmax. unfold get_page_sections_for_ranking, limited_pages,
    extract_text_with_sections, slice_to.
  destruct (Z.leb_spec 0 max_pages_per_doc); [|lia].
  rewrite <- (extract_loop_nil doc 0).
  destruct (extract_loop 0 doc) as [|p ps].
  - rewrite firstn_nil. cbn. tauto.
  - destruct (Z.to_nat max_pages_per_doc) as [|m] eqn:E; [lia|].
    cbn [firstn flat_map]. split; [|discriminate].
    intros Hnil. apply app_eq_nil in Hnil. destruct Hnil as [Hnil _].
    exfalso. exact (sections_of_page_nonempty p Hnil).
Qed.

(** X14. Every page read contributes at least one section: with a cap of
    one page or more, [get_page_sections_for_ranking] returns nothing
    exactly when every page of the document is blank. *)
Theorem no_sections_iff_all_blank (doc : pdf) (max_pages_per_doc : Z) :
  (1 <= max_pages_per_doc)%Z ->
  (get_page_sections_for_ranking doc max_pages_per_doc = []
   <-> forallb blank doc = true).
Proof. apply get_page_sections_nil. Qed.

(** X15. A generated title is never longer than 60 characters. *)
Theorem generate_section_title_length (text : str) :
  (len (generate_section_title text) <= 60)%Z.
Proof.
  unfold generate_section_title.
  destruct (title_from_lines _) as [t|] eqn:E1.
  - clear - E1. revert E1. generalize (slice_to 5 (split [nl] (strip text))).
    intros lines. induction lines as [|line lines IH]; [discriminate|].
    cbn [title_from_lines]. cbv zeta.
    destruct (truthy (strip line) && _ && _); [|exact IH].
    match goal with
    | |- context [if ?c then Some ?x else None] => destruct c eqn:E
    end; [|exact IH].
    intros H. inversion H; subst t.
    rewrite !andb_true_iff in E. destruct E as [[_ E] _]. apply Z.leb_le. exact E.
  - destruct (title_from_patterns _ _) as [t|] eqn:E2.
    + clear - E2. revert E2. generalize food_patterns. intros patterns.
      induction patterns as [|r patterns IH]; [discriminate|].
      cbn [title_from_patterns]. destruct (Re.findall r text) as [|m ms]; [exact IH|].
      intros H. inversion H; subst t. apply len_slice_to. lia.
    + destruct (title_from_caps _) as [t|] eqn:E3.
      * clear - E3. revert E3. generalize (Re.findall cap_pattern text). intros matches.
        induction matches as [|m matches IH]; [discriminate|].
        cbn [title_from_caps].
        destruct ((2 <=? length (split_ws m))%nat); cbn [andb]; [|exact IH].
        destruct (Z.leb_spec (len m) 50); cbn [andb]; [|exact IH].
        destruct (negb _); [|exact IH].
        intros H'. inversion H'; subst t. lia.
      * cbv zeta. destruct (truthy _); [|cbn; lia].
        rewrite len_app.
        match goal with
        | |- (len (slice_to 50 ?t) + _ <= _)%Z =>
            pose proof (@len_slice_to 50 t ltac:(lia))
        end.
        destruct (50 <? _)%Z;
          [change (len (lit "...")) with 3%Z|change (len []) with 0%Z]; lia.
Qed.

End DetectMore.

Lemma sections_for_ranking_well_formed_witness :
  let s := Stmt.fallback_section (Extractor.mkPage 3 Sample.plain_page [] 7) in
  In s (Extractor.get_page_sections_for_ranking Sample.menu_pdf 5)
  /\ Vocab.well_formed_section s.
Proof.
  assert (H : In (Stmt.fallback_section (Extractor.mkPage 3 Sample.plain_page [] 7))
                 (Extractor.get_page_sections_for_ranking Sample.menu_pdf 5)).
  { vm_compute. right. left. reflexivity. }
  split; [exact H|].
  exact (proj1 (sections_for_ranking_well_formed Sample.menu_pdf 5 _ H)).
Defined.

Lemma page_cap_bounds_pages_witness :
  (0 <= 1)%Z
  /\ (Z.of_nat (length (Vocab.pages_of
                          (Extractor.get_page_sections_for_ranking Sample.menu_pdf 1)))
      <= 1)%Z.
Proof.
  assert (H : (0 <= 1)%Z) by (intros C; discriminate C).
  split; [exact H|].
  exact (proj1 (page_cap_bounds_pages Sample.menu_pdf H)).
Defined.

(** A negative cap is read as Python reads a negative slice bound: all the
    non-blank pages but the last ones. *)
Example negative_page_cap_drops_last_pages :
  map page_number (Extractor.get_page_sections_for_ranking Sample.menu_pdf (-1)) = [1%Z].
Proof. reflexivity. Qed.

Lemma no_sections_iff_all_blank_witness :
  (1 <= 5)%Z
  /\ (Extractor.get_page_sections_for_ranking [lit "  "; [nl]] 5 = []
      <-> forallb Vocab.blank [lit "  "; [nl]] = true).
Proof.
  assert (H : (1 <= 5)%Z) by (intros C; discriminate C).
  split; [exact H|].
  exact (no_sections_iff_all_blank [lit "  "; [nl]] H).
Defined.

(** ** The processing of a collection *)

Section ProcessFacts.
Import Py Ranker Extractor Stmt Vocab Process.

Lemma collect_map {A B} (f : A -> option B) (g : A -> B) l :
  (forall x, In x l -> f x = Some (g x)) -> collect f l = Some (map g l).
Proof.
  induction l as [|x l IH]; intros H; [reflexivity|]. cbn [collect map].
  rewrite (H x) by now left. rewrite IH; [reflexivity|].
  intros y Hy. apply H. now right.
Qed.

Lemma In_dedup_iff x l : In x (dedup l) <-> In x l.
Proof.
  split; [apply PyFacts.In_dedup|].
  induction l as [|y l IH]; [contradiction|]. cbn [dedup].
  intros [->|H]; [now left|].
  destruct (eqs y x) eqn:E.
  - apply PyFacts.eqs_eq in E. left. exact E.
  - right. apply filter_In. split; [apply IH; exact H|]. rewrite E. reflexivity.
Qed.

Lemma map_nth_seq {A} (l : list A) d :
  map (fun r => nth r l d) (seq 0 (length l)) = l.
Proof.
  induction l as [|x l IH]; [reflexivity|]. cbn [length seq map nth]. f_equal.
  rewrite <- seq_shift, map_map. exact IH.
Qed.

Lemma section_key_fixed d d' : same_fixed d d' -> section_key d = section_key d'.
Proof.
  intros (Hd & Hp & _ & Ht & _). unfold section_key. rewrite Hd, Hp, Ht. reflexivity.
Qed.

Lemma rank_loop_ranked refs : forall k st r,
  In r refs -> exists n, importance_rank (rank_loop k refs st r) = Some n.
Proof.
  induction refs as [|a refs IH]; intros k st r Hin; [contradiction|].
  cbn [rank_loop]. destruct (in_dec Nat.eq_dec r refs) as [Hr|Hr]; [apply IH; exact Hr|].
  destruct Hin as [->|Hin]; [|contradiction].
  rewrite rank_loop_outside by exact Hr. rewrite update_same. eexists. reflexivity.
Qed.

(** The sections of a document carry its file name, are well formed apart
    from that, and lie on a page numbered from 1. *)
Lemma process_single_sections doc fs s :
  In s (process_single_document_enhanced doc fs) ->
  document s = Some (filename doc)
  /\ text s <> []
  /\ (exists t, section_title s = Some t /\ t <> [])
  /\ (1 <= page_number s)%Z.
Proof.
  unfold process_single_document_enhanced. cbv zeta.
  destruct (fs (filename doc)) as [| |pages]; try contradiction.
  intros Hs. apply in_map_iff in Hs. destruct Hs as (s0 & <- & Hs0).
  apply get_page_sections_sound in Hs0.
  destruct Hs0 as ((_ & _ & _ & Ht & Htitle & _) & k & pt & _ & Hn & _).
  cbn [set_document document text section_title page_number].
  repeat split; auto. lia.
Qed.

Lemma process_single_nil doc fs :
  process_single_document_enhanced doc fs = [] <-> document_is_empty fs doc = true.
Proof.
  unfold process_single_document_enhanced, document_is_empty. cbv zeta.
  destruct (fs (filename doc)) as [| |pages]; try tauto.
  rewrite <- (get_page_sections_nil pages (max_pages_per_doc := 5)) by lia.
  split; [apply map_eq_nil|intros ->; reflexivity].
Qed.

Lemma all_sections_nil cfg fs :
  all_sections cfg fs = [] <-> forallb (document_is_empty fs) (documents cfg) = true.
Proof.
  unfold all_sections. induction (documents cfg) as [|doc docs IH];
    cbn [flat_map forallb]; [tauto|].
  rewrite andb_true_iff, <- IH, <- process_single_nil. split.
  - intros H. apply app_eq_nil in H. exact H.
  - intros [-> ->]. reflexivity.
Qed.

Lemma all_sections_sections cfg fs s :
  In s (all_sections cfg fs) ->
  (exists doc, In doc (documents cfg) /\ document s = Some (filename doc))
  /\ (exists t, section_title s = Some t /\ t <> [])
  /\ (1 <= page_number s)%Z.
Proof.
  unfold all_sections. intros Hs. apply in_flat_map in Hs.
  destruct Hs as (doc & Hdoc & Hs). apply process_single_sections in Hs.
  destruct Hs as (Hd & _ & Ht & Hp). split; [exists doc; auto|auto].
Qed.

(** The default budget of 1000 characters plus the three dots. *)
Lemma refined_text_default_budget role task text :
  (len (extract_refined_subsection role task text 1000) <= 1003)%Z.
Proof.
  unfold extract_refined_subsection.
  destruct (Z.leb_spec (len text) 1000) as [Hshort|Hlong].
  - pose proof (PyFacts.len_strip text). lia.
  - cbv zeta.
    match goal with
    | |- context [assemble 1000 [] ?ps] =>
        pose proof (@assemble_bound 1000 ps []) as Hasm;
        set (result_text := assemble 1000 [] ps) in *
    end.
    assert (Hres : (len result_text <= 1000 + 3)%Z)
      by (apply Hasm; unfold len; simpl; lia).
    destruct (truthy (strip result_text)).
    + pose proof (PyFacts.len_strip result_text). lia.
    + rewrite PyFacts.len_app. change (len (lit "...")) with 3%Z.
      pose proof (@PyFacts.len_slice_to 1000 text). lia.
Qed.

(** What the enhanced processing writes when some section was extracted. *)
Lemma enhanced_written cfg fs vectorize now :
  all_sections cfg fs <> [] ->
  exists st out,
    process_collection_documents_enhanced cfg fs vectorize now
    = Written
        (mkOutput
           (mkMetadata (dedup (map (fun r => get_or_empty (document (st r))) out))
                       (persona_role cfg) (job_task cfg) now
                       (Some (Z.of_nat (length (all_sections cfg fs)))))
           (map (entry_of st) out)
           (map (analysis_of (persona_role cfg) (job_task cfg) st) out))
    /\ Permutation out (seq 0 (length (all_sections cfg fs)))
    /\ map (fun r => importance_rank (st r)) out
       = map (fun n => Some (Z.of_nat n)) (seq 1 (length (all_sections cfg fs)))
    /\ forall r, In r out ->
         same_fixed (nth r (all_sections cfg fs) no_section) (st r)
         /\ In (nth r (all_sections cfg fs) no_section) (all_sections cfg fs).
Proof.
  intros Hne. unfold process_collection_documents_enhanced. cbv zeta.
  destruct (all_sections cfg fs) as [|s0 ss] eqn:Esec; [congruence|].
  rewrite <- Esec in *. clear s0 ss Esec.
  set (sections := all_sections cfg fs) in *.
  unfold allocate.
  set (st0 := fun r => nth r sections no_section).
  set (refs := seq 0 (length sections)).
  assert (Hrefs : refs <> []).
  { unfold refs. destruct sections; [congruence|discriminate]. }
  assert (Hnd : NoDup refs) by apply seq_NoDup.
  unfold create_enhanced_output.
  rewrite (rank_sections_run (persona_role cfg) (job_task cfg) vectorize st0 Hrefs).
  set (sims := similarities vectorize (persona_role cfg) (job_task cfg) st0 refs).
  set (st1 := score_loop (persona_role cfg) (job_task cfg) sims 0 refs st0).
  set (out := sorted_desc (score_of st1) refs).
  set (st' := rank_loop 1 out st1).
  assert (Hperm : Permutation out refs) by apply sorted_desc_perm.
  assert (Hfix : forall r, same_fixed (st0 r) (st' r)).
  { intros r. eapply same_fixed_trans; [apply score_loop_fixed|apply rank_loop_fixed]. }
  assert (Hin : forall r, In r out -> In (st0 r) sections).
  { intros r Hr. apply (Permutation_in _ Hperm) in Hr. unfold refs in Hr.
    apply in_seq in Hr. unfold st0. apply nth_In. lia. }
  assert (Hdoc : forall r, In r out ->
            document (st' r) = Some (get_or_empty (document (st' r)))).
  { intros r Hr. destruct (Hfix r) as (Hd & _). rewrite <- Hd.
    apply Hin in Hr. apply all_sections_sections in Hr.
    destruct Hr as ((doc & _ & ->) & _). reflexivity. }
  assert (Hrank : forall r, In r out -> exists n, importance_rank (st' r) = Some n)
    by (intros r Hr; apply rank_loop_ranked; exact Hr).
  rewrite (collect_map _ (fun r => get_or_empty (document (st' r))) out Hdoc).
  rewrite (collect_map (extracted_entry st') (entry_of st') out).
  2:{ intros r Hr. unfold extracted_entry, entry_of, section_key.
      rewrite (Hdoc r Hr). destruct (Hrank r Hr) as (n & ->). reflexivity. }
  rewrite (collect_map (subsection_entry (persona_role cfg) (job_task cfg) st')
                       (analysis_of (persona_role cfg) (job_task cfg) st') out).
  2:{ intros r Hr. unfold subsection_entry, analysis_of. cbv zeta.
      rewrite (Hdoc r Hr). reflexivity. }
  cbn [snd]. exists st', out.
  assert (Hlen : length out = length sections).
  { rewrite (Permutation_length Hperm). unfold refs. apply length_seq. }
  rewrite Hlen. split; [reflexivity|]. split; [exact Hperm|]. split.
  - unfold st'. rewrite rank_loop_ranks
      by (eapply Permutation_NoDup; [symmetry; exact Hperm|exact Hnd]).
    rewrite Hlen, <- seq_shift, map_map. apply map_ext. intros j. f_equal. lia.
  - intros r Hr. split; [apply Hfix|apply Hin; exact Hr].
Qed.

(** X16. The enhanced processing of a collection never lets an exception
    of the ranking or of the output assembly escape (every key it reads is
    there), and it returns without writing exactly when no document adds a
    section: each file is missing or unreadable, or all its pages are
    blank. *)
Theorem enhanced_processing_outcome
        (cfg : config) (fs : files) (vectorize : list str -> option (list Q))
        (now : str) :
  process_collection_documents_enhanced cfg fs vectorize now <> Raised
  /\ (process_collection_documents_enhanced cfg fs vectorize now = NoSections
      <-> forallb (document_is_empty fs) (documents cfg) = true).
Proof.
  rewrite <- all_sections_nil.
  destruct (all_sections cfg fs) as [|s0 ss] eqn:E.
  - unfold process_collection_documents_enhanced. cbv zeta. rewrite E.
    split; [discriminate|tauto].
  - assert (Hne : all_sections cfg fs <> []) by (rewrite E; discriminate).
    destruct (enhanced_written cfg fs vectorize now Hne) as (st & out & -> & _).
    split; [discriminate|]. split; discriminate.
Qed.

(** X17. In the output that the enhanced processing writes, the extracted
    sections are the collected sections, none added and none dropped (by
    document, title and page), their importance ranks are 1, 2, ..., N in
    list order, N is the total recorded in the metadata, and the subsection
    list runs parallel to the extracted list: same length, same document
    and page at every position. *)
Theorem enhanced_output_ranked
        (cfg : config) (fs : files) (vectorize : list str -> option (list Q))
        (now : str) (o : output) :
  process_collection_documents_enhanced cfg fs vectorize now = Written o ->
  let n := length (all_sections cfg fs) in
  map e_importance_rank (extracted_sections o) = ranks n
  /\ total_sections_analyzed (o_metadata o) = Some (Z.of_nat n)
  /\ map (fun e => (e_document e, e_page_number e)) (extracted_sections o)
     = map (fun s => (s_document s, s_page_number s)) (subsection_analysis o)
  /\ Permutation (map extracted_key (extracted_sections o))
                 (map section_key (all_sections cfg fs))
  /\ persona (o_metadata o) = persona_role cfg
  /\ job_to_be_done (o_metadata o) = job_task cfg.
Proof.
  intros Hw. cbv zeta.
  assert (Hne : all_sections cfg fs <> []).
  { intros E. unfold process_collection_documents_enhanced in Hw. cbv zeta in Hw.
    rewrite E in Hw. discriminate. }
  destruct (enhanced_written cfg fs vectorize now Hne)
    as (st & out & Hrun & Hperm & Hranks & Hst).
  rewrite Hrun in Hw. inversion Hw; subst o. clear Hw.
  cbn [extracted_sections subsection_analysis o_metadata total_sections_analyzed
       persona job_to_be_done].
  split; [|split; [reflexivity|split; [|split; [|split; reflexivity]]]].
  - unfold ranks. rewrite map_map. unfold entry_of. cbn [e_importance_rank].
    apply (f_equal (map (fun o => match o with Some k => k | None => 0%Z end))) in Hranks.
    rewrite !map_map in Hranks. exact Hranks.
  - rewrite !map_map. apply map_ext. intros r. reflexivity.
  - rewrite map_map.
    transitivity (map (fun r => section_key (st r)) (seq 0 (length (all_sections cfg fs)))).
    + erewrite map_ext; [apply Permutation_map; exact Hperm|].
      intros r. unfold extracted_key, entry_of. cbn.
      destruct (section_key (st r)) as [[d t] p] eqn:E. cbn.
      unfold section_key in E. inversion E. reflexivity.
    + rewrite <- (map_nth_seq (all_sections cfg fs) no_section) at 2.
      rewrite map_map. apply Permutation_refl'.
      apply map_ext_in. intros r Hr. symmetry. apply section_key_fixed.
      eapply same_fixed_trans; [apply same_fixed_refl|].
      apply Hst. eapply Permutation_in; [symmetry; exact Hperm|exact Hr].
Qed.

(** X18. In the output that the enhanced processing writes, every
    extracted section has a non-empty title, a page number of at least 1
    and the file name of a configured document; every refined text has at
    most 1003 characters; and [input_documents] lists, each once, exactly
    the documents that have a section in the output. *)
Theorem enhanced_output_entries
        (cfg : config) (fs : files) (vectorize : list str -> option (list Q))
        (now : str) (o : output) :
  process_collection_documents_enhanced cfg fs vectorize now = Written o ->
  (forall e, In e (extracted_sections o) ->
     e_section_title e <> [] /\ (1 <= e_page_number e)%Z
     /\ In (e_document e) (map filename (documents cfg)))
  /\ (forall s, In s (subsection_analysis o) -> (len (s_refined_text s) <= 1003)%Z)
  /\ NoDup (input_documents (o_metadata o))
  /\ (forall d, In d (input_documents (o_metadata o))
                <-> In d (map e_document (extracted_sections o))).
Proof.
  intros Hw.
  assert (Hne : all_sections cfg fs <> []).
  { intros E. unfold process_collection_documents_enhanced in Hw. cbv zeta in Hw.
    rewrite E in Hw. discriminate. }
  destruct (enhanced_written cfg fs vectorize now Hne)
    as (st & out & Hrun & Hperm & Hranks & Hst).
  rewrite Hrun in Hw. inversion Hw; subst o. clear Hw.
  cbn [extracted_sections subsection_analysis o_metadata input_documents].
  split; [|split; [|split]].
  - intros e He. apply in_map_iff in He. destruct He as (r & <- & Hr).
    destruct (Hst r Hr) as ((Hd & Hp & _ & Ht & _) & Hin).
    apply all_sections_sections in Hin.
    destruct Hin as ((doc & Hdoc & Hdn) & (t & Htt & Htne) & Hpage).
    unfold entry_of, section_key. cbn [e_section_title e_page_number e_document fst snd].
    rewrite <- Hd, <- Hp, <- Ht, Hdn, Htt. cbn [get_or_empty].
    repeat split; auto. apply in_map. exact Hdoc.
  - intros s Hs. apply in_map_iff in Hs. destruct Hs as (r & <- & _).
    cbn [analysis_of s_refined_text]. apply refined_text_default_budget.
  - apply KeywordFacts.distinct_NoDup. apply KeywordFacts.distinct_dedup.
  - intros d. rewrite In_dedup_iff, map_map. unfold entry_of, section_key.
    cbn [e_document fst]. tauto.
Qed.

(** *** Simple mode *)

Lemma combine_seq_In {A} (l : list A) : forall first i x,
  In (i, x) (combine (seq first (length l)) l) -> first <= i < first + length l.
Proof.
  induction l as [|y l IH]; intros first i x H; [contradiction|].
  cbn [length seq combine In] in H. destruct H as [H|H].
  - inversion H; subst. cbn [length]. lia.
  - apply IH in H. cbn [length]. lia.
Qed.

Lemma length_slice_to_3 {A} (l : list A) : length (slice_to 3 l) <= 3.
Proof. unfold slice_to. cbn. rewrite length_firstn. lia. Qed.

(** The entries that simple mode adds for one document. *)
Lemma simple_entries_shape
      (parse : pdf -> option (list (Z * str))) (doc : doc_config) (fs : files) :
  let extracted := fst (simple_entries parse doc fs) in
  let analysis := snd (simple_entries parse doc fs) in
  length extracted <= 3
  /\ map (fun e => (e_document e, e_page_number e)) extracted
     = map (fun s => (s_document s, s_page_number s)) analysis
  /\ map e_importance_rank extracted = ranks (length extracted)
  /\ (forall e, In e extracted ->
        e_document e = filename doc /\ e_section_title e = title doc)
  /\ (forall s, In s analysis -> (len (s_refined_text s) <= 300)%Z).
Proof.
  cbv zeta. unfold simple_entries. cbv zeta.
  assert (Hnil : length (@nil extracted_section) <= 3
     /\ map (fun e => (e_document e, e_page_number e)) []
        = map (fun s => (s_document s, s_page_number s)) []
     /\ map e_importance_rank [] = ranks (length (@nil extracted_section))
     /\ (forall e, In e (@nil extracted_section) ->
           e_document e = filename doc /\ e_section_title e = title doc)
     /\ (forall s, In s (@nil subsection) -> (len (s_refined_text s) <= 300)%Z)).
  { cbn. repeat split; try lia; contradiction. }
  destruct (fs (filename doc)) as [| |d]; try exact Hnil.
  destruct (parse d) as [all_pages|]; [|exact Hnil]. cbn [fst snd].
  set (pages := slice_to 3 all_pages).
  assert (Hlen : length (combine (seq 0 (length pages)) pages) = length pages)
    by (rewrite length_combine, length_seq; lia).
  rewrite length_map, Hlen.
  split; [apply length_slice_to_3|]. split; [|split; [|split]].
  - rewrite !map_map. reflexivity.
  - rewrite map_map. cbn [e_importance_rank]. unfold ranks.
    rewrite <- seq_shift, map_map.
    rewrite <- (map_map fst (fun i => Z.of_nat i + 1)%Z).
    assert (Hfst : forall (l : list (Z * str)) first,
               map fst (combine (seq first (length l)) l) = seq first (length l)).
    { induction l as [|y l IH]; intros first; [reflexivity|].
      cbn [length seq combine map fst]. f_equal. apply IH. }
    rewrite Hfst. apply map_ext. intros i. lia.
  - intros e He. apply in_map_iff in He. destruct He as (ip & <- & _). auto.
  - intros s Hs. apply in_map_iff in Hs. destruct Hs as (ip & <- & _).
    cbn [s_refined_text]. apply PyFacts.len_slice_to. lia.
Qed.

Lemma flat_map_of_map {A B C} (f : A -> B) (g : B -> list C) l :
  flat_map g (map f l) = flat_map (fun x => g (f x)) l.
Proof. induction l as [|x l IH]; [reflexivity|]. cbn [map flat_map]. now rewrite IH. Qed.

Lemma map_flat_map {A B C} (f : A -> list B) (g : B -> C) l :
  map g (flat_map f l) = flat_map (fun x => map g (f x)) l.
Proof.
  induction l as [|x l IH]; [reflexivity|]. cbn [flat_map]. now rewrite map_app, IH.
Qed.

(** X19. The output of simple mode: each configured document gives at most
    three entries; the importance ranks are 1, 2, 3 within each document,
    so they start again at 1 for every document and are not distinct
    across the collection; the subsection list runs parallel to the
    extracted list (same document and page at every position); every
    entry carries the file name and the configured title of its document;
    and every refined text has at most 300 characters.  [parse] stands for
    the page reader of [utils.parser]. *)
Theorem simple_mode_output
        (parse : pdf -> option (list (Z * str))) (cfg : config) (fs : files)
        (now : str) :
  let o := process_collection_documents_simple parse cfg fs now in
  let count doc := length (fst (simple_entries parse doc fs)) in
  (forall doc, count doc <= 3)
  /\ map e_importance_rank (extracted_sections o)
     = flat_map (fun doc => ranks (count doc)) (documents cfg)
  /\ map (fun e => (e_document e, e_page_number e)) (extracted_sections o)
     = map (fun s => (s_document s, s_page_number s)) (subsection_analysis o)
  /\ (forall e, In e (extracted_sections o) ->
        exists doc, In doc (documents cfg)
                    /\ e_document e = filename doc /\ e_section_title e = title doc)
  /\ (forall s, In s (subsection_analysis o) -> (len (s_refined_text s) <= 300)%Z).
Proof.
  cbv zeta. unfold process_collection_documents_simple. cbv zeta.
  cbn [extracted_sections subsection_analysis]. rewrite !flat_map_of_map.
  split; [|split; [|split; [|split]]].
  - intros doc. apply (simple_entries_shape parse doc fs).
  - rewrite map_flat_map. apply flat_map_ext. intros doc.
    apply (simple_entries_shape parse doc fs).
  - rewrite !map_flat_map. apply flat_map_ext. intros doc.
    apply (simple_entries_shape parse doc fs).
  - intros e He. apply in_flat_map in He. destruct He as (doc & Hdoc & He).
    exists doc. split; [exact Hdoc|].
    apply (simple_entries_shape parse doc fs). exact He.
  - intros s Hs. apply in_flat_map in Hs. destruct Hs as (doc & _ & Hs).
    apply (simple_entries_shape parse doc fs). exact Hs.
Qed.

End ProcessFacts.

Lemma enhanced_output_ranked_witness :
  Process.process_collection_documents_enhanced
    Collection.cfg Collection.fs Collection.vectorize Collection.now
  = Process.Written Collection.written
  /\ map Process.e_importance_rank (Process.extracted_sections Collection.written)
     = [1; 2]%Z.
Proof.
  assert (H : Process.process_collection_documents_enhanced
                Collection.cfg Collection.fs Collection.vectorize Collection.now
              = Process.Written Collection.written) by (vm_compute; reflexivity).
  split; [exact H|].
  exact (proj1 (enhanced_output_ranked _ _ _ _ H)).
Defined.

Lemma enhanced_output_entries_witness :
  Process.process_collection_documents_enhanced
    Collection.cfg Collection.fs Collection.vectorize Collection.now
  = Process.Written Collection.written
  /\ NoDup (Process.input_documents (Process.o_metadata Collection.written)).
Proof.
  assert (H : Process.process_collection_documents_enhanced
                Collection.cfg Collection.fs Collection.vectorize Collection.now
              = Process.Written Collection.written) by (vm_compute; reflexivity).
  split; [exact H|].
  exact (proj1 (proj2 (proj2 (enhanced_output_entries _ _ _ _ H)))).
Defined.

(** The sample collection: the header section of page 1 and the fallback
    section of page 3, titled by its first line, of the one document that
    has a file. *)
Example sample_collection_output :
  map Vocab.extracted_key (Process.extracted_sections Collection.written)
  = [(lit "menu.pdf", lit "Chicken Salad Bowl", 1%Z);
     (lit "menu.pdf", lit "mix the sauce well", 3%Z)]
  /\ Process.input_documents (Process.o_metadata Collection.written) = [lit "menu.pdf"].
Proof. vm_compute. split; reflexivity. Qed.

(** ** The leading run of a line *)

Module LeadFacts.
Import Py Re Vocab.

Section Anchored.
Variable p : ascii -> bool.

Lemma length_drop_while s : length (drop_while p s) <= length s.
Proof.
  induction s as [|c s IH]; cbn [drop_while length]; [lia|].
  destruct (p c); cbn [length]; lia.
Qed.

Lemma drop_while_hd s c t : drop_while p s = c :: t -> p c = false.
Proof.
  induction s as [|x s IH]; cbn [drop_while]; [discriminate|].
  destruct (p x) eqn:E; [exact IH|]. intros H. inversion H; subst. exact E.
Qed.

Lemma skipn_drop_while s :
  skipn (length s - length (drop_while p s)) s = drop_while p s.
Proof.
  induction s as [|c s IH]; [reflexivity|]. cbn [drop_while].
  destruct (p c).
  - pose proof (length_drop_while s).
    replace (length (c :: s) - length (drop_while p s))
      with (S (length s - length (drop_while p s))) by (cbn [length]; lia).
    exact IH.
  - rewrite Nat.sub_diag. reflexivity.
Qed.

(** The greedy repetition reads the whole run. *)
Lemma rep_chr_star fuel : forall s pv cp,
  length s < fuel ->
  exists st,
    rep (run (Chr p)) fuel 0 None (mkState pv s cp) (fun st => Some st) = Some st
    /\ rest st = drop_while p s.
Proof.
  induction fuel as [|f IH]; intros s pv cp Hf; [lia|].
  cbn [rep run rest]. destruct s as [|c s'].
  - eexists. split; reflexivity.
  - cbn [drop_while]. destruct (p c) eqn:E.
    + cbn [rest length cap pred option_map].
      rewrite (proj2 (Nat.ltb_lt (length s') (S (length s')))) by lia.
      destruct (IH s' (Some c) cp) as (st & H1 & H2); [cbn [length] in Hf; lia|].
      cbn [run] in H1. rewrite H1. exists st. split; [reflexivity|exact H2].
    + eexists. split; reflexivity.
Qed.

Lemma match_at_run c s :
  p c = true ->
  exists st, match_at (anchored_run p) None (c :: s) = Some st /\ rest st = drop_while p s.
Proof.
  intros E. unfold match_at, anchored_run, plus. cbn [run prev rest rep]. rewrite E.
  cbn [rest length cap pred option_map].
  rewrite (proj2 (Nat.ltb_lt (length s) (S (length s)))) by lia.
  destruct (@rep_chr_star (S (length s)) s (Some c) None) as (st & H1 & H2); [lia|].
  cbn [run] in H1. rewrite H1. exists st. split; [reflexivity|exact H2].
Qed.

Lemma match_at_no_run c s : p c = false -> match_at (anchored_run p) None (c :: s) = None.
Proof.
  intros E. unfold match_at, anchored_run, plus. cbn [run prev rest rep]. rewrite E.
  reflexivity.
Qed.

(** After the start of the string the pattern matches nowhere. *)
Lemma sub_aux_anchored s : forall c k, sub_aux (anchored_run p) (Some c) k s = skipn k s.
Proof.
  induction s as [|a s IH]; intros c k; cbn [sub_aux]; [destruct k; reflexivity|].
  destruct k as [|k]; [|apply IH].
  unfold match_at, anchored_run. cbn [run prev]. rewrite IH. reflexivity.
Qed.

Lemma sub_empty_anchored s : sub_empty (anchored_run p) s = drop_while p s.
Proof.
  destruct s as [|c s]; [reflexivity|]. unfold sub_empty. cbn [sub_aux drop_while].
  destruct (p c) eqn:E.
  - destruct (match_at_run s E) as (st & -> & Hrest). rewrite Hrest.
    pose proof (length_drop_while s).
    replace (length (c :: s) - length (drop_while p s))
      with (S (length s - length (drop_while p s))) by (cbn [length]; lia).
    rewrite sub_aux_anchored. apply skipn_drop_while.
  - rewrite (match_at_no_run s E), sub_aux_anchored. reflexivity.
Qed.

End Anchored.

Lemma lstrip_app_last l c : isspace c = false -> lstrip (l ++ [c]) = lstrip l ++ [c].
Proof.
  intros E. induction l as [|x l IH]; cbn [lstrip app]; [rewrite E; reflexivity|].
  destruct (isspace x); [exact IH|reflexivity].
Qed.

Lemma strip_keeps_hd c t : isspace c = false -> exists t', strip (c :: t) = c :: t'.
Proof.
  intros E. unfold strip. cbn [lstrip]. rewrite E. cbn [rev].
  rewrite lstrip_app_last by exact E. rewrite rev_app_distr. cbn [rev app]. eexists. reflexivity.
Qed.

Lemma isdigit_lower_char c : isdigit (lower_char c) = isdigit c.
Proof. destruct c as [[] [] [] [] [] [] [] []]; reflexivity. Qed.

Lemma clean_line_hd line c t : clean_line line = c :: t -> lead_char c = false.
Proof.
  unfold clean_line.
  change Extractor.header_lead_re with (anchored_run lead_char).
  rewrite sub_empty_anchored.
  destruct (drop_while lead_char line) as [|c0 t0] eqn:E; [discriminate|].
  apply drop_while_hd in E.
  assert (Hs : isspace c0 = false).
  { unfold lead_char in E. apply orb_false_iff in E. destruct E as [E _].
    apply orb_false_iff in E. tauto. }
  destruct (@strip_keeps_hd c0 t0 Hs) as (t' & ->). intros H. inversion H; subst. exact E.
Qed.

(** A pattern that asks for a digit at the start of the string fails on a
    string that does not start with one. *)
Lemma digits_first_fails r s :
  (forall c t, s = c :: t -> isdigit c = false) ->
  re_match (Seq Bol (Seq (plus dg) r)) s = false.
Proof.
  intros H. unfold re_match, match_at, plus, dg. cbn [run prev rest rep].
  destruct s as [|c t]; [reflexivity|]. rewrite (H c t eq_refl). reflexivity.
Qed.

End LeadFacts.

Section HeaderMore.
Import Py Re Extractor Vocab LeadFacts.

(** X20. The line that [is_section_header] tests after removing the
    leading run never starts with a blank, a digit or one of the signs
    removed, so two of its tests can never succeed: the pattern of
    numbered sections (digits, a dot, a title) matches no cleaned line,
    and neither does the filter for measured quantities (digits and a
    unit); a line that starts with a number is judged by what follows the
    number. *)
Theorem cleaned_line_never_starts_with_digit (line : str) :
  (forall c t, clean_line line = c :: t ->
     isspace c = false /\ isdigit c = false /\ one_of "-*.)(" c = false)
  /\ re_match numbered_pattern (clean_line line) = false
  /\ re_match quantity_re (lower (clean_line line)) = false.
Proof.
  assert (Hhd : forall c t, clean_line line = c :: t ->
            isspace c = false /\ isdigit c = false /\ one_of "-*.)(" c = false).
  { intros c t H. apply clean_line_hd in H. unfold lead_char in H.
    apply orb_false_iff in H. destruct H as [H H3].
    apply orb_false_iff in H. tauto. }
  split; [exact Hhd|]. split.
  - unfold numbered_pattern, section_patterns. cbn [nth seqs].
    apply digits_first_fails. intros c t H. apply (Hhd c t H).
  - unfold quantity_re. cbn [seqs]. apply digits_first_fails.
    intros c t H. destruct (clean_line line) as [|c0 t0] eqn:E; [discriminate|].
    cbn [lower map] in H. inversion H; subst.
    rewrite isdigit_lower_char. apply (Hhd c0 t0 eq_refl).
Qed.

(** A measured quantity written with a capital passes as a header, and a
    numbered heading is accepted through the patterns without a number. *)
Example quantity_line_is_a_header :
  clean_line (lit "2 Cups Flour") = lit "Cups Flour"
  /\ is_section_header (lit "2 Cups Flour") = true
  /\ is_section_header (lit "2 cups flour") = false
  /\ is_section_header (lit "1. Project Overview") = true.
Proof. vm_compute. repeat split; reflexivity. Qed.

End HeaderMore.

(** ** [ContentRanker.extract_section_title] *)

Section TitleMore.
Import Py Re Title Vocab.

Lemma split_aux_nonempty sep s : forall skip cur, split_aux sep skip cur s <> [].
Proof.
  induction s as [|c s IH]; intros skip cur; cbn [split_aux]; [discriminate|].
  destruct skip; [|apply IH]. destruct (startswith sep (c :: s)); [discriminate|].
  apply IH.
Qed.

Lemma title_from_lines_bound max_length lines t :
  title_from_lines max_length lines = Some t -> (len t <= max_length)%Z.
Proof.
  induction lines as [|line lines IH]; cbn [title_from_lines]; [discriminate|].
  cbv zeta.
  destruct (truthy (strip line) && (len (strip line) <? max_length)%Z); [|exact IH].
  set (clean_line := strip (sub_empty junk_re (sub_empty lead_re (strip line)))).
  destruct ((2 <=? length (split_ws clean_line))%nat) ; cbn [andb]; [|exact IH].
  destruct (Z.leb_spec (len clean_line) max_length) as [Hle|Hgt]; cbn [andb];
    [|exact IH].
  destruct (negb _); [|exact IH].
  intros H. inversion H; subst t. pose proof (PyFacts.len_strip clean_line). lia.
Qed.

Lemma title_from_patterns_bound max_length patterns text t :
  (0 <= max_length)%Z ->
  title_from_patterns max_length patterns text = Some t -> (len t <= max_length)%Z.
Proof.
  intros Hm. induction patterns as [|pattern patterns IH];
    cbn [title_from_patterns]; [discriminate|].
  destruct (findall pattern text) as [|m ms]; [exact IH|].
  intros H. inversion H; subst t. apply PyFacts.len_slice_to. exact Hm.
Qed.

Lemma title_from_sentences_bound max_length sentences t :
  title_from_sentences max_length sentences = Some t -> (len t <= max_length)%Z.
Proof.
  induction sentences as [|s sentences IH]; cbn [title_from_sentences];
    [discriminate|]. cbv zeta.
  destruct ((3 <=? length (split_ws (strip s)))%nat); cbn [andb]; [|exact IH].
  destruct (Z.leb_spec (len (strip s)) max_length) as [Hle|Hgt]; [|exact IH].
  intros H. inversion H; subst t. exact Hle.
Qed.

(** X21. For a non-negative [max_length] the title that
    [extract_section_title] returns is at most [max_length] characters
    long, whichever of its four stages produced it; the closing literal
    of fifteen characters cannot break the bound, because the list of
    lines is never empty. *)
Theorem extract_section_title_length (text : str) (max_length : Z) :
  (0 <= max_length)%Z ->
  (len (extract_section_title text max_length) <= max_length)%Z.
Proof.
  intros Hm. unfold extract_section_title. cbv zeta.
  destruct (title_from_lines max_length _) as [t|] eqn:E1;
    [eapply title_from_lines_bound; exact E1|].
  destruct (title_from_patterns max_length _ _) as [t|] eqn:E2;
    [eapply title_from_patterns_bound; [exact Hm|exact E2]|].
  destruct (title_from_sentences max_length _) as [t|] eqn:E3;
    [eapply title_from_sentences_bound; exact E3|].
  destruct (split [nl] (strip text)) as [|line lines] eqn:E.
  - exfalso. eapply split_aux_nonempty. exact E.
  - pose proof (PyFacts.len_strip (slice_to max_length line)).
    pose proof (@PyFacts.len_slice_to max_length line Hm). lia.
Qed.

Lemma isspace_not_word c : isspace c = true -> isword c = false.
Proof. destruct c as [[] [] [] [] [] [] [] []]; cbn; congruence. Qed.

(** A pattern that starts with a word boundary matches nowhere in a text
    without word characters. *)
Lemma findall_aux_no_word r s : forall p skip,
  wordp p = false -> (forall c, In c s -> isword c = false) ->
  findall_aux (Seq Wordb r) p skip s = [].
Proof.
  induction s as [|c s IH]; intros p skip Hp Hs; cbn [findall_aux].
  - destruct skip; [|reflexivity].
    unfold match_at. cbn [run prev rest hd_error]. rewrite Hp. reflexivity.
  - assert (Hc : isword c = false) by (apply Hs; now left).
    assert (Hs' : forall x, In x s -> isword x = false)
      by (intros x Hx; apply Hs; now right).
    destruct skip; [|apply IH; assumption].
    unfold match_at. cbn [run prev rest hd_error wordp]. rewrite Hp, Hc.
    cbn [xorb]. apply IH; assumption.
Qed.

Lemma split_class_aux_blank p s : forall cur,
  blank s = true -> blank cur = true ->
  forall x, In x (split_class_aux p cur s) -> blank x = true.
Proof.
  induction s as [|c s IH]; intros cur Hs Hcur x Hx; cbn [split_class_aux] in Hx.
  - destruct Hx as [<-|[]]. rewrite SpaceFacts.blank_rev. exact Hcur.
  - unfold blank in Hs. cbn [forallb] in Hs. apply andb_true_iff in Hs.
    destruct Hs as [Hc Hs]. destruct (p c).
    + destruct Hx as [<-|Hx]; [rewrite SpaceFacts.blank_rev; exact Hcur|].
      exact (IH [] Hs eq_refl x Hx).
    + eapply IH; [exact Hs| |exact Hx]. unfold blank. cbn [forallb].
      rewrite Hc. exact Hcur.
Qed.

Lemma title_from_sentences_blank max_length sentences :
  (forall x, In x sentences -> blank x = true) ->
  title_from_sentences max_length sentences = None.
Proof.
  induction sentences as [|s sentences IH]; intros H; [reflexivity|].
  cbn [title_from_sentences]. cbv zeta.
  rewrite (proj2 (SpaceFacts.strip_nil s)) by (apply H; now left).
  cbn [split_ws split_ws_aux length Nat.leb andb]. apply IH.
  intros x Hx. apply H. now right.
Qed.

(** X22. On a text of whitespace only, the empty text included, every
    stage of [extract_section_title] fails and the title is the empty
    string for every [max_length]: the literal that closes the method is
    not what an empty text gets. *)
Theorem extract_section_title_of_blank_text (text : str) (max_length : Z) :
  blank text = true -> extract_section_title text max_length = [].
Proof.
  intros Hb. unfold extract_section_title. cbv zeta.
  rewrite (proj2 (SpaceFacts.strip_nil text) Hb).
  assert (Hlines : title_from_lines max_length (slice_to 8 (split [nl] [])) = None)
    by reflexivity.
  rewrite Hlines.
  assert (Hw : forall c, In c text -> isword c = false).
  { intros c Hc. apply isspace_not_word. apply (proj1 (SpaceFacts.blank_In text) Hb c Hc). }
  assert (Hpat : title_from_patterns max_length food_patterns text = None).
  { unfold food_patterns. cbn [title_from_patterns seqs]. unfold findall.
    rewrite !findall_aux_no_word by (reflexivity || exact Hw). reflexivity. }
  rewrite Hpat.
  rewrite title_from_sentences_blank.
  - change (split [nl] []) with [@nil ascii]. cbv iota.
    unfold slice_to. destruct (0 <=? max_length)%Z; rewrite firstn_nil; reflexivity.
  - intros x Hx. exact (@split_class_aux_blank _ text [] Hb eq_refl x Hx).
Qed.

End TitleMore.

Lemma extract_section_title_length_witness :
  (0 <= 20)%Z
  /\ (Py.len (Title.extract_section_title
                (lit "1. Fresh tomato soup, served hot!") 20) <= 20)%Z.
Proof.
  assert (H : (0 <= 20)%Z) by (intros C; discriminate C).
  split; [exact H|].
  exact (extract_section_title_length (lit "1. Fresh tomato soup, served hot!") H).
Defined.

Lemma extract_section_title_of_blank_text_witness :
  Vocab.blank (lit "   ") = true
  /\ Title.extract_section_title (lit "   ") 100 = [].
Proof.
  assert (H : Vocab.blank (lit "   ") = true) by reflexivity.
  split; [exact H|].
  exact (extract_section_title_of_blank_text (lit "   ") 100 H).
Defined.

(** The four stages: a line of the text, a pattern match cut to the
    bound, a sentence, and the cut first line. *)
Example extract_section_title_stages :
  Title.extract_section_title (lit "1. Fresh tomato soup, served hot!") 100
  = lit "Fresh tomato soup served hot"
  /\ Title.extract_section_title (lit "1. Fresh tomato soup, served hot!") 10
     = lit "Fresh toma"
  /\ Title.extract_section_title (lit "now" ++ [nl] ++ lit "we" ++ [nl] ++ lit "eat") 100
     = lit "now" ++ [nl] ++ lit "we" ++ [nl] ++ lit "eat"
  /\ Title.extract_section_title (lit "Soup") 100 = lit "Soup".
Proof. vm_compute. repeat split; reflexivity. Qed.
